(** * Reservation and approval engine of the event resource manager

    A shallow embedding of the request handlers of [app.py]
    ([new_event], [approve_event], [reject_event], [complete_event]) over
    the relational schema of [database.py], followed by the properties of
    the inventory ledger, the booking validator and the approval state
    machine.

    Modelling conventions.
    - A table is the list of its rows in rowid order; an [INSERT] appends,
      an [UPDATE ... WHERE] maps over the rows, a [SELECT ... fetchone()]
      without [ORDER BY] is [find] (a table scan in rowid order).
    - [INTEGER] columns and Python integers are [Z]; [TEXT] columns and
      Python strings are [string], read as sequences of code points below
      256.  SQLite compares [TEXT] bytewise, which on such strings is the
      lexicographic order [String.leb].
    - A handler runs on one connection: its writes are visible to its own
      later reads, and they reach the store only at [db.commit()].  A
      handler that returns early or raises closes the connection without
      a commit, so the store is the one it started from.
    - Python integers are unbounded and an SQLite [INTEGER] has 64 bits:
      binding an integer outside that range as the parameter of a
      statement raises [OverflowError] before the statement runs
      ([Sql.fits]).  The integers of a form are arbitrary; those of the
      store, of a session and of a URL are in range.
    - The keys and [CHECK]s of the schema are constraints on the store,
      not steps of a handler: on a store that satisfies them no statement
      of the four handlers violates one, so none raises an integrity
      error.
    - Columns the handlers never read ([password_hash], [location],
      [created_at], the surrogate ids of [event_resources], [approvals]
      and [notifications]) are left out. *)

From Stdlib Require Import ZArith List String Ascii Bool Lia Permutation Sorted.
Import ListNotations.

Local Open Scope string_scope.
Local Open Scope list_scope.
Local Open Scope Z_scope.

Set Implicit Arguments.

(** ** Strings *)

Module Str.

(** The code points below 256 on which Python's [str.isspace] holds. *)
Definition is_space (c : ascii) : bool :=
  let n := N_of_ascii c in
  ((9 <=? n) && (n <=? 13) || (28 <=? n) && (n <=? 32) ||
   (n =? 133) || (n =? 160))%N.

Fixpoint lstrip (s : string) : string :=
  match s with
  | EmptyString => EmptyString
  | String c s' => if is_space c then lstrip s' else s
  end.

Fixpoint rstrip (s : string) : string :=
  match s with
  | EmptyString => EmptyString
  | String c s' =>
      match rstrip s' with
      | EmptyString => if is_space c then EmptyString else String c EmptyString
      | t => String c t
      end
  end.

(** [str.strip()] *)
Definition strip (s : string) : string := rstrip (lstrip s).

(** Truth value of a Python string: non-empty. *)
Definition truthy (s : string) : bool :=
  match s with EmptyString => false | String _ _ => true end.

(** [x in (a, b, ...)] on strings, and SQL [x IN (...)]. *)
Definition mem (x : string) (l : list string) : bool :=
  existsb (String.eqb x) l.

End Str.

(** ** Schema ([database.py]) *)

Record user := mkUser {
  u_id : Z;
  u_role : string
}.

Record venue := mkVenue {
  v_id : Z;
  v_name : string;
  v_capacity : Z
}.

Record resource := mkResource {
  r_id : Z;
  r_name : string;
  total_quantity : Z;
  available_quantity : Z
}.

Record event := mkEvent {
  e_id : Z;
  title : string;
  description : string;
  event_date : string;
  start_time : string;
  end_time : string;
  expected_attendees : Z;
  venue_id : Z;
  status : string;
  current_approver_role : string;
  created_by : Z;
  rejection_reason : string
}.

Record event_resource := mkHold {
  er_event_id : Z;
  er_resource_id : Z;
  quantity_requested : Z
}.

Record approval := mkApproval {
  a_event_id : Z;
  a_approver_id : Z;
  a_role : string;
  a_action : string;
  a_comment : string
}.

Record notification := mkNotification {
  n_user_id : Z;
  n_message : string;
  n_is_read : Z
}.

Record db := mkDb {
  users : list user;
  venues : list venue;
  resources : list resource;
  events : list event;
  event_resources : list event_resource;
  approvals : list approval;
  notifications : list notification
}.

Definition set_resources (rs : list resource) (d : db) : db :=
  mkDb (users d) (venues d) rs (events d) (event_resources d)
       (approvals d) (notifications d).

Definition set_events (es : list event) (d : db) : db :=
  mkDb (users d) (venues d) (resources d) es (event_resources d)
       (approvals d) (notifications d).

Definition set_event_resources (hs : list event_resource) (d : db) : db :=
  mkDb (users d) (venues d) (resources d) (events d) hs
       (approvals d) (notifications d).

Definition set_approvals (l : list approval) (d : db) : db :=
  mkDb (users d) (venues d) (resources d) (events d) (event_resources d)
       l (notifications d).

Definition set_notifications (l : list notification) (d : db) : db :=
  mkDb (users d) (venues d) (resources d) (events d) (event_resources d)
       (approvals d) l.

(** ** SQL statements of the handlers *)

Module Sql.

(** An integer that SQLite binds as a parameter: one of 64 bits.  On
    any other, [execute] raises [OverflowError]. *)
Definition fits (n : Z) : bool :=
  (- 2 ^ 63 <=? n) && (n <? 2 ^ 63).

(** [SELECT * FROM users WHERE id = ?] *)
Definition user_by_id (uid : Z) (d : db) : option user :=
  find (fun u => u_id u =? uid) (users d).

(** [SELECT id FROM users WHERE role = ? LIMIT 1] *)
Definition user_by_role (r : string) (d : db) : option user :=
  find (fun u => String.eqb (u_role u) r) (users d).

(** [SELECT * FROM venues WHERE id = ?] *)
Definition venue_by_id (vid : Z) (d : db) : option venue :=
  find (fun v => v_id v =? vid) (venues d).

(** [SELECT * FROM events WHERE id = ?] *)
Definition event_by_id (eid : Z) (d : db) : option event :=
  find (fun e => e_id e =? eid) (events d).

(** [ORDER BY name]: insertion into a list sorted by name. *)
Fixpoint insert_by_name (r : resource) (l : list resource) : list resource :=
  match l with
  | [] => [r]
  | x :: l' =>
      if String.leb (r_name r) (r_name x) then r :: l
      else x :: insert_by_name r l'
  end.

(** [SELECT * FROM resources ORDER BY name] *)
Definition resources_by_name (d : db) : list resource :=
  fold_right insert_by_name [] (resources d).

(** The [WHERE] clause of the time-slot query of [new_event]:
    [venue_id = ? AND event_date = ? AND status NOT IN ('rejected',
    'completed') AND NOT (end_time <= ? OR start_time >= ?)], with the
    parameters [(venue_id, event_date, start_time, end_time)]. *)
Definition conflicts (vid : Z) (date st en : string) (e : event) : bool :=
  (venue_id e =? vid) && String.eqb (event_date e) date
  && negb (Str.mem (status e) ["rejected"; "completed"])
  && negb (String.leb (end_time e) st || String.leb en (start_time e)).

Definition conflicting_event (vid : Z) (date st en : string) (d : db)
  : option event :=
  find (conflicts vid date st en) (events d).

(** [cursor.lastrowid] of an insert into an [AUTOINCREMENT] table from
    which no row is ever deleted. *)
Definition next_rowid (ids : list Z) : Z := 1 + fold_right Z.max 0 ids.

(** [INSERT INTO event_resources (event_id, resource_id,
    quantity_requested) VALUES (?, ?, ?)] *)
Definition insert_hold (eid rid qty : Z) (d : db) : db :=
  set_event_resources (event_resources d ++ [mkHold eid rid qty]) d.

(** [UPDATE resources SET available_quantity = available_quantity + ?
    WHERE id = ?]; the debit of [new_event] is the same statement with
    the quantity subtracted. *)
Definition add_available (delta rid : Z) (d : db) : db :=
  set_resources
    (map (fun r => if r_id r =? rid
                   then mkResource (r_id r) (r_name r) (total_quantity r)
                                   (available_quantity r + delta)
                   else r) (resources d)) d.

(** [SELECT resource_id, quantity_requested FROM event_resources
    WHERE event_id = ?] *)
Definition holds_of (eid : Z) (d : db) : list event_resource :=
  filter (fun h => er_event_id h =? eid) (event_resources d).

(** [INSERT INTO approvals (event_id, approver_id, role, action, comment)] *)
Definition insert_approval (a : approval) (d : db) : db :=
  set_approvals (approvals d ++ [a]) d.

(** [INSERT INTO notifications (user_id, message) VALUES (?, ?)] *)
Definition insert_notification (uid : Z) (msg : string) (d : db) : db :=
  set_notifications (notifications d ++ [mkNotification uid msg 0]) d.

(** [UPDATE events SET ... WHERE id = ?]: the assignments [g] on
    every row with that id. *)
Definition on_row (eid : Z) (g : event -> event) (e : event) : event :=
  if e_id e =? eid then g e else e.

(** [SET status = ?, current_approver_role = ?] *)
Definition with_status (st role : string) (e : event) : event :=
  mkEvent (e_id e) (title e) (description e) (event_date e) (start_time e)
    (end_time e) (expected_attendees e) (venue_id e) st role
    (created_by e) (rejection_reason e).

(** [SET status = 'rejected', rejection_reason = ?,
    current_approver_role = ''] *)
Definition with_rejection (reason : string) (e : event) : event :=
  mkEvent (e_id e) (title e) (description e) (event_date e) (start_time e)
    (end_time e) (expected_attendees e) (venue_id e) "rejected" ""
    (created_by e) reason.

(** [UPDATE events SET status = ?, current_approver_role = ? WHERE id = ?] *)
Definition update_status (st role : string) (eid : Z) (d : db) : db :=
  set_events (map (on_row eid (with_status st role)) (events d)) d.

(** [UPDATE events SET status = 'rejected', rejection_reason = ?,
    current_approver_role = '' WHERE id = ?] *)
Definition update_rejected (reason : string) (eid : Z) (d : db) : db :=
  set_events (map (on_row eid (with_rejection reason)) (events d)) d.

End Sql.

(** ** Requests and responses *)

Inductive http_method := GET | POST.

(** The form of [/events/new].  A text field holds
    [request.form.get(name, "")]; an integer field holds
    [int(request.form.get(name, 0))], [None] when [int] raises
    [ValueError]; [f_resource rid] is the field [resource_<rid>]. *)
Record booking_form := mkForm {
  f_title : string;
  f_description : string;
  f_event_date : string;
  f_start_time : string;
  f_end_time : string;
  f_expected_attendees : option Z;
  f_venue_id : option Z;
  f_resource : Z -> option Z
}.

(** What a handler answers: the flashed message with the values it
    interpolates, [abort(404)], or an uncaught exception. *)
Inductive response :=
| LoginRequired        (* "Please log in first." *)
| Forbidden            (* "You do not have permission to access this page." *)
| NotFound             (* abort(404) *)
| ServerError          (* uncaught ValueError, OverflowError or KeyError *)
| FormPage             (* GET: the empty form *)
| MissingFields        (* "Please fill in all required fields." *)
| VenueMissing         (* "Selected venue does not exist." *)
| CapacityExceeded (venue_name : string) (capacity requested : Z)
| TimeSlotConflict (venue_name date from to event_title : string)
| InsufficientStock (resource_name : string) (available requested : Z)
| Submitted            (* "Event request submitted successfully! ..." *)
| NotCurrentApprover   (* "You are not the current approver for this event." *)
| Approved (next_status : string)
| ReasonRequired       (* "Please provide a reason for rejection." *)
| Rejected             (* "Event has been rejected." *)
| CannotComplete       (* "You cannot complete this event." *)
| Completed.           (* "Event marked as completed. ..." *)

(** ** Early return

    [inl r]: the handler answers [r] before [db.commit()]; [inr x]: it
    goes on with [x]. *)

Definition handler (A : Type) : Type := (response + A)%type.

Definition bind {A B : Type} (m : handler A) (k : A -> handler B)
  : handler B :=
  match m with
  | inl r => inl r
  | inr x => k x
  end.

Notation "x <- m ;; k" := (bind m (fun x => k))
  (at level 61, m at next level, right associativity).
Notation "m ;;; k" := (bind m (fun _ => k))
  (at level 61, right associativity).

(** [if not b: flash(r); db.close(); return ...] *)
Definition require (b : bool) (r : response) : handler unit :=
  if b then inr tt else inl r.

(** [x = lookup; if not x: ... return], and a raising lookup. *)
Definition some_or {A : Type} (o : option A) (r : response) : handler A :=
  match o with
  | Some x => inr x
  | None => inl r
  end.

(** The store after the request: the committed one, or the old one. *)
Definition commit (d : db) (m : handler (db * response)) : db * response :=
  match m with
  | inl r => (d, r)
  | inr p => p
  end.

(** ** Helpers of [app.py] *)

Definition APPROVAL_FLOW (st : string) : option (string * string) :=
  if String.eqb st "pending_hod" then Some ("hod", "pending_dean")
  else if String.eqb st "pending_dean" then Some ("dean", "pending_head")
  else if String.eqb st "pending_head" then Some ("head", "approved")
  else None.

Definition ROLE_LABELS (r : string) : option string :=
  if String.eqb r "coordinator" then Some "Event Coordinator"
  else if String.eqb r "hod" then Some "Head of Department"
  else if String.eqb r "dean" then Some "Dean"
  else if String.eqb r "head" then Some "Institutional Head"
  else if String.eqb r "admin" then Some "Admin / ITC"
  else None.

(** [session] holds [user_id] or not. *)
Definition session := option Z.

(** [load_user]: [g.user] *)
Definition load_user (d : db) (s : session) : option user :=
  match s with
  | None => None
  | Some uid => Sql.user_by_id uid d
  end.

Definition login_required (s : session) : handler unit :=
  match s with
  | None => inl LoginRequired
  | Some _ => inr tt
  end.

Definition role_required (roles : list string) (g_user : option user)
  : handler user :=
  match g_user with
  | None => inl Forbidden
  | Some u => if Str.mem (u_role u) roles then inr u else inl Forbidden
  end.

(** ** [new_event] *)

(** The loop "Resource validation": the requests in the order of
    [resources], or the first failure. *)
Fixpoint resource_validation (qty_of : Z -> option Z) (rs : list resource)
  : handler (list (Z * Z)) :=
  match rs with
  | [] => inr []
  | res :: rs' =>
      qty <- some_or (qty_of (r_id res)) ServerError ;;
      if 0 <? qty then
        require (negb (available_quantity res <? qty))
          (InsufficientStock (r_name res) (available_quantity res) qty) ;;;
        rest <- resource_validation qty_of rs' ;;
        inr ((r_id res, qty) :: rest)
      else resource_validation qty_of rs'
  end.

(** One turn of the loop "Reserve resources (deduct available qty)". *)
Definition reserve (event_id : Z) (d : db) (rq : Z * Z) : db :=
  Sql.add_available (- snd rq) (fst rq)
    (Sql.insert_hold event_id (fst rq) (snd rq) d).

(** The flash of the time-slot check: the venue's name, the requested
    date, and the conflicting row's time range and title. *)
Definition conflict_report (venue : venue) (event_date : string)
  (conflict : event) : response :=
  TimeSlotConflict (v_name venue) event_date (start_time conflict)
    (end_time conflict) (title conflict).

Definition new_event (d : db) (s : session) (m : http_method)
  (f : booking_form) : db * response :=
  commit d (
    login_required s ;;;
    g_user <- role_required ["coordinator"] (load_user d s) ;;
    let resources := Sql.resources_by_name d in
    match m with
    | GET => inl FormPage
    | POST =>
        let title := Str.strip (f_title f) in
        let description := Str.strip (f_description f) in
        let event_date := Str.strip (f_event_date f) in
        let start_time := Str.strip (f_start_time f) in
        let end_time := Str.strip (f_end_time f) in
        expected_attendees <- some_or (f_expected_attendees f) ServerError ;;
        venue_id <- some_or (f_venue_id f) ServerError ;;
        (* Validate basics *)
        require (Str.truthy title && Str.truthy event_date
                 && Str.truthy start_time && Str.truthy end_time
                 && negb (venue_id =? 0)) MissingFields ;;;
        (* Venue capacity check; the query binds venue_id *)
        require (Sql.fits venue_id) ServerError ;;;
        venue <- some_or (Sql.venue_by_id venue_id d) VenueMissing ;;
        require (negb (v_capacity venue <? expected_attendees))
          (CapacityExceeded (v_name venue) (v_capacity venue)
             expected_attendees) ;;;
        (* Venue time-slot conflict check *)
        match Sql.conflicting_event venue_id event_date start_time end_time d
        with
        | Some conflict =>
            inl (conflict_report venue event_date conflict)
        | None =>
            (* Resource validation *)
            resource_requests <-
              resource_validation (f_resource f) resources ;;
            (* All checks passed - create event; the inserts below bind
               expected_attendees and every requested quantity, and
               nothing is committed when one of them raises *)
            require (Sql.fits expected_attendees
                     && forallb (fun rq => Sql.fits (snd rq))
                          resource_requests) ServerError ;;;
            let event_id := Sql.next_rowid (map e_id (events d)) in
            let d1 :=
              set_events
                (events d ++
                 [mkEvent event_id title description event_date start_time
                    end_time expected_attendees venue_id "pending_hod" "hod"
                    (u_id g_user) ""]) d in
            (* Reserve resources (deduct available qty) *)
            let d2 := fold_left (reserve event_id) resource_requests d1 in
            (* Notify HOD *)
            let d3 :=
              match Sql.user_by_role "hod" d2 with
              | Some hod =>
                  Sql.insert_notification (u_id hod)
                    ("New event '" ++ title ++ "' requires your approval.")%string
                    d2
              | None => d2
              end in
            inr (d3, Submitted)
        end
    end).

(** ** [approve_event] *)

Definition approve_event (d : db) (s : session) (event_id : Z)
  (form_comment : string) : db * response :=
  commit d (
    login_required s ;;;
    g_user <- role_required ["hod"; "dean"; "head"] (load_user d s) ;;
    event <- some_or (Sql.event_by_id event_id d) NotFound ;;
    let expected_status := ("pending_" ++ u_role g_user)%string in
    require (String.eqb (status event) expected_status)
      NotCurrentApprover ;;;
    let comment := Str.strip form_comment in
    flow <- some_or (APPROVAL_FLOW (status event)) ServerError ;;
    let next_status := snd flow in
    let next_role :=
      match APPROVAL_FLOW next_status with
      | Some fl => fst fl
      | None => ""
      end in
    (* Log approval *)
    let d1 :=
      Sql.insert_approval
        (mkApproval event_id (u_id g_user) (u_role g_user) "approved" comment)
        d in
    (* Advance status *)
    let d2 := Sql.update_status next_status next_role event_id d1 in
    (* Notify next approver or coordinator *)
    let d3 :=
      if String.eqb next_status "approved" then
        Sql.insert_notification (created_by event)
          ("Your event '" ++ title event ++ "' has been fully approved!")%string
          d2
      else
        match Sql.user_by_role next_role d2 with
        | Some next_user =>
            Sql.insert_notification (u_id next_user)
              ("Event '" ++ title event ++ "' requires your approval.")%string
              d2
        | None => d2
        end in
    inr (d3, Approved next_status)).

(** ** [reject_event] and [complete_event] *)

(** The loop "Release reserved resources": one credit per hold row of
    the event, in row order. *)
Definition release_reserved (event_id : Z) (d : db) : db :=
  let reserved := Sql.holds_of event_id d in
  fold_left
    (fun d' r => Sql.add_available (quantity_requested r) (er_resource_id r) d')
    reserved d.

Definition reject_event (d : db) (s : session) (event_id : Z)
  (form_reason : string) : db * response :=
  commit d (
    login_required s ;;;
    g_user <- role_required ["hod"; "dean"; "head"] (load_user d s) ;;
    event <- some_or (Sql.event_by_id event_id d) NotFound ;;
    let expected_status := ("pending_" ++ u_role g_user)%string in
    require (String.eqb (status event) expected_status)
      NotCurrentApprover ;;;
    let reason := Str.strip form_reason in
    require (Str.truthy reason) ReasonRequired ;;;
    (* Log rejection *)
    let d1 :=
      Sql.insert_approval
        (mkApproval event_id (u_id g_user) (u_role g_user) "rejected" reason)
        d in
    (* Update event status *)
    let d2 := Sql.update_rejected reason event_id d1 in
    (* Release reserved resources *)
    let d3 := release_reserved event_id d2 in
    (* Notify coordinator *)
    label <- some_or (ROLE_LABELS (u_role g_user)) ServerError ;;
    let d4 :=
      Sql.insert_notification (created_by event)
        ("Your event '" ++ title event ++ "' was rejected by " ++ label
         ++ ". Reason: " ++ reason)%string d3 in
    inr (d4, Rejected)).

Definition complete_event (d : db) (s : session) (event_id : Z)
  : db * response :=
  commit d (
    login_required s ;;;
    g_user <- role_required ["coordinator"] (load_user d s) ;;
    event <- some_or (Sql.event_by_id event_id d) NotFound ;;
    require (negb (negb (String.eqb (status event) "approved")
                   || negb (created_by event =? u_id g_user)))
      CannotComplete ;;;
    (* Mark completed *)
    let d1 := Sql.update_status "completed" "" event_id d in
    (* Release resources *)
    let d2 := release_reserved event_id d1 in
    inr (d2, Completed)).

(** ** Sequences of requests *)

Inductive request :=
| SubmitBooking (s : session) (m : http_method) (f : booking_form)
| Approve (s : session) (event_id : Z) (comment : string)
| Reject (s : session) (event_id : Z) (reason : string)
| Complete (s : session) (event_id : Z).

Definition handle (d : db) (q : request) : db * response :=
  match q with
  | SubmitBooking s m f => new_event d s m f
  | Approve s eid c => approve_event d s eid c
  | Reject s eid r => reject_event d s eid r
  | Complete s eid => complete_event d s eid
  end.

(** The store after a sequence of requests served one after another. *)
Definition run (d : db) (qs : list request) : db :=
  fold_left (fun d' q => fst (handle d' q)) qs d.

(** ** The seed data of [init_db] *)

Definition seed : db :=
  mkDb
    [mkUser 1 "coordinator"; mkUser 2 "hod"; mkUser 3 "dean";
     mkUser 4 "head"; mkUser 5 "admin"]
    [mkVenue 1 "Main Auditorium" 500; mkVenue 2 "Seminar Hall 1" 100;
     mkVenue 3 "Conference Room" 30]
    [mkResource 1 "Projector" 5 5; mkResource 2 "Microphone" 10 10;
     mkResource 3 "Laptop" 8 8; mkResource 4 "Whiteboard" 15 15]
    [] [] [] [].

(** * Vocabulary of the properties

    The predicates and sample stores the statements below are written
    with. *)

Definition sumZ (l : list Z) : Z := fold_right Z.add 0 l.

(** The statuses at which a booking no longer holds stock. *)
Definition released_status (st : string) : bool :=
  Str.mem st ["rejected"; "completed"].

(** A hold row is outstanding when its booking exists with a status
    that is neither [rejected] nor [completed]. *)
Definition outstanding (es : list event) (h : event_resource) : bool :=
  match find (fun e => e_id e =? er_event_id h) es with
  | Some e => negb (released_status (status e))
  | None => false
  end.

(** Quantity of resource [rid] in the hold rows [hs]. *)
Definition quantity_on (rid : Z) (hs : list event_resource) : Z :=
  sumZ (map quantity_requested
          (filter (fun h => er_resource_id h =? rid) hs)).

(** Sum of the outstanding holds on resource [rid]. *)
Definition held (d : db) (rid : Z) : Z :=
  quantity_on rid (filter (outstanding (events d)) (event_resources d)).

(** [available_quantity + outstanding holds = total_quantity], for
    every resource row. *)
Definition ledger_ok (d : db) : Prop :=
  forall r, In r (resources d) ->
    available_quantity r + held d (r_id r) = total_quantity r.

(** The foreign key of [event_resources] to [events], which the
    schema enforces. *)
Definition holds_ok (d : db) : Prop :=
  forall h, In h (event_resources d) ->
    In (er_event_id h) (map e_id (events d)).

(** Every hold row has a positive quantity, as [new_event] creates
    them. *)
Definition holds_positive (d : db) : Prop :=
  forall h, In h (event_resources d) -> 0 < quantity_requested h.

(** A resource row after its share of the hold rows [hs] is credited. *)
Definition credited (hs : list event_resource) (r : resource) : resource :=
  mkResource (r_id r) (r_name r) (total_quantity r)
    (available_quantity r + quantity_on (r_id r) hs).

(** The caller is logged in as [u], an approver, and the booking [e]
    with id [eid] waits for [u]'s role. *)
Definition current_approver (d : db) (s : session) (eid : Z)
  (u : user) (e : event) : Prop :=
  (exists uid, s = Some uid /\ Sql.user_by_id uid d = Some u)
  /\ Str.mem (u_role u) ["hod"; "dean"; "head"] = true
  /\ Sql.event_by_id eid d = Some e
  /\ status e = ("pending_" ++ u_role u)%string.

Definition next_role_of (next_status : string) : string :=
  match APPROVAL_FLOW next_status with
  | Some fl => fst fl
  | None => ""
  end.

(** The notification an approval inserts: the requester's when the
    chain ends, else the next approver's if a user has that role. *)
Definition approval_notice (d : db) (e : event) (nxt : string)
  : list notification :=
  if String.eqb nxt "approved" then
    [mkNotification (created_by e)
       ("Your event '" ++ title e ++ "' has been fully approved!")%string 0]
  else
    match Sql.user_by_role (next_role_of nxt) d with
    | Some next_user =>
        [mkNotification (u_id next_user)
           ("Event '" ++ title e ++ "' requires your approval.")%string 0]
    | None => []
    end.

(** The caller is logged in as the coordinator [u] who created the
    approved booking [e] with id [eid]. *)
Definition may_complete (d : db) (s : session) (eid : Z)
  (u : user) (e : event) : Prop :=
  (exists uid, s = Some uid /\ Sql.user_by_id uid d = Some u)
  /\ u_role u = "coordinator"
  /\ Sql.event_by_id eid d = Some e
  /\ status e = "approved"
  /\ created_by e = u_id u.

(** The hold rows the reserve loop inserts for the requests [reqs]. *)
Definition new_holds (eid : Z) (reqs : list (Z * Z)) : list event_resource :=
  map (fun rq => mkHold eid (fst rq) (snd rq)) reqs.

(** A resource row after its share of the hold rows [hs] is debited. *)
Definition debited (hs : list event_resource) (r : resource) : resource :=
  mkResource (r_id r) (r_name r) (total_quantity r)
    (available_quantity r - quantity_on (r_id r) hs).

(** The required fields of the form, as the handler tests them. *)
Definition fields_filled (f : booking_form) (vid : Z) : bool :=
  Str.truthy (Str.strip (f_title f))
  && Str.truthy (Str.strip (f_event_date f))
  && Str.truthy (Str.strip (f_start_time f))
  && Str.truthy (Str.strip (f_end_time f))
  && negb (vid =? 0).

(** The caller is logged in as the coordinator [u], the form parses and
    its venue id can be bound: the handler runs the venue lookup. *)
Definition well_formed_submission (d : db) (s : session) (f : booking_form)
  (u : user) (ea vid : Z) : Prop :=
  (exists uid, s = Some uid /\ Sql.user_by_id uid d = Some u)
  /\ u_role u = "coordinator"
  /\ f_expected_attendees f = Some ea
  /\ f_venue_id f = Some vid
  /\ fields_filled f vid = true
  /\ Sql.fits vid = true.

(** The requests [reqs] can be bound by the inserts of the reserve
    loop. *)
Definition requests_fit (reqs : list (Z * Z)) : bool :=
  forallb (fun rq => Sql.fits (snd rq)) reqs.

(** Every check of the validator passes, with the requests [reqs], and
    the values to insert can be bound. *)
Definition admitted (d : db) (f : booking_form) (ea vid : Z)
  (v : venue) (reqs : list (Z * Z)) : Prop :=
  Sql.venue_by_id vid d = Some v
  /\ ea <= v_capacity v
  /\ Sql.conflicting_event vid (Str.strip (f_event_date f))
       (Str.strip (f_start_time f)) (Str.strip (f_end_time f)) d = None
  /\ resource_validation (f_resource f) (Sql.resources_by_name d) = inr reqs
  /\ Sql.fits ea = true
  /\ requests_fit reqs = true.

(** The booking row [new_event] inserts. *)
Definition new_booking (d : db) (f : booking_form) (u : user) (ea vid : Z)
  : event :=
  mkEvent (Sql.next_rowid (map e_id (events d)))
    (Str.strip (f_title f)) (Str.strip (f_description f))
    (Str.strip (f_event_date f)) (Str.strip (f_start_time f))
    (Str.strip (f_end_time f)) ea vid "pending_hod" "hod" (u_id u) "".

Definition hod_notice (d : db) (f : booking_form) : list notification :=
  match Sql.user_by_role "hod" d with
  | Some hod =>
      [mkNotification (u_id hod)
         ("New event '" ++ Str.strip (f_title f)
          ++ "' requires your approval.")%string 0]
  | None => []
  end.

(** The booking whose release loop a request runs: [reject_event] and
    [complete_event] reach the loop exactly when they answer [Rejected]
    and [Completed]; no other handler has one. *)
Definition release_of (d : db) (q : request) : option Z :=
  match q with
  | Reject _ eid _ =>
      match snd (handle d q) with Rejected => Some eid | _ => None end
  | Complete _ eid =>
      match snd (handle d q) with Completed => Some eid | _ => None end
  | _ => None
  end.

Definition releases (eid : Z) (d : db) (q : request) : bool :=
  match release_of d q with
  | Some x => x =? eid
  | None => false
  end.

(** How many requests of the sequence run the release loop of [eid]. *)
Fixpoint release_count (eid : Z) (d : db) (qs : list request) : nat :=
  match qs with
  | [] => 0%nat
  | q :: qs' =>
      ((if releases eid d q then 1 else 0)
       + release_count eid (fst (handle d q)) qs')%nat
  end.

(** The booking [eid] exists with a released status. *)
Definition is_released (d : db) (eid : Z) : Prop :=
  exists e, Sql.event_by_id eid d = Some e
    /\ released_status (status e) = true.

(** The booking [eid] exists and still holds its stock. *)
Definition is_holding (d : db) (eid : Z) : Prop :=
  exists e, Sql.event_by_id eid d = Some e
    /\ released_status (status e) = false.

(** A coordinator's booking of two projectors in Seminar Hall 1. *)
Definition talk : booking_form :=
  mkForm "Talk" "" "2024-05-01" "10:00" "12:00" (Some 50) (Some 2)
    (fun rid => if rid =? 1 then Some 2 else Some 0).

(** The seed store after that booking is submitted. *)
Definition booked : db := fst (new_event seed (Some 1) POST talk).

(** A store that breaks the ledger equation: one projector unit is
    held by a pending booking although all five are available. *)
Definition unbalanced : db :=
  mkDb (users seed) (venues seed)
    [mkResource 1 "Projector" 5 5]
    [mkEvent 1 "Talk" "" "2024-05-01" "10:00" "12:00" 50 2
       "pending_hod" "hod" 1 ""]
    [mkHold 1 1 1] [] [].

(** The overlap test of two ranges [s1,e1) and [s2,e2):
    NOT (e1 <= s2 OR s1 >= e2), in the order of [TEXT] values. *)
Definition overlap (s1 e1 s2 e2 : string) : Prop :=
  ~ (String.leb e1 s2 = true \/ String.leb e2 s1 = true).

(** The booking [e] blocks the slot [st, en) of venue [vid] on [date]:
    same venue and date, a status that is neither [rejected] nor
    [completed], and an overlapping time range. *)
Definition blocks (vid : Z) (date st en : string) (e : event) : Prop :=
  venue_id e = vid /\ event_date e = date
  /\ status e <> "rejected" /\ status e <> "completed"
  /\ overlap (start_time e) (end_time e) st en.

(** A submission for 150 attendees in Seminar Hall 1, which seats 100,
    at a time that overlaps the booking of [booked]. *)
Definition oversized : booking_form :=
  mkForm "Fair" "" "2024-05-01" "11:00" "13:00" (Some 150) (Some 2)
    (fun _ => Some 0).

(** The stock check of one resource row passes: the quantity field
    parses and, when positive, does not exceed what is available. *)
Definition stock_ok (qty_of : Z -> option Z) (res : resource) : Prop :=
  exists qty, qty_of (r_id res) = Some qty
    /\ (0 < qty -> qty <= available_quantity res).

Definition name_le (a b : resource) : Prop :=
  String.leb (r_name a) (r_name b) = true.

(** A submission asking for nine projectors when three are left. *)
Definition greedy : booking_form :=
  mkForm "Fair" "" "2024-05-02" "11:00" "13:00" (Some 80) (Some 2)
    (fun rid => if rid =? 1 then Some 9 else Some 0).

(** The booking of [booked], as stored. *)
Definition talk_row : event :=
  mkEvent 1 "Talk" "" "2024-05-01" "10:00" "12:00" 50 2
    "pending_hod" "hod" 1 "".

(** A submission whose start time is after its end time. *)
Definition backwards : booking_form :=
  mkForm "Late" "" "2024-06-01" "13:00" "11:00" (Some 10) (Some 2)
    (fun _ => Some 0).

(** Two rows of [events] that differ at most in [status] and
    [current_approver_role]. *)
Definition same_but_status (x x' : event) : Prop :=
  e_id x' = e_id x /\ title x' = title x /\ description x' = description x
  /\ event_date x' = event_date x /\ start_time x' = start_time x
  /\ end_time x' = end_time x
  /\ expected_attendees x' = expected_attendees x
  /\ venue_id x' = venue_id x /\ created_by x' = created_by x
  /\ rejection_reason x' = rejection_reason x.

(** Two rows of [resources] that differ at most in
    [available_quantity]. *)
Definition same_but_available (r r' : resource) : Prop :=
  r_id r' = r_id r /\ r_name r' = r_name r
  /\ total_quantity r' = total_quantity r.

(** The store of [booked] once the three approvers have approved. *)
Definition approved_store : db :=
  run booked [Approve (Some 2) 1 ""; Approve (Some 3) 1 "";
              Approve (Some 4) 1 ""].

(** * The other pages of [app.py] and [init_db] *)

Definition set_users (us : list user) (d : db) : db :=
  mkDb us (venues d) (resources d) (events d) (event_resources d)
       (approvals d) (notifications d).

Definition set_venues (vs : list venue) (d : db) : db :=
  mkDb (users d) vs (resources d) (events d) (event_resources d)
       (approvals d) (notifications d).

(** ** [event_detail]

    The booking the page shows, with its venue and creator, and the two
    flags that decide which buttons it offers.  The lists it renders
    beside them (resources, approval log) are read-only and left out. *)

Record detail_page := mkDetail {
  dp_event : event;
  dp_venue : venue;
  dp_creator : user;
  can_approve : bool;
  can_complete : bool
}.

Inductive detail_response :=
| DetailLoginRequired
| DetailNotFound                 (* abort(404) *)
| DetailServerError              (* g.user is None: TypeError *)
| DetailPage (p : detail_page).

(** [FROM events e JOIN venues v ON e.venue_id = v.id JOIN users u ON
    e.created_by = u.id WHERE e.id = ?]: the first booking row with that
    id whose venue and creator exist. *)
Definition joined_event (eid : Z) (d : db) : option event :=
  find (fun e => (e_id e =? eid)
                 && match Sql.venue_by_id (venue_id e) d with
                    | Some _ => true | None => false end
                 && match Sql.user_by_id (created_by e) d with
                    | Some _ => true | None => false end)
       (events d).

Definition event_detail (d : db) (s : session) (event_id : Z)
  : detail_response :=
  match s with
  | None => DetailLoginRequired
  | Some _ =>
      match joined_event event_id d with
      | None => DetailNotFound
      | Some event =>
          match Sql.venue_by_id (venue_id event) d,
                Sql.user_by_id (created_by event) d,
                load_user d s with
          | Some v, Some creator, Some g_user =>
              let can_approve :=
                Str.mem (u_role g_user) ["hod"; "dean"; "head"]
                && String.eqb (status event)
                     ("pending_" ++ u_role g_user)%string in
              let can_complete :=
                String.eqb (u_role g_user) "coordinator"
                && (created_by event =? u_id g_user)
                && String.eqb (status event) "approved" in
              DetailPage (mkDetail event v creator can_approve can_complete)
          | Some _, Some _, None => DetailServerError
          | _, _, _ => DetailNotFound
          end
      end
  end.

(** ** The statistics of [dashboard] *)

(** Lower case of an ASCII letter, as SQLite's [LIKE] folds it. *)
Definition like_fold (c : ascii) : ascii :=
  let n := N_of_ascii c in
  if ((65 <=? n) && (n <=? 90))%N then ascii_of_N (n + 32) else c.

(** SQLite's [LIKE] without [ESCAPE]: [%] matches any sequence, [_] any
    one character, any other character itself up to the case of ASCII
    letters. *)
Fixpoint like (pat s : string) : bool :=
  match pat with
  | EmptyString =>
      match s with EmptyString => true | String _ _ => false end
  | String p pat' =>
      if Ascii.eqb p "%" then
        (fix any (t : string) : bool :=
           like pat' t
           || match t with
              | EmptyString => false
              | String _ t' => any t'
              end) s
      else
        match s with
        | EmptyString => false
        | String c s' =>
            (Ascii.eqb p "_" || Ascii.eqb (like_fold p) (like_fold c))
            && like pat' s'
        end
  end.

(** [SELECT COUNT( * ) FROM events WHERE ...] *)
Definition count_events (p : event -> bool) (d : db) : Z :=
  Z.of_nat (List.length (filter p (events d))).

Record stats := mkStats {
  st_total : Z;
  st_approved : Z;
  st_pending : Z;
  st_rejected : Z;
  st_completed : Z
}.

(** The block "Stats" of [dashboard]. *)
Definition dashboard_stats (d : db) : stats :=
  mkStats
    (count_events (fun _ => true) d)
    (count_events (fun e => String.eqb (status e) "approved") d)
    (count_events (fun e => like "pending_%" (status e)) d)
    (count_events (fun e => String.eqb (status e) "rejected") d)
    (count_events (fun e => String.eqb (status e) "completed") d).

(** ** [manage_venues] and [manage_resources] *)

Inductive admin_response :=
| AdminLoginRequired
| AdminForbidden
| AdminServerError      (* int() raised ValueError, outside the try *)
| AdminPage             (* GET *)
| AdminAdded (name : string)
| AdminDuplicate        (* the insert raised: "... already exists." *)
| AdminRequired.        (* "Name and ... are required." *)

(** The [UNIQUE] constraint on [name]: an insert of a name already in
    the table raises, which the [try] of the handler catches, as it
    catches the [OverflowError] of a capacity or quantity that does not
    fit: both are answered with "... already exists." *)
Definition venue_name_taken (name : string) (d : db) : bool :=
  existsb (fun v => String.eqb (v_name v) name) (venues d).

Definition resource_name_taken (name : string) (d : db) : bool :=
  existsb (fun r => String.eqb (r_name r) name) (resources d).

Definition manage_venues (d : db) (s : session) (m : http_method)
  (form_name : string) (form_capacity : option Z) : db * admin_response :=
  match login_required s with
  | inl _ => (d, AdminLoginRequired)
  | inr _ =>
      match role_required ["admin"] (load_user d s) with
      | inl _ => (d, AdminForbidden)
      | inr _ =>
          match m with
          | GET => (d, AdminPage)
          | POST =>
              let name := Str.strip form_name in
              match form_capacity with
              | None => (d, AdminServerError)
              | Some capacity =>
                  if Str.truthy name && (0 <? capacity) then
                    if negb (Sql.fits capacity) || venue_name_taken name d
                    then (d, AdminDuplicate)
                    else
                      (set_venues
                         (venues d ++
                          [mkVenue (Sql.next_rowid (map v_id (venues d)))
                             name capacity]) d,
                       AdminAdded name)
                  else (d, AdminRequired)
              end
          end
      end
  end.

Definition manage_resources (d : db) (s : session) (m : http_method)
  (form_name : string) (form_total : option Z) : db * admin_response :=
  match login_required s with
  | inl _ => (d, AdminLoginRequired)
  | inr _ =>
      match role_required ["admin"] (load_user d s) with
      | inl _ => (d, AdminForbidden)
      | inr _ =>
          match m with
          | GET => (d, AdminPage)
          | POST =>
              let name := Str.strip form_name in
              match form_total with
              | None => (d, AdminServerError)
              | Some total_qty =>
                  if Str.truthy name && (0 <? total_qty) then
                    if negb (Sql.fits total_qty)
                       || resource_name_taken name d
                    then (d, AdminDuplicate)
                    else
                      (set_resources
                         (resources d ++
                          [mkResource
                             (Sql.next_rowid (map r_id (resources d)))
                             name total_qty total_qty]) d,
                       AdminAdded name)
                  else (d, AdminRequired)
              end
          end
      end
  end.

(** ** [mark_notification_read]

    The route accepts [POST] only, and the model is of such a request.
    The rows of [notifications] carry no id column here: the table
    starts empty and rows are only ever inserted, so the row at
    position [k], counted from 1, is the row with id [k]. *)

Inductive read_response :=
| ReadLoginRequired
| ReadServerError       (* g.user is None: TypeError *)
| ReadDone.             (* redirect to the dashboard *)

(** [UPDATE notifications SET is_read = 1 WHERE id = ? AND user_id = ?],
    on the rows numbered from [i]. *)
Fixpoint mark_read_from (i notif_id uid : Z) (l : list notification)
  : list notification :=
  match l with
  | [] => []
  | n :: l' =>
      (if (i =? notif_id) && (n_user_id n =? uid)
       then mkNotification (n_user_id n) (n_message n) 1
       else n) :: mark_read_from (i + 1) notif_id uid l'
  end.

Definition mark_notification_read (d : db) (s : session) (notif_id : Z)
  : db * read_response :=
  match s with
  | None => (d, ReadLoginRequired)
  | Some _ =>
      match load_user d s with
      | None => (d, ReadServerError)
      | Some g_user =>
          (set_notifications
             (mark_read_from 1 notif_id (u_id g_user) (notifications d)) d,
           ReadDone)
      end
  end.

(** ** [init_db]

    [CREATE TABLE IF NOT EXISTS] keeps an existing table; each of
    [users], [venues] and [resources] is seeded when it has no row. *)
Definition init_db (d : db) : db :=
  mkDb
    (match users d with [] => users seed | _ :: _ => users d end)
    (match venues d with [] => venues seed | _ :: _ => venues d end)
    (match resources d with [] => resources seed | _ :: _ => resources d end)
    (events d) (event_resources d) (approvals d) (notifications d).

(** The tables as [init_db] creates them, before it seeds them. *)
Definition empty_db : db := mkDb [] [] [] [] [] [] [].

(** ** Everything that changes the store *)

Inductive action :=
| Serve (q : request)
| ManageVenues (s : session) (m : http_method) (name : string)
    (capacity : option Z)
| ManageResources (s : session) (m : http_method) (name : string)
    (total : option Z)
| MarkRead (s : session) (notif_id : Z)
| Restart.                       (* the process starts again: init_db() *)

Definition perform (d : db) (a : action) : db :=
  match a with
  | Serve q => fst (handle d q)
  | ManageVenues s m name capacity =>
      fst (manage_venues d s m name capacity)
  | ManageResources s m name total =>
      fst (manage_resources d s m name total)
  | MarkRead s notif_id => fst (mark_notification_read d s notif_id)
  | Restart => init_db d
  end.

(** The store after a sequence of actions. *)
Definition play (d : db) (acts : list action) : db :=
  fold_left perform acts d.

(** * Vocabulary of the further properties *)

(** What a request can do to the rows of [events]. *)
Inductive events_step (d : db) : list event -> Prop :=
| step_same : events_step d (events d)
| step_submit (s : session) (f : booking_form) (u : user) (ea vid : Z)
    (v : venue) (reqs : list (Z * Z)) :
    well_formed_submission d s f u ea vid ->
    admitted d f ea vid v reqs ->
    events_step d (events d ++ [new_booking d f u ea vid])
| step_approve (s : session) (eid : Z) (u : user) (e : event)
    (nxt : string) :
    current_approver d s eid u e ->
    APPROVAL_FLOW (status e) = Some (u_role u, nxt) ->
    events_step d
      (map (Sql.on_row eid (Sql.with_status nxt (next_role_of nxt)))
         (events d))
| step_reject (s : session) (eid : Z) (u : user) (e : event)
    (reason : string) :
    current_approver d s eid u e ->
    reason <> EmptyString ->
    events_step d
      (map (Sql.on_row eid (Sql.with_rejection reason)) (events d))
| step_complete (s : session) (eid : Z) (u : user) (e : event) :
    may_complete d s eid u e ->
    events_step d
      (map (Sql.on_row eid (Sql.with_status "completed" EmptyString))
         (events d)).

(** The arrows of the approval state machine. *)
Inductive status_edge : string -> string -> Prop :=
| edge_hod : status_edge "pending_hod" "pending_dean"
| edge_dean : status_edge "pending_dean" "pending_head"
| edge_head : status_edge "pending_head" "approved"
| edge_complete : status_edge "approved" "completed"
| edge_reject_hod : status_edge "pending_hod" "rejected"
| edge_reject_dean : status_edge "pending_dean" "rejected"
| edge_reject_head : status_edge "pending_head" "rejected".

(** The six statuses the handlers write. *)
Definition known_status (st : string) : bool :=
  Str.mem st ["pending_hod"; "pending_dean"; "pending_head"; "approved";
              "rejected"; "completed"].

Definition statuses_known (d : db) : Prop :=
  forall e, In e (events d) -> known_status (status e) = true.

(** The primary key of [events]. *)
Definition event_ids_unique (d : db) : Prop := NoDup (map e_id (events d)).

(** The primary key of [resources]. *)
Definition resource_ids_unique (d : db) : Prop :=
  NoDup (map r_id (resources d)).

(** The foreign key of [event_resources] to [resources]. *)
Definition holds_refer_to_resources (d : db) : Prop :=
  forall h, In h (event_resources d) ->
    In (er_resource_id h) (map r_id (resources d)).

(** No resource is overdrawn. *)
Definition stock_nonneg (d : db) : Prop :=
  forall r, In r (resources d) -> 0 <= available_quantity r.




(** [current_approver_role] is the role the status waits for, empty
    when it waits for none, and a rejection reason is kept exactly by
    the rejected bookings. *)
Definition row_consistent (e : event) : Prop :=
  current_approver_role e = next_role_of (status e)
  /\ (status e = "rejected" <-> rejection_reason e <> EmptyString).

Definition rows_consistent (d : db) : Prop :=
  forall e, In e (events d) -> row_consistent e.

(** The columns of a booking no handler writes after its creation. *)
Definition same_booking (x x' : event) : Prop :=
  e_id x' = e_id x /\ title x' = title x /\ description x' = description x
  /\ event_date x' = event_date x /\ start_time x' = start_time x
  /\ end_time x' = end_time x
  /\ expected_attendees x' = expected_attendees x
  /\ venue_id x' = venue_id x /\ created_by x' = created_by x.

(** Unique, non-empty names and positive sizes, as the admin pages
    admit them. *)
Definition venues_ok (d : db) : Prop :=
  NoDup (map v_name (venues d)) /\ NoDup (map v_id (venues d))
  /\ forall v, In v (venues d) -> v_name v <> EmptyString /\ 0 < v_capacity v.

Definition resources_ok (d : db) : Prop :=
  NoDup (map r_name (resources d)) /\ NoDup (map r_id (resources d))
  /\ forall r, In r (resources d) -> r_name r <> EmptyString /\ 0 < total_quantity r.

(** A notification row up to its read flag, which only ever goes from
    unread to read. *)
Definition read_later (n n' : notification) : Prop :=
  n_user_id n' = n_user_id n /\ n_message n' = n_message n
  /\ (n_is_read n' = n_is_read n \/ n_is_read n' = 1).

(** The keys of the inventory tables, a balanced ledger and no resource
    overdrawn. *)
Definition inventory_ok (d : db) : Prop :=
  holds_ok d /\ holds_refer_to_resources d /\ holds_positive d
  /\ resource_ids_unique d /\ ledger_ok d /\ stock_nonneg d.

(** The row at position [j] of the rows numbered from [i], after the
    notification [k] of user [uid] is marked as read. *)
Definition marked (i k uid : Z) (j : nat) (n : notification) : notification :=
  if (i + Z.of_nat j =? k) && (n_user_id n =? uid)
  then mkNotification (n_user_id n) (n_message n) 1 else n.

(** The session an action comes with. *)
Definition caller (a : action) : session :=
  match a with
  | Serve (SubmitBooking s _ _) => s
  | Serve (Approve s _ _) => s
  | Serve (Reject s _ _) => s
  | Serve (Complete s _) => s
  | ManageVenues s _ _ _ => s
  | ManageResources s _ _ _ => s
  | MarkRead s _ => s
  | Restart => None
  end.

(** What entitles the user [u] to the action [a] on the store [d]. *)
Definition entitled (d : db) (a : action) (u : user) : Prop :=
  match a with
  | Serve (SubmitBooking _ _ _) => u_role u = "coordinator"
  | Serve (Approve _ eid _) | Serve (Reject _ eid _) =>
      Str.mem (u_role u) ["hod"; "dean"; "head"] = true
      /\ exists e, Sql.event_by_id eid d = Some e
           /\ status e = ("pending_" ++ u_role u)%string
  | Serve (Complete _ eid) =>
      u_role u = "coordinator"
      /\ exists e, Sql.event_by_id eid d = Some e
           /\ status e = "approved" /\ created_by e = u_id u
  | ManageVenues _ _ _ _ | ManageResources _ _ _ _ => u_role u = "admin"
  | MarkRead _ _ => True
  | Restart => False
  end.

(** The answers that come with a commit. *)
Definition committed (r : response) : Prop :=
  r = Submitted \/ (exists nxt, r = Approved nxt) \/ r = Rejected
  \/ r = Completed.

(** * Rows, holds and times, read off the tables *)

(** [x] is the first row of [l] with the property [P]: the row that
    [fetchone()] returns of a query selecting the rows with [P]. *)
Definition first_such {A : Type} (P : A -> Prop) (l : list A) (x : A)
  : Prop :=
  exists l1 l2, l = l1 ++ x :: l2 /\ P x /\ forall y, In y l1 -> ~ P y.

(** The quantity of resource [rid] in the rows of [event_resources]
    that belong to the booking [eid]. *)
Definition booked_quantity (eid rid : Z) (d : db) : Z :=
  sumZ (map quantity_requested
          (filter (fun h => (er_event_id h =? eid) && (er_resource_id h =? rid))
             (event_resources d))).

(** A resource row after the holds of the booking [eid] in [d] are
    credited to it. *)
Definition credit_booking (eid : Z) (d : db) (r : resource) : resource :=
  mkResource (r_id r) (r_name r) (total_quantity r)
    (available_quantity r + booked_quantity eid (r_id r) d).

(** The positive quantities a form asks of the resource rows [rs]. *)
Definition asked (qty_of : Z -> option Z) (rs : list resource)
  : list (Z * Z) :=
  flat_map (fun r => match qty_of (r_id r) with
                     | Some qty => if 0 <? qty then [(r_id r, qty)] else []
                     | None => []
                     end) rs.

(** The values the inserts of [new_event] bind are in range: the
    expected attendees and every positive quantity asked. *)
Definition values_fit (d : db) (f : booking_form) (ea : Z) : Prop :=
  Sql.fits ea = true
  /\ forall r qty, In r (resources d) -> f_resource f (r_id r) = Some qty ->
       0 < qty -> Sql.fits qty = true.

(** No booking of the store blocks the slot the form asks for. *)
Definition slot_free (d : db) (f : booking_form) (vid : Z) : Prop :=
  forall e, In e (events d) ->
    ~ blocks vid (Str.strip (f_event_date f)) (Str.strip (f_start_time f))
        (Str.strip (f_end_time f)) e.

(** What it takes for a submission to be admitted, read off the store
    and the form: a POST of a logged-in coordinator, a form that parses
    with its required fields filled, an existing venue that is large
    enough, a free slot, enough stock of every resource asked for, and
    integers in range.  The two times are not compared. *)
Definition accepted (d : db) (s : session) (m : http_method)
  (f : booking_form) : Prop :=
  m = POST
  /\ exists uid u ea vid v,
       s = Some uid
       /\ first_such (fun x => u_id x = uid) (users d) u
       /\ u_role u = "coordinator"
       /\ f_expected_attendees f = Some ea
       /\ f_venue_id f = Some vid
       /\ Str.strip (f_title f) <> ""
       /\ Str.strip (f_event_date f) <> ""
       /\ Str.strip (f_start_time f) <> ""
       /\ Str.strip (f_end_time f) <> ""
       /\ vid <> 0
       /\ Sql.fits vid = true
       /\ first_such (fun x => v_id x = vid) (venues d) v
       /\ ea <= v_capacity v
       /\ slot_free d f vid
       /\ (forall r, In r (resources d) -> stock_ok (f_resource f) r)
       /\ values_fit d f ea.






(** A submission that overlaps the booking of [booked] and asks for
    nine projectors. *)
Definition crowded : booking_form :=
  mkForm "Fair" "" "2024-05-01" "11:00" "13:00" (Some 80) (Some 2)
    (fun rid => if rid =? 1 then Some 9 else Some 0).

(** A submission for the same hall and day, right after the booking of
    [booked]. *)
Definition lunch : booking_form :=
  mkForm "Lunch" "" "2024-05-01" "12:00" "14:00" (Some 40) (Some 2)
    (fun rid => if rid =? 2 then Some 1 else Some 0).



(** * Properties *)

(** ** Sums of quantities *)

Lemma sumZ_app (l1 l2 : list Z) : sumZ (l1 ++ l2) = sumZ l1 + sumZ l2.
Proof.
  induction l1 as [|x l1 IH]; simpl; [reflexivity | rewrite IH; lia].
Qed.

Lemma sumZ_nonneg (l : list Z) : (forall x, In x l -> 0 <= x) -> 0 <= sumZ l.
Proof.
  induction l as [|x l IH]; simpl; intros H; [lia|].
  assert (0 <= x) by (apply H; now left).
  assert (0 <= sumZ l) by (apply IH; intros y Hy; apply H; now right).
  lia.
Qed.

(** ** The ledger: holds, credits and debits *)

Lemma quantity_on_app (rid : Z) (hs1 hs2 : list event_resource) :
  quantity_on rid (hs1 ++ hs2) = quantity_on rid hs1 + quantity_on rid hs2.
Proof.
  unfold quantity_on. now rewrite filter_app, map_app, sumZ_app.
Qed.

Lemma quantity_on_cons (rid : Z) (h : event_resource)
  (hs : list event_resource) :
  quantity_on rid (h :: hs) =
  (if er_resource_id h =? rid then quantity_requested h else 0)
  + quantity_on rid hs.
Proof.
  unfold quantity_on. simpl.
  destruct (er_resource_id h =? rid); simpl; lia.
Qed.

Lemma quantity_on_nonneg (rid : Z) (hs : list event_resource) :
  (forall h, In h hs -> 0 < quantity_requested h) ->
  0 <= quantity_on rid hs.
Proof.
  intros H. unfold quantity_on. apply sumZ_nonneg.
  intros x Hx. apply in_map_iff in Hx. destruct Hx as [h [<- Hh]].
  apply filter_In in Hh. destruct Hh as [Hh _].
  specialize (H h Hh). lia.
Qed.

Lemma set_resources_same (d : db) : set_resources (resources d) d = d.
Proof. now destruct d. Qed.

Lemma credited_nil (rs : list resource) : map (credited []) rs = rs.
Proof.
  induction rs as [|r rs IH]; simpl; [reflexivity|].
  rewrite IH. f_equal. destruct r as [i n t a]. unfold credited. simpl.
  unfold quantity_on. simpl. f_equal. lia.
Qed.

(** The release loop credits every resource row with the sum of the
    hold rows on it, uncapped, and touches nothing else. *)
Lemma release_loop (hs : list event_resource) (d : db) :
  fold_left
    (fun d' r => Sql.add_available (quantity_requested r) (er_resource_id r) d')
    hs d
  = set_resources (map (credited hs) (resources d)) d.
Proof.
  revert d. induction hs as [|h hs IH]; intros d; simpl.
  - now rewrite credited_nil, set_resources_same.
  - rewrite IH. unfold Sql.add_available, set_resources. simpl.
    f_equal. rewrite map_map. apply map_ext. intros r.
    unfold credited. rewrite quantity_on_cons.
    rewrite (Z.eqb_sym (er_resource_id h) (r_id r)).
    destruct (r_id r =? er_resource_id h) eqn:E; simpl; f_equal; lia.
Qed.

Lemma release_reserved_eq (eid : Z) (d : db) :
  release_reserved eid d
  = set_resources (map (credited (Sql.holds_of eid d)) (resources d)) d.
Proof. unfold release_reserved. apply release_loop. Qed.

(** ** Who may decide *)

Lemma approver_role_cases (r : string) :
  Str.mem r ["hod"; "dean"; "head"] = true ->
  r = "hod" \/ r = "dean" \/ r = "head".
Proof.
  unfold Str.mem. simpl. intros H.
  destruct (String.eqb_spec r "hod"); [now left|].
  destruct (String.eqb_spec r "dean"); [now right; left|].
  destruct (String.eqb_spec r "head"); [now right; right|].
  discriminate.
Qed.

(** Case analysis along a handler: split on the innermost scrutinee. *)
Ltac step_handler :=
  match goal with
  | |- context [match ?x with _ => _ end] =>
      lazymatch x with
      | context [match _ with _ => _ end] => fail
      | _ => destruct x eqn:?
      end
  end.

Ltac open_handler :=
  unfold commit, bind, require, some_or, login_required, role_required,
    load_user;
  cbv zeta.

Lemma current_approver_flow (d : db) (s : session) (eid : Z)
  (u : user) (e : event) :
  current_approver d s eid u e ->
  exists nxt, APPROVAL_FLOW (status e) = Some (u_role u, nxt)
    /\ ((u_role u = "hod" /\ nxt = "pending_dean")
        \/ (u_role u = "dean" /\ nxt = "pending_head")
        \/ (u_role u = "head" /\ nxt = "approved")).
Proof.
  intros (_ & Hr & _ & Hs). rewrite Hs.
  destruct (approver_role_cases _ Hr) as [E | [E | E]]; rewrite E;
    eexists; (split; [reflexivity|]); auto.
Qed.

Lemma current_approver_label (d : db) (s : session) (eid : Z)
  (u : user) (e : event) :
  current_approver d s eid u e ->
  exists label, ROLE_LABELS (u_role u) = Some label.
Proof.
  intros (_ & Hr & _ & _).
  destruct (approver_role_cases _ Hr) as [E | [E | E]]; rewrite E;
    eexists; reflexivity.
Qed.

(** *** [approve_event] *)

Ltac found_approver :=
  match goal with
  | Hu : Sql.user_by_id ?z ?d = Some ?u,
    Hr : Str.mem (u_role ?u) _ = true,
    He : Sql.event_by_id ?eid ?d = Some ?e,
    Hs : String.eqb (status ?e) _ = true |- _ =>
      apply String.eqb_eq in Hs;
      assert (current_approver d (Some z) eid u e)
        by (repeat split; eauto)
  end.

Lemma approve_event_inv (d d' : db) (s : session) (eid : Z)
  (c nxt : string) :
  approve_event d s eid c = (d', Approved nxt) ->
  exists u e, current_approver d s eid u e
    /\ APPROVAL_FLOW (status e) = Some (u_role u, nxt).
Proof.
  unfold approve_event. open_handler.
  do 6 (step_handler; try (intros X; discriminate X)).
  intros X. assert (snd p = nxt) by (repeat step_handler; congruence).
  clear X. subst nxt. found_approver.
  match goal with Hc : current_approver _ _ _ _ _ |- _ =>
    destruct (current_approver_flow Hc) as (n' & Hf & _) end.
  do 2 eexists. split; [eassumption|].
  match goal with Hp : APPROVAL_FLOW _ = Some p |- _ =>
    rewrite Hp in Hf; inversion Hf; subst; simpl; exact Hp end.
Qed.

Lemma approve_event_unchanged (d d' : db) (s : session) (eid : Z)
  (c : string) (r : response) :
  approve_event d s eid c = (d', r) ->
  (forall nxt, r <> Approved nxt) -> d' = d.
Proof.
  unfold approve_event. open_handler.
  repeat step_handler; intros X; inversion X; subst; intros N;
    try reflexivity; exfalso; eapply N; reflexivity.
Qed.

Lemma approve_event_ok (d : db) (s : session) (eid : Z) (c nxt : string)
  (u : user) (e : event) :
  current_approver d s eid u e ->
  APPROVAL_FLOW (status e) = Some (u_role u, nxt) ->
  approve_event d s eid c =
  (mkDb (users d) (venues d) (resources d)
     (map (Sql.on_row eid (Sql.with_status nxt (next_role_of nxt))) (events d))
     (event_resources d)
     (approvals d ++
      [mkApproval eid (u_id u) (u_role u) "approved" (Str.strip c)])
     (notifications d ++ approval_notice d e nxt),
   Approved nxt).
Proof.
  intros ((uid & -> & Hu) & Hr & He & Hs) Hf.
  unfold approve_event. open_handler.
  rewrite Hu, Hr, He, Hf, Hs, String.eqb_refl.
  unfold approval_notice, next_role_of. simpl.
  destruct (String.eqb nxt "approved"); simpl.
  - reflexivity.
  - unfold Sql.user_by_role. simpl.
    destruct (find _ (users d)); simpl; [reflexivity|].
    now rewrite app_nil_r.
Qed.

(** *** [reject_event] *)

Lemma reject_event_inv (d d' : db) (s : session) (eid : Z)
  (reason : string) :
  reject_event d s eid reason = (d', Rejected) ->
  exists u e, current_approver d s eid u e
    /\ Str.truthy (Str.strip reason) = true.
Proof.
  unfold reject_event. open_handler.
  do 6 (step_handler; try (intros X; discriminate X)).
  intros _. found_approver. eauto.
Qed.

Lemma reject_event_unchanged (d d' : db) (s : session) (eid : Z)
  (reason : string) (r : response) :
  reject_event d s eid reason = (d', r) -> r <> Rejected -> d' = d.
Proof.
  unfold reject_event. open_handler.
  repeat step_handler; intros X; inversion X; subst; intros N;
    try reflexivity; now exfalso.
Qed.

Lemma reject_event_ok (d : db) (s : session) (eid : Z) (reason label : string)
  (u : user) (e : event) :
  current_approver d s eid u e ->
  Str.truthy (Str.strip reason) = true ->
  ROLE_LABELS (u_role u) = Some label ->
  reject_event d s eid reason =
  (mkDb (users d) (venues d)
     (map (credited (Sql.holds_of eid d)) (resources d))
     (map (Sql.on_row eid (Sql.with_rejection (Str.strip reason))) (events d))
     (event_resources d)
     (approvals d ++
      [mkApproval eid (u_id u) (u_role u) "rejected" (Str.strip reason)])
     (notifications d ++
      [mkNotification (created_by e)
         ("Your event '" ++ title e ++ "' was rejected by " ++ label
          ++ ". Reason: " ++ Str.strip reason)%string 0]),
   Rejected).
Proof.
  intros ((uid & -> & Hu) & Hr & He & Hs) Ht Hl.
  unfold reject_event. open_handler.
  rewrite Hu, Hr, He, Hs, String.eqb_refl, Ht, Hl.
  rewrite release_reserved_eq. reflexivity.
Qed.

(** *** [complete_event] *)

Lemma coordinator_role (r : string) :
  Str.mem r ["coordinator"] = true <-> r = "coordinator".
Proof.
  unfold Str.mem. simpl. rewrite orb_false_r. apply String.eqb_eq.
Qed.

Lemma complete_event_inv (d d' : db) (s : session) (eid : Z) :
  complete_event d s eid = (d', Completed) ->
  exists u e, may_complete d s eid u e.
Proof.
  unfold complete_event. open_handler.
  do 5 (step_handler; try (intros X; discriminate X)).
  intros _.
  match goal with
  | H : negb (_ || _) = true |- _ =>
      apply negb_true_iff, orb_false_iff in H; destruct H as [H1 H2];
      apply negb_false_iff in H1, H2;
      apply String.eqb_eq in H1; apply Z.eqb_eq in H2
  end.
  match goal with
  | H : Str.mem _ _ = true |- _ => apply coordinator_role in H
  end.
  do 2 eexists. repeat split; eauto.
Qed.

Lemma complete_event_unchanged (d d' : db) (s : session) (eid : Z)
  (r : response) :
  complete_event d s eid = (d', r) -> r <> Completed -> d' = d.
Proof.
  unfold complete_event. open_handler.
  repeat step_handler; intros X; inversion X; subst; intros N;
    try reflexivity; now exfalso.
Qed.

Lemma complete_event_ok (d : db) (s : session) (eid : Z)
  (u : user) (e : event) :
  may_complete d s eid u e ->
  complete_event d s eid =
  (mkDb (users d) (venues d)
     (map (credited (Sql.holds_of eid d)) (resources d))
     (map (Sql.on_row eid (Sql.with_status "completed" "")) (events d))
     (event_resources d) (approvals d) (notifications d),
   Completed).
Proof.
  intros ((uid & -> & Hu) & Hr & He & Hs & Hc).
  unfold complete_event. open_handler.
  apply coordinator_role in Hr.
  rewrite Hu, Hr, He, Hs, Hc, Z.eqb_refl. simpl.
  rewrite release_reserved_eq. reflexivity.
Qed.

(** *** [new_event] *)

Lemma debited_nil (rs : list resource) : map (debited []) rs = rs.
Proof.
  induction rs as [|r rs IH]; simpl; [reflexivity|].
  rewrite IH. f_equal. destruct r as [i n t a]. unfold debited. simpl.
  unfold quantity_on. simpl. f_equal. lia.
Qed.

(** The reserve loop inserts one hold row per request and debits every
    resource row by the sum of the new hold rows on it. *)
Lemma reserve_loop (eid : Z) (reqs : list (Z * Z)) (d : db) :
  fold_left (reserve eid) reqs d
  = mkDb (users d) (venues d)
      (map (debited (new_holds eid reqs)) (resources d))
      (events d) (event_resources d ++ new_holds eid reqs)
      (approvals d) (notifications d).
Proof.
  revert d. induction reqs as [|[rid qty] reqs IH]; intros d; simpl.
  - rewrite debited_nil, app_nil_r. now destruct d.
  - rewrite IH. unfold reserve, Sql.add_available, Sql.insert_hold. simpl.
    f_equal.
    + rewrite map_map. apply map_ext. intros r.
      unfold debited. rewrite quantity_on_cons. simpl.
      rewrite (Z.eqb_sym rid (r_id r)).
      destruct (r_id r =? rid) eqn:E; simpl; f_equal; lia.
    + now rewrite <- app_assoc.
Qed.

Lemma new_event_ok (d : db) (s : session) (f : booking_form) (u : user)
  (ea vid : Z) (v : venue) (reqs : list (Z * Z)) :
  well_formed_submission d s f u ea vid ->
  admitted d f ea vid v reqs ->
  let b := new_booking d f u ea vid in
  new_event d s POST f =
  (mkDb (users d) (venues d)
     (map (debited (new_holds (e_id b) reqs)) (resources d))
     (events d ++ [b])
     (event_resources d ++ new_holds (e_id b) reqs)
     (approvals d) (notifications d ++ hod_notice d f),
   Submitted).
Proof.
  intros ((uid & -> & Hu) & Hr & Hea & Hvid & Hf & Hfit)
         (Hv & Hcap & Hc & Hres & Hfe & Hfr) b.
  unfold new_event. open_handler.
  apply coordinator_role in Hr. unfold fields_filled in Hf.
  unfold requests_fit in Hfr.
  rewrite Hu, Hr, Hea, Hvid, Hf, Hfit, Hv, Hc, Hres.
  replace (v_capacity v <? ea) with false by (symmetry; apply Z.ltb_ge; lia).
  simpl. rewrite Hfe, Hfr. simpl. rewrite reserve_loop. simpl.
  unfold hod_notice, Sql.user_by_role. simpl.
  destruct (find _ (users d)); simpl; [reflexivity|].
  now rewrite app_nil_r.
Qed.

Lemma resource_validation_answers (q : Z -> option Z) (rs : list resource)
  (r : response) :
  resource_validation q rs = inl r ->
  r = ServerError \/ exists n a k, r = InsufficientStock n a k.
Proof.
  induction rs as [|res rs IH]; simpl; [discriminate|].
  unfold bind, some_or, require.
  destruct (q (r_id res)) as [qty|]; [|intros X; inversion X; now left].
  destruct (0 <? qty); [|exact IH].
  destruct (available_quantity res <? qty); simpl.
  - intros X; inversion X. right. eauto.
  - destruct (resource_validation q rs); [|discriminate].
    intros X; inversion X; subst. now apply IH.
Qed.

Lemma new_event_inv (d d' : db) (s : session) (m : http_method)
  (f : booking_form) :
  new_event d s m f = (d', Submitted) ->
  m = POST /\
  exists u ea vid v reqs,
    well_formed_submission d s f u ea vid /\ admitted d f ea vid v reqs.
Proof.
  unfold new_event. open_handler.
  do 12 (step_handler; try (intros X; discriminate X)).
  - intros X. exfalso. inversion X; subst.
    match goal with
    | H : resource_validation _ _ = inl _ |- _ =>
        destruct (resource_validation_answers _ _ H) as [E | (n & a & k & E)];
        discriminate E
    end.
  - match goal with
    | |- context [Sql.fits ?ea && forallb ?p ?reqs] =>
        destruct (Sql.fits ea && forallb p reqs) eqn:Hfit;
          [|intros X; discriminate X]
    end.
    apply andb_true_iff in Hfit. destruct Hfit as [Hfe Hfr].
    intros _. split; [reflexivity|].
    match goal with
    | H : Str.mem _ _ = true |- _ => apply coordinator_role in H
    end.
    match goal with
    | H : negb (_ <? _) = true |- _ =>
        apply negb_true_iff, Z.ltb_ge in H
    end.
    do 5 eexists. split; repeat split; eauto.
Qed.

Lemma new_event_unchanged (d d' : db) (s : session) (m : http_method)
  (f : booking_form) (r : response) :
  new_event d s m f = (d', r) -> r <> Submitted -> d' = d.
Proof.
  unfold new_event. open_handler.
  repeat step_handler; intros X; inversion X; subst; intros N;
    try reflexivity; now exfalso.
Qed.

(** ** Rows of [events] under the updates *)

Section Rows.

Variable eid : Z.
Variable g : event -> event.
Hypothesis g_id : forall e, e_id (g e) = e_id e.

Lemma on_row_id (e : event) : e_id (Sql.on_row eid g e) = e_id e.
Proof. unfold Sql.on_row. destruct (e_id e =? eid); [apply g_id | reflexivity]. Qed.

Lemma ids_on_row (es : list event) :
  map e_id (map (Sql.on_row eid g) es) = map e_id es.
Proof. rewrite map_map. apply map_ext. exact on_row_id. Qed.

Lemma find_on_row (x : Z) (es : list event) :
  find (fun e => e_id e =? x) (map (Sql.on_row eid g) es)
  = option_map (Sql.on_row eid g) (find (fun e => e_id e =? x) es).
Proof.
  induction es as [|e es IH]; simpl; [reflexivity|].
  rewrite on_row_id. destruct (e_id e =? x); [reflexivity | exact IH].
Qed.

Lemma find_on_row_other (x : Z) (es : list event) :
  x <> eid ->
  find (fun e => e_id e =? x) (map (Sql.on_row eid g) es)
  = find (fun e => e_id e =? x) es.
Proof.
  intros Hx. rewrite find_on_row.
  destruct (find _ es) as [e|] eqn:E; simpl; [|reflexivity].
  apply find_some in E. destruct E as [_ E]. apply Z.eqb_eq in E.
  unfold Sql.on_row. destruct (Z.eqb_spec (e_id e) eid); [congruence | reflexivity].
Qed.

Lemma find_on_row_same (es : list event) :
  find (fun e => e_id e =? eid) (map (Sql.on_row eid g) es)
  = option_map g (find (fun e => e_id e =? eid) es).
Proof.
  rewrite find_on_row.
  destruct (find _ es) as [e|] eqn:E; simpl; [|reflexivity].
  apply find_some in E. destruct E as [_ E].
  unfold Sql.on_row. now rewrite E.
Qed.

(** The status of the rows becomes [st], which holds stock as the old
    status of the booking did: nothing changes for the ledger. *)
Lemma outstanding_kept (st : string) (e0 : event) (es : list event)
  (h : event_resource) :
  (forall e, status (g e) = st) ->
  find (fun e => e_id e =? eid) es = Some e0 ->
  released_status (status e0) = released_status st ->
  outstanding (map (Sql.on_row eid g) es) h = outstanding es h.
Proof.
  intros Hst He0 Hrel. unfold outstanding.
  destruct (Z.eq_dec (er_event_id h) eid) as [E | E].
  - rewrite E, find_on_row_same, He0. simpl. now rewrite Hst, Hrel.
  - now rewrite find_on_row_other.
Qed.

(** The status of the rows becomes a released one: the holds of the
    booking stop being outstanding, the others are as before. *)
Lemma outstanding_released (st : string) (es : list event)
  (h : event_resource) :
  (forall e, status (g e) = st) ->
  released_status st = true ->
  outstanding (map (Sql.on_row eid g) es) h
  = outstanding es h && negb (er_event_id h =? eid).
Proof.
  intros Hst Hrel. unfold outstanding.
  destruct (Z.eqb_spec (er_event_id h) eid) as [E | E].
  - rewrite E, find_on_row_same.
    destruct (find _ es); simpl; [|reflexivity].
    now rewrite Hst, Hrel, andb_false_r.
  - rewrite find_on_row_other by assumption. now rewrite andb_true_r.
Qed.

End Rows.

(** Releasing a booking whose holds are all outstanding takes exactly
    its hold rows out of the outstanding ones. *)
Lemma held_split (rid eid : Z) (p p' : event_resource -> bool)
  (hs : list event_resource) :
  (forall h, p' h = p h && negb (er_event_id h =? eid)) ->
  (forall h, er_event_id h = eid -> p h = true) ->
  quantity_on rid (filter p hs)
  = quantity_on rid (filter p' hs)
    + quantity_on rid (filter (fun h => er_event_id h =? eid) hs).
Proof.
  intros Hp' Hp. induction hs as [|h hs IH]; simpl; [reflexivity|].
  rewrite Hp'. destruct (Z.eqb_spec (er_event_id h) eid) as [E | E].
  - rewrite (Hp h E). simpl. rewrite !quantity_on_cons, IH. lia.
  - rewrite andb_true_r. destruct (p h); simpl.
    + rewrite !quantity_on_cons, IH. lia.
    + exact IH.
Qed.

(** ** Fresh row ids *)

Lemma next_rowid_above (ids : list Z) (x : Z) :
  In x ids -> x < Sql.next_rowid ids.
Proof.
  unfold Sql.next_rowid.
  induction ids as [|y ids IH]; cbn [fold_right In]; [tauto|].
  intros [-> | H]; [lia|]. specialize (IH H). lia.
Qed.

Lemma find_fresh (es : list event) :
  find (fun e => e_id e =? Sql.next_rowid (map e_id es)) es = None.
Proof.
  destruct (find _ es) as [e|] eqn:E; [|reflexivity].
  apply find_some in E. destruct E as [Hin E]. apply Z.eqb_eq in E.
  assert (e_id e < Sql.next_rowid (map e_id es))
    by (apply next_rowid_above, in_map, Hin).
  lia.
Qed.

Lemma find_app_known (x : Z) (es : list event) (b : event) :
  In x (map e_id es) ->
  find (fun e => e_id e =? x) (es ++ [b]) = find (fun e => e_id e =? x) es.
Proof.
  induction es as [|e es IH]; simpl; [tauto|].
  intros [E | H].
  - now rewrite E, Z.eqb_refl.
  - destruct (e_id e =? x); [reflexivity | now apply IH].
Qed.

Lemma find_app_fresh (es : list event) (b : event) :
  e_id b = Sql.next_rowid (map e_id es) ->
  find (fun e => e_id e =? e_id b) (es ++ [b]) = Some b.
Proof.
  intros E. pose proof (find_fresh es) as F. rewrite <- E in F.
  clear E. induction es as [|e es IH]; simpl in *.
  - now rewrite Z.eqb_refl.
  - destruct (e_id e =? e_id b); [discriminate | now apply IH].
Qed.

(** ** The ledger under each committed request *)

Lemma filter_all {A : Type} (p : A -> bool) (l : list A) :
  (forall x, In x l -> p x = true) -> filter p l = l.
Proof.
  induction l as [|x l IH]; simpl; intros H; [reflexivity|].
  rewrite (H x) by now left. f_equal. apply IH. intros y Hy. apply H. now right.
Qed.

Lemma pending_not_released (d : db) (s : session) (eid : Z)
  (u : user) (e : event) :
  current_approver d s eid u e -> released_status (status e) = false.
Proof.
  intros (_ & Hr & _ & Hs). rewrite Hs.
  destruct (approver_role_cases _ Hr) as [E | [E | E]]; rewrite E; reflexivity.
Qed.

Lemma next_not_released (d : db) (s : session) (eid : Z)
  (u : user) (e : event) (nxt : string) :
  current_approver d s eid u e ->
  APPROVAL_FLOW (status e) = Some (u_role u, nxt) ->
  released_status nxt = false.
Proof.
  intros Hc Hf. destruct (current_approver_flow Hc) as (n & Hn & Hcases).
  rewrite Hf in Hn. inversion Hn; subst n.
  destruct Hcases as [[_ E] | [[_ E] | [_ E]]]; rewrite E; reflexivity.
Qed.

Section Ledger.

Variable d : db.
Variables (us : list user) (vs : list venue).
Variables (aps : list approval) (ns : list notification).

(** A release: the rows of the booking take a released status and every
    resource row is credited with the booking's hold rows. *)
Lemma ledger_ok_release (eid : Z) (g : event -> event) (st : string)
  (e0 : event) :
  (forall e, e_id (g e) = e_id e) ->
  (forall e, status (g e) = st) ->
  released_status st = true ->
  Sql.event_by_id eid d = Some e0 ->
  released_status (status e0) = false ->
  ledger_ok d ->
  ledger_ok
    (mkDb us vs (map (credited (Sql.holds_of eid d)) (resources d))
       (map (Sql.on_row eid g) (events d)) (event_resources d) aps ns).
Proof.
  intros Hid Hst Hrel He0 Hact Hok r' Hin. simpl in Hin.
  apply in_map_iff in Hin. destruct Hin as (r & <- & Hin).
  specialize (Hok r Hin). unfold held in *. simpl.
  rewrite (@held_split (r_id r) eid (outstanding (events d))
             (outstanding (map (Sql.on_row eid g) (events d)))) in Hok.
  - unfold Sql.holds_of. lia.
  - intros h. now apply outstanding_released with (st := st).
  - intros h Hh. unfold outstanding. rewrite Hh.
    unfold Sql.event_by_id in He0. now rewrite He0, Hact.
Qed.

(** An approval: the rows of the booking pass from one holding status
    to another, the resource and hold rows stay. *)
Lemma ledger_ok_advance (eid : Z) (g : event -> event) (st : string)
  (e0 : event) :
  (forall e, e_id (g e) = e_id e) ->
  (forall e, status (g e) = st) ->
  Sql.event_by_id eid d = Some e0 ->
  released_status (status e0) = released_status st ->
  ledger_ok d ->
  ledger_ok
    (mkDb us vs (resources d) (map (Sql.on_row eid g) (events d))
       (event_resources d) aps ns).
Proof.
  intros Hid Hst He0 Hrel Hok r Hin. simpl in Hin.
  specialize (Hok r Hin). unfold held in *. simpl.
  rewrite (filter_ext (outstanding (map (Sql.on_row eid g) (events d)))
             (outstanding (events d))); [exact Hok|].
  intros h. now apply outstanding_kept with (st := st) (e0 := e0).
Qed.

(** A submission: a booking with a fresh id and a holding status, its
    hold rows, and the matching debits. *)
Lemma ledger_ok_submit (b : event) (reqs : list (Z * Z)) :
  e_id b = Sql.next_rowid (map e_id (events d)) ->
  released_status (status b) = false ->
  holds_ok d ->
  ledger_ok d ->
  ledger_ok
    (mkDb us vs (map (debited (new_holds (e_id b) reqs)) (resources d))
       (events d ++ [b]) (event_resources d ++ new_holds (e_id b) reqs)
       aps ns).
Proof.
  intros Hb Hst Hfk Hok r' Hin. simpl in Hin.
  apply in_map_iff in Hin. destruct Hin as (r & <- & Hin).
  specialize (Hok r Hin). unfold held in *. simpl.
  rewrite filter_app, quantity_on_app.
  rewrite (filter_ext_in (outstanding (events d ++ [b]))
             (outstanding (events d)) (event_resources d)).
  - rewrite (filter_all (outstanding (events d ++ [b]))); [lia|].
    intros h Hh. unfold new_holds in Hh. apply in_map_iff in Hh.
    destruct Hh as (rq & <- & _). unfold outstanding. simpl.
    now rewrite (@find_app_fresh _ _ Hb), Hst.
  - intros h Hh. unfold outstanding.
    rewrite find_app_known; [reflexivity|]. now apply Hfk.
Qed.

End Ledger.

Lemma resource_validation_positive (q : Z -> option Z) (rs : list resource)
  (reqs : list (Z * Z)) :
  resource_validation q rs = inr reqs ->
  forall rq, In rq reqs -> 0 < snd rq.
Proof.
  revert reqs. induction rs as [|res rs IH]; simpl; intros reqs.
  - intros X; inversion X. simpl. tauto.
  - unfold bind, some_or, require.
    destruct (q (r_id res)) as [qty|]; [|discriminate].
    destruct (0 <? qty) eqn:Hq; [|apply IH].
    destruct (available_quantity res <? qty); simpl; [discriminate|].
    destruct (resource_validation q rs) as [|rest]; [discriminate|].
    intros X; inversion X; subst. intros rq [<- | Hin].
    + simpl. now apply Z.ltb_lt.
    + now apply (IH rest).
Qed.

Lemma holds_ok_rows (d : db) (eid : Z) (g : event -> event)
  (us : list user) (vs : list venue) (rs : list resource)
  (aps : list approval) (ns : list notification) :
  (forall e, e_id (g e) = e_id e) ->
  holds_ok d ->
  holds_ok (mkDb us vs rs (map (Sql.on_row eid g) (events d))
              (event_resources d) aps ns).
Proof.
  intros Hid Hok h Hh. simpl in *. rewrite ids_on_row by assumption.
  now apply Hok.
Qed.

Lemma holds_ok_submit (d : db) (b : event) (reqs : list (Z * Z))
  (us : list user) (vs : list venue) (rs : list resource)
  (aps : list approval) (ns : list notification) :
  holds_ok d ->
  holds_ok (mkDb us vs rs (events d ++ [b])
              (event_resources d ++ new_holds (e_id b) reqs) aps ns).
Proof.
  intros Hok h Hh. simpl in *. rewrite map_app.
  apply in_app_or in Hh. destruct Hh as [Hh | Hh].
  - apply in_or_app. left. now apply Hok.
  - unfold new_holds in Hh. apply in_map_iff in Hh.
    destruct Hh as (rq & <- & Hrq). simpl.
    apply in_or_app. right. now left.
Qed.

(** Every request keeps the ledger equation and the shape of the hold
    rows, whatever its arguments and whatever it answers. *)
Lemma handle_keeps_ledger (d : db) (q : request) :
  holds_ok d -> ledger_ok d ->
  holds_ok (fst (handle d q)) /\ ledger_ok (fst (handle d q)).
Proof.
  intros Hh Hl. destruct q as [s m f | s eid c | s eid reason | s eid]; simpl.
  - destruct (new_event d s m f) as [d' r] eqn:E.
    destruct r;
      try (apply new_event_unchanged in E; [subst; now split | discriminate]).
    pose proof E as E'. apply new_event_inv in E'.
    destruct E' as (-> & u & ea & vid & v & reqs & Hw & Ha).
    erewrite new_event_ok in E by eassumption.
    injection E as <-. cbn [fst]. split.
    + now apply holds_ok_submit.
    + now apply ledger_ok_submit with (b := new_booking d f u ea vid).
  - destruct (approve_event d s eid c) as [d' r] eqn:E.
    destruct r;
      try (apply approve_event_unchanged in E;
           [subst; now split | discriminate]).
    pose proof E as E'. apply approve_event_inv in E'.
    destruct E' as (u & e & Hc & Hf).
    erewrite approve_event_ok in E by eassumption.
    injection E as E; subst. cbn [fst]. split.
    + now apply holds_ok_rows.
    + apply ledger_ok_advance with (st := next_status) (e0 := e); auto.
      * now destruct Hc as (_ & _ & He & _).
      * erewrite pending_not_released by eassumption. symmetry.
        eapply next_not_released; eassumption.
  - destruct (reject_event d s eid reason) as [d' r] eqn:E.
    destruct r;
      try (apply reject_event_unchanged in E;
           [subst; now split | discriminate]).
    pose proof E as E'. apply reject_event_inv in E'.
    destruct E' as (u & e & Hc & Ht).
    pose proof Hc as Hlab. apply current_approver_label in Hlab.
    destruct Hlab as (label & Hlab).
    erewrite reject_event_ok in E by eassumption.
    injection E as E; subst. cbn [fst]. split.
    + now apply holds_ok_rows.
    + apply ledger_ok_release with (st := "rejected") (e0 := e); auto.
      * now destruct Hc as (_ & _ & He & _).
      * eapply pending_not_released; eassumption.
  - destruct (complete_event d s eid) as [d' r] eqn:E.
    destruct r;
      try (apply complete_event_unchanged in E;
           [subst; now split | discriminate]).
    pose proof E as E'. apply complete_event_inv in E'.
    destruct E' as (u & e & Hc).
    erewrite complete_event_ok in E by eassumption.
    injection E as E; subst. cbn [fst]. split.
    + now apply holds_ok_rows.
    + destruct Hc as (_ & _ & He & Hs & _).
      apply ledger_ok_release with (st := "completed") (e0 := e); auto.
      now rewrite Hs.
Qed.

Lemma run_snoc (d : db) (qs : list request) (q : request) :
  run d (qs ++ [q]) = fst (handle (run d qs) q).
Proof. unfold run. now rewrite fold_left_app. Qed.

Lemma run_keeps_ledger (d : db) (qs : list request) :
  holds_ok d -> ledger_ok d ->
  holds_ok (run d qs) /\ ledger_ok (run d qs).
Proof.
  intros Hh Hl. induction qs as [|q qs IH] using rev_ind.
  - now split.
  - rewrite run_snoc. destruct IH as [IH1 IH2].
    now apply handle_keeps_ledger.
Qed.

Lemma seed_holds_ok : holds_ok seed.
Proof. intros h []. Qed.

Lemma seed_ledger_ok : ledger_ok seed.
Proof.
  intros r Hin. simpl in Hin.
  repeat (destruct Hin as [<- | Hin]; [reflexivity|]). destruct Hin.
Qed.

(** ** Releases along a sequence of requests *)

Lemma with_status_id (st role : string) (e : event) :
  e_id (Sql.with_status st role e) = e_id e.
Proof. reflexivity. Qed.

Lemma with_rejection_id (reason : string) (e : event) :
  e_id (Sql.with_rejection reason e) = e_id e.
Proof. reflexivity. Qed.

(** What a request does to the rows of [events]: nothing, one more
    row, or a new status on the rows of one holding booking, which is a
    released status exactly when the request runs the release loop. *)
Lemma handle_events (d : db) (q : request) :
  (fst (handle d q) = d /\ release_of d q = None)
  \/ (exists b, events (fst (handle d q)) = events d ++ [b]
        /\ release_of d q = None)
  \/ (exists eid g st,
        is_holding d eid
        /\ (forall x, e_id (g x) = e_id x)
        /\ (forall x, status (g x) = st)
        /\ events (fst (handle d q)) = map (Sql.on_row eid g) (events d)
        /\ release_of d q
           = if released_status st then Some eid else None).
Proof.
  destruct q as [s m f | s eid c | s eid reason | s eid];
    unfold release_of; simpl.
  - destruct (new_event d s m f) as [d' r] eqn:E.
    destruct r;
      try (apply new_event_unchanged in E; [subst; now left | discriminate]).
    pose proof E as E'. apply new_event_inv in E'.
    destruct E' as (-> & u & ea & vid & v & reqs & Hw & Ha).
    erewrite new_event_ok in E by eassumption.
    injection E as E; subst. right; left. eexists. split; reflexivity.
  - destruct (approve_event d s eid c) as [d' r] eqn:E.
    destruct r;
      try (apply approve_event_unchanged in E;
           [subst; now left | discriminate]).
    pose proof E as E'. apply approve_event_inv in E'.
    destruct E' as (u & e & Hc & Hf).
    erewrite approve_event_ok in E by eassumption.
    injection E as E; subst. right; right.
    exists eid, (Sql.with_status next_status (next_role_of next_status)),
      next_status.
    erewrite next_not_released by eassumption.
    repeat split.
    exists e. split; [now destruct Hc as (_ & _ & He & _)|].
    eapply pending_not_released; eassumption.
  - destruct (reject_event d s eid reason) as [d' r] eqn:E. simpl.
    destruct r;
      try (apply reject_event_unchanged in E;
           [subst; now left | discriminate]).
    pose proof E as E'. apply reject_event_inv in E'.
    destruct E' as (u & e & Hc & Ht).
    pose proof Hc as Hlab. apply current_approver_label in Hlab.
    destruct Hlab as (label & Hlab).
    erewrite reject_event_ok in E by eassumption.
    injection E as E; subst. right; right.
    exists eid, (Sql.with_rejection (Str.strip reason)), "rejected".
    repeat split.
    exists e. split; [now destruct Hc as (_ & _ & He & _)|].
    eapply pending_not_released; eassumption.
  - destruct (complete_event d s eid) as [d' r] eqn:E. simpl.
    destruct r;
      try (apply complete_event_unchanged in E;
           [subst; now left | discriminate]).
    pose proof E as E'. apply complete_event_inv in E'.
    destruct E' as (u & e & Hc).
    erewrite complete_event_ok in E by eassumption.
    injection E as E; subst. right; right.
    exists eid, (Sql.with_status "completed" ""), "completed".
    repeat split.
    destruct Hc as (_ & _ & He & Hs & _).
    exists e. split; [exact He | now rewrite Hs].
Qed.

Lemma find_app_some {A : Type} (p : A -> bool) (l l' : list A) (x : A) :
  find p l = Some x -> find p (l ++ l') = Some x.
Proof.
  induction l as [|y l IH]; simpl; [discriminate|].
  destruct (p y); [trivial | exact IH].
Qed.

(** A released booking stays released: no request leaves [rejected] or
    [completed], and none runs its release loop again. *)
Lemma released_stays (d : db) (q : request) (eid : Z) :
  is_released d eid ->
  is_released (fst (handle d q)) eid /\ releases eid d q = false.
Proof.
  intros (e & He & Hrel). unfold releases.
  destruct (handle_events d q)
    as [[-> ->] | [(b & Hev & ->) | (x & g & st & Hhold & Hid & Hst & Hev & ->)]].
  - split; [exists e; now split | reflexivity].
  - split; [|reflexivity]. exists e. split; [|exact Hrel].
    unfold Sql.event_by_id in *. rewrite Hev. now apply find_app_some.
  - destruct Hhold as (e0 & He0 & Hact).
    assert (Hneq : x <> eid) by (intros ->; congruence).
    split.
    + exists e. split; [|exact Hrel].
      unfold Sql.event_by_id in *. rewrite Hev.
      rewrite find_on_row_other; auto.
    + destruct (released_status st); [|reflexivity].
      now apply Z.eqb_neq.
Qed.

Lemma released_never_again (eid : Z) (qs : list request) (d : db) :
  is_released d eid -> release_count eid d qs = 0%nat.
Proof.
  revert d. induction qs as [|q qs IH]; intros d Hrel; simpl; [reflexivity|].
  destruct (released_stays q Hrel) as [Hrel' ->].
  now rewrite IH.
Qed.

(** The request that runs the release loop of a booking is the one
    that takes it from a holding status to a released one. *)
Lemma release_at_transition (d : db) (q : request) (eid : Z) :
  releases eid d q = true <->
  is_holding d eid /\ is_released (fst (handle d q)) eid.
Proof.
  unfold releases.
  destruct (handle_events d q)
    as [[-> ->] | [(b & Hev & ->) | (x & g & st & Hhold & Hid & Hst & Hev & ->)]].
  - split; [discriminate|].
    intros [(e & He & Ha) (e' & He' & Hr)]. congruence.
  - split; [discriminate|].
    intros [(e & He & Ha) (e' & He' & Hr)].
    unfold Sql.event_by_id in *. rewrite Hev in He'.
    rewrite (find_app_some _ _ [b] He) in He'. congruence.
  - destruct (Z.eq_dec x eid) as [-> | Hneq].
    + destruct (released_status st) eqn:Hrel.
      * rewrite Z.eqb_refl.
        split; [intros _ | reflexivity]. split; [exact Hhold|].
        destruct Hhold as (e & He & Ha).
        exists (g e). split; [|now rewrite Hst].
        unfold Sql.event_by_id in *. rewrite Hev.
        rewrite find_on_row_same by assumption. now rewrite He.
      * split; [discriminate|].
        intros [(e & He & Ha) (e' & He' & Hr)].
        unfold Sql.event_by_id in *. rewrite Hev in He'.
        rewrite find_on_row_same in He' by assumption.
        rewrite He in He'. simpl in He'. injection He' as <-.
        rewrite Hst in Hr. congruence.
    + assert (E : match (if released_status st then Some x else None) with
                  | Some x0 => x0 =? eid
                  | None => false
                  end = false).
      { destruct (released_status st); [now apply Z.eqb_neq | reflexivity]. }
      rewrite E. split; [discriminate|].
      intros [(e & He & Ha) (e' & He' & Hr)].
      unfold Sql.event_by_id in *. rewrite Hev in He'.
      rewrite find_on_row_other in He' by auto. congruence.
Qed.

Lemma release_at_most_once (eid : Z) (qs : list request) (d : db) :
  (release_count eid d qs <= 1)%nat.
Proof.
  revert d. induction qs as [|q qs IH]; intros d; simpl; [lia|].
  destruct (releases eid d q) eqn:E.
  - apply release_at_transition in E. destruct E as [_ Hrel].
    rewrite (released_never_again qs Hrel). lia.
  - specialize (IH (fst (handle d q))). lia.
Qed.

(** What a request other than a submission does to the rows of
    [resources] and [event_resources]: the credit of the release loop,
    or nothing. *)
Lemma decision_resources (d : db) (q : request) :
  (forall s m f, q <> SubmitBooking s m f) ->
  resources (fst (handle d q))
  = match release_of d q with
    | Some eid => map (credited (Sql.holds_of eid d)) (resources d)
    | None => resources d
    end
  /\ event_resources (fst (handle d q)) = event_resources d.
Proof.
  intros Hq. destruct q as [s m f | s eid c | s eid reason | s eid];
    unfold release_of; simpl.
  - now destruct (Hq s m f).
  - destruct (approve_event d s eid c) as [d' r] eqn:E.
    destruct r;
      try (apply approve_event_unchanged in E;
           [subst; now split | discriminate]).
    pose proof E as E'. apply approve_event_inv in E'.
    destruct E' as (u & e & Hc & Hf).
    erewrite approve_event_ok in E by eassumption.
    injection E as E; subst. now split.
  - destruct (reject_event d s eid reason) as [d' r] eqn:E. simpl.
    destruct r;
      try (apply reject_event_unchanged in E;
           [subst; now split | discriminate]).
    pose proof E as E'. apply reject_event_inv in E'.
    destruct E' as (u & e & Hc & Ht).
    pose proof Hc as Hlab. apply current_approver_label in Hlab.
    destruct Hlab as (label & Hlab).
    erewrite reject_event_ok in E by eassumption.
    injection E as E; subst. now split.
  - destruct (complete_event d s eid) as [d' r] eqn:E. simpl.
    destruct r;
      try (apply complete_event_unchanged in E;
           [subst; now split | discriminate]).
    pose proof E as E'. apply complete_event_inv in E'.
    destruct E' as (u & e & Hc).
    erewrite complete_event_ok in E by eassumption.
    injection E as E; subst. now split.
Qed.

(** A submission only debits: every resource row loses the quantity of
    the new hold rows on it, which are positive. *)
Lemma submission_debits (d : db) (s : session) (m : http_method)
  (f : booking_form) :
  exists hs,
    (forall h, In h hs -> 0 < quantity_requested h)
    /\ resources (fst (new_event d s m f)) = map (debited hs) (resources d)
    /\ event_resources (fst (new_event d s m f)) = event_resources d ++ hs.
Proof.
  destruct (new_event d s m f) as [d' r] eqn:E.
  assert (Hnil : r <> Submitted ->
            exists hs, (forall h, In h hs -> 0 < quantity_requested h)
              /\ resources (fst (d', r)) = map (debited hs) (resources d)
              /\ event_resources (fst (d', r)) = event_resources d ++ hs).
  { intros N. apply new_event_unchanged in E; [|exact N]. subst.
    exists []. split; [intros h []|]. simpl.
    now rewrite debited_nil, app_nil_r. }
  destruct r; try (apply Hnil; discriminate). clear Hnil.
  pose proof E as E'. apply new_event_inv in E'.
  destruct E' as (-> & u & ea & vid & v & reqs & Hw & Ha).
  erewrite new_event_ok in E by eassumption.
  injection E as E; subst. eexists. split; [|split; reflexivity].
  intros h Hh. unfold new_holds in Hh. apply in_map_iff in Hh.
  destruct Hh as (rq & <- & Hrq). simpl.
  destruct Ha as (_ & _ & _ & Hv & _).
  eapply resource_validation_positive; eassumption.
Qed.

(** Every request keeps the hold quantities positive. *)
Lemma handle_keeps_positive (d : db) (q : request) :
  holds_positive d -> holds_positive (fst (handle d q)).
Proof.
  intros Hp h Hh.
  destruct q as [s m f | s eid c | s eid reason | s eid].
  - simpl in Hh. destruct (submission_debits d s m f) as (hs & Hpos & _ & Hev).
    rewrite Hev in Hh. apply in_app_or in Hh.
    destruct Hh as [Hh | Hh]; [now apply Hp | now apply Hpos].
  - assert (N : forall s0 m f, Approve s eid c <> SubmitBooking s0 m f)
      by discriminate.
    destruct (decision_resources d N) as [_ Hev]. rewrite Hev in Hh.
    now apply Hp.
  - assert (N : forall s0 m f, Reject s eid reason <> SubmitBooking s0 m f)
      by discriminate.
    destruct (decision_resources d N) as [_ Hev]. rewrite Hev in Hh.
    now apply Hp.
  - assert (N : forall s0 m f, Complete s eid <> SubmitBooking s0 m f)
      by discriminate.
    destruct (decision_resources d N) as [_ Hev]. rewrite Hev in Hh.
    now apply Hp.
Qed.

Lemma run_keeps_positive (d : db) (qs : list request) :
  holds_positive d -> holds_positive (run d qs).
Proof.
  intros Hp. induction qs as [|q qs IH] using rev_ind; [exact Hp|].
  rewrite run_snoc. now apply handle_keeps_positive.
Qed.

Lemma seed_holds_positive : holds_positive seed.
Proof. intros h []. Qed.

(** ** First rows, and what the queries return *)

Lemma find_first_such {A : Type} (p : A -> bool) (P : A -> Prop)
  (l : list A) (x : A) :
  (forall y, p y = true <-> P y) ->
  (find p l = Some x <-> first_such P l x).
Proof.
  intros Hp. split.
  - induction l as [|y l IH]; simpl; [discriminate|].
    destruct (p y) eqn:E.
    + intros X; inversion X; subst. exists [], l.
      split; [reflexivity|]. split; [now apply Hp | intros z []].
    + intros H. destruct (IH H) as (l1 & l2 & -> & HP & Hpre).
      exists (y :: l1), l2. split; [reflexivity|]. split; [exact HP|].
      intros z [<- | Hz]; [rewrite <- Hp; congruence | now apply Hpre].
  - intros (l1 & l2 & -> & HP & Hpre). induction l1 as [|y l1 IH]; simpl.
    + apply Hp in HP. now rewrite HP.
    + destruct (p y) eqn:E.
      * exfalso. apply (Hpre y); [now left | now apply Hp].
      * apply IH. intros z Hz. apply Hpre. now right.
Qed.

Lemma find_none_iff {A : Type} (p : A -> bool) (P : A -> Prop)
  (l : list A) :
  (forall y, p y = true <-> P y) ->
  (find p l = None <-> forall y, In y l -> ~ P y).
Proof.
  intros Hp. split.
  - intros H y Hy HP. apply Hp in HP.
    pose proof (find_none _ _ H y Hy). congruence.
  - intros H. induction l as [|y l IH]; simpl; [reflexivity|].
    destruct (p y) eqn:E.
    + exfalso. apply (H y); [now left | now apply Hp].
    + apply IH. intros z Hz. apply H. now right.
Qed.


Lemma user_by_id_first (uid : Z) (d : db) (u : user) :
  Sql.user_by_id uid d = Some u
  <-> first_such (fun x => u_id x = uid) (users d) u.
Proof.
  unfold Sql.user_by_id. apply find_first_such. intros y. apply Z.eqb_eq.
Qed.

Lemma venue_by_id_first (vid : Z) (d : db) (v : venue) :
  Sql.venue_by_id vid d = Some v
  <-> first_such (fun x => v_id x = vid) (venues d) v.
Proof.
  unfold Sql.venue_by_id. apply find_first_such. intros y. apply Z.eqb_eq.
Qed.

Lemma venue_by_id_none (vid : Z) (d : db) :
  Sql.venue_by_id vid d = None
  <-> forall v, In v (venues d) -> v_id v <> vid.
Proof.
  unfold Sql.venue_by_id.
  apply (find_none_iff (fun v => v_id v =? vid) (fun v => v_id v = vid)).
  intros y. apply Z.eqb_eq.
Qed.

(** The hold rows the release loop reads are the rows of
    [event_resources] with the booking's id. *)
Lemma credited_booking (eid : Z) (d : db) (r : resource) :
  credited (Sql.holds_of eid d) r = credit_booking eid d r.
Proof.
  unfold credited, credit_booking, booked_quantity, quantity_on, Sql.holds_of.
  do 3 f_equal.
  induction (event_resources d) as [|h hs IH]; simpl; [reflexivity|].
  destruct (er_event_id h =? eid); simpl; [|exact IH].
  destruct (er_resource_id h =? r_id r); simpl; now rewrite IH.
Qed.

Lemma credited_booking_rows (eid : Z) (d : db) (rs : list resource) :
  map (credited (Sql.holds_of eid d)) rs = map (credit_booking eid d) rs.
Proof. apply map_ext. intros r. apply credited_booking. Qed.

Lemma truthy_nonempty (x : string) : Str.truthy x = true <-> x <> "".
Proof. destruct x; simpl; split; intros H; congruence. Qed.

(** * Properties of the specification *)

(** C1. At every resource row and after every sequence of submissions,
    approvals, rejections and completions served from a store whose hold
    rows refer to bookings and whose ledger is balanced,
    [available_quantity] plus the sum of the outstanding holds on the
    resource (the holds of bookings whose status is neither [rejected]
    nor [completed]) equals [total_quantity]. *)
Theorem ledger_invariant (d : db) (qs : list request) (r : resource) :
  holds_ok d -> ledger_ok d ->
  In r (resources (run d qs)) ->
  available_quantity r + held (run d qs) (r_id r) = total_quantity r.
Proof.
  intros Hh Hl Hin.
  destruct (run_keeps_ledger qs Hh Hl) as [_ Hok].
  exact (Hok r Hin).
Qed.

Lemma ledger_invariant_witness :
  let qs := [SubmitBooking (Some 1) POST talk; Approve (Some 2) 1 "ok"] in
  let r := mkResource 1 "Projector" 5 3 in
  holds_ok seed /\ ledger_ok seed /\ In r (resources (run seed qs))
  /\ available_quantity r + held (run seed qs) (r_id r) = total_quantity r.
Proof.
  intros qs r.
  assert (H1 : holds_ok seed) by (intros h Hh; destruct Hh).
  assert (H2 : ledger_ok seed).
  { intros x Hin. simpl in Hin.
    repeat (destruct Hin as [<- | Hin]; [reflexivity|]). destruct Hin. }
  assert (H3 : In r (resources (run seed qs))) by (vm_compute; auto).
  split; [exact H1|]. split; [exact H2|]. split; [exact H3|].
  exact (@ledger_invariant seed qs r H1 H2 H3).
Defined.

(** C2. Over any sequence of requests the release loop of a booking
    runs at most once; a request runs it exactly when it takes the
    booking from a holding status to [rejected] or [completed], and a
    released booking never leaves that status, so this is its first
    such transition; at that transition every resource row is credited
    with the quantities of the rows of [event_resources] that carry the
    booking's id, no request other than a submission changes stock
    otherwise, a submission only debits, and an approval changes
    neither stock nor hold rows. *)
Theorem holds_released_once :
  (forall eid d qs, (release_count eid d qs <= 1)%nat)
  /\ (forall d q eid,
        releases eid d q = true <->
        is_holding d eid /\ is_released (fst (handle d q)) eid)
  /\ (forall d q eid,
        is_released d eid -> is_released (fst (handle d q)) eid)
  /\ (forall d q eid,
        is_holding d eid -> is_released (fst (handle d q)) eid ->
        resources (fst (handle d q))
        = map (credit_booking eid d) (resources d))
  /\ (forall d q,
        (forall s m f, q <> SubmitBooking s m f) ->
        resources (fst (handle d q))
        = match release_of d q with
          | Some eid => map (credit_booking eid d) (resources d)
          | None => resources d
          end)
  /\ (forall d s m f,
        exists hs,
          (forall h, In h hs -> 0 < quantity_requested h)
          /\ resources (fst (handle d (SubmitBooking s m f)))
             = map (debited hs) (resources d)
          /\ event_resources (fst (handle d (SubmitBooking s m f)))
             = event_resources d ++ hs)
  /\ (forall d s eid c,
        release_of d (Approve s eid c) = None
        /\ resources (fst (approve_event d s eid c)) = resources d
        /\ event_resources (fst (approve_event d s eid c))
           = event_resources d).
Proof.
  assert (Hcredit : forall d q,
            (forall s m f, q <> SubmitBooking s m f) ->
            resources (fst (handle d q))
            = match release_of d q with
              | Some eid => map (credit_booking eid d) (resources d)
              | None => resources d
              end).
  { intros d q H. destruct (decision_resources d H) as [H1 _].
    rewrite H1. destruct (release_of d q); [|reflexivity].
    apply credited_booking_rows. }
  split; [intros; apply release_at_most_once|].
  split; [intros; apply release_at_transition|].
  split; [intros d q eid H; now destruct (released_stays q H)|].
  split.
  { intros d q eid Hh Hr.
    assert (Hrel : releases eid d q = true)
      by (apply release_at_transition; now split).
    unfold releases in Hrel.
    destruct (release_of d q) as [x|] eqn:Ex; [|discriminate].
    apply Z.eqb_eq in Hrel. subst x.
    assert (Hq : forall s m f, q <> SubmitBooking s m f)
      by (intros s m f ->; discriminate Ex).
    rewrite (Hcredit d q Hq). now rewrite Ex. }
  split; [exact Hcredit|].
  split; [intros; apply submission_debits|].
  intros d s eid c.
  assert (H : forall s0 m f, Approve s eid c <> SubmitBooking s0 m f)
    by discriminate.
  destruct (decision_resources d H) as [H1 H2]. simpl in H1, H2.
  now repeat split.
Qed.

Lemma holds_released_once_witness :
  let history := [SubmitBooking (Some 1) POST talk; Reject (Some 2) 1 "no";
                  Reject (Some 2) 1 "again"; Complete (Some 1) 1] in
  is_holding booked 1
  /\ is_released (fst (handle booked (Reject (Some 2) 1 "no"))) 1
  /\ event_resources booked = [mkHold 1 1 2]
  /\ resources booked
     = [mkResource 1 "Projector" 5 3; mkResource 2 "Microphone" 10 10;
        mkResource 3 "Laptop" 8 8; mkResource 4 "Whiteboard" 15 15]
  /\ resources (fst (handle booked (Reject (Some 2) 1 "no")))
     = [mkResource 1 "Projector" 5 5; mkResource 2 "Microphone" 10 10;
        mkResource 3 "Laptop" 8 8; mkResource 4 "Whiteboard" 15 15]
  /\ resources (run seed history)
     = [mkResource 1 "Projector" 5 5; mkResource 2 "Microphone" 10 10;
        mkResource 3 "Laptop" 8 8; mkResource 4 "Whiteboard" 15 15]
  /\ Nat.le (release_count 1 seed history) 1%nat.
Proof.
  intros history.
  destruct holds_released_once as (Hcount & Hiff & _ & Hcredit & _).
  assert (H1 : releases 1 booked (Reject (Some 2) 1 "no") = true)
    by (vm_compute; reflexivity).
  destruct (proj1 (Hiff booked (Reject (Some 2) 1 "no") 1) H1) as [Hh Hr].
  split; [exact Hh|]. split; [exact Hr|].
  split; [vm_compute; reflexivity|]. split; [vm_compute; reflexivity|].
  split; [rewrite (Hcredit booked (Reject (Some 2) 1 "no") 1 Hh Hr);
          vm_compute; reflexivity|].
  split; [vm_compute; reflexivity|].
  apply Hcount.
Defined.

Lemma held_nonneg (d : db) (rid : Z) : holds_positive d -> 0 <= held d rid.
Proof.
  intros Hok. unfold held. apply quantity_on_nonneg.
  intros h Hh. apply filter_In in Hh. destruct Hh as [Hh _].
  now apply Hok.
Qed.

(** C3, as stated, fails: on [unbalanced] the rejection answers
    [Rejected], reports no error, and leaves six projectors available
    out of five. *)
Lemma release_exceeds_total :
  snd (reject_event unbalanced (Some 2) 1 "no") = Rejected
  /\ resources (fst (reject_event unbalanced (Some 2) 1 "no"))
     = [mkResource 1 "Projector" 5 6]
  /\ total_quantity (mkResource 1 "Projector" 5 6)
     < available_quantity (mkResource 1 "Projector" 5 6).
Proof. vm_compute. repeat split. Qed.

(** C3, amended. The release loop adds every hold row of the booking
    to [available_quantity], with no cap and no error answer; after any
    sequence of requests served from a store whose hold rows refer to
    bookings and have positive quantities and whose ledger is balanced,
    no resource row has more available than its total. *)
Theorem release_within_total (d : db) (qs : list request) (r : resource) :
  holds_ok d -> holds_positive d -> ledger_ok d ->
  In r (resources (run d qs)) ->
  available_quantity r <= total_quantity r
  /\ (forall eid,
        release_reserved eid (run d qs)
        = set_resources
            (map (credited (Sql.holds_of eid (run d qs)))
               (resources (run d qs)))
            (run d qs)).
Proof.
  intros Hh Hp Hl Hin. split; [|intros eid; apply release_reserved_eq].
  destruct (run_keeps_ledger qs Hh Hl) as [_ Hl'].
  specialize (Hl' r Hin).
  pose proof (@held_nonneg (run d qs) (r_id r) (run_keeps_positive qs Hp)).
  lia.
Qed.

Lemma release_within_total_witness :
  let qs := [SubmitBooking (Some 1) POST talk; Reject (Some 2) 1 "no"] in
  let r := mkResource 1 "Projector" 5 5 in
  holds_ok seed /\ holds_positive seed /\ ledger_ok seed
  /\ In r (resources (run seed qs))
  /\ available_quantity r <= total_quantity r.
Proof.
  intros qs r.
  assert (H1 : holds_ok seed) by (intros h Hh; destruct Hh).
  assert (H2 : holds_positive seed) by (intros h Hh; destruct Hh).
  assert (H3 : ledger_ok seed).
  { intros x Hin. simpl in Hin.
    repeat (destruct Hin as [<- | Hin]; [reflexivity|]). destruct Hin. }
  assert (H4 : In r (resources (run seed qs))) by (vm_compute; auto).
  split; [exact H1|]. split; [exact H2|]. split; [exact H3|].
  split; [exact H4|].
  exact (proj1 (@release_within_total seed qs r H1 H2 H3 H4)).
Defined.

(** ** What the queries of the validator return *)

Lemma conflicts_blocks (vid : Z) (date st en : string) (e : event) :
  Sql.conflicts vid date st en e = true <-> blocks vid date st en e.
Proof.
  unfold Sql.conflicts, blocks, overlap, Str.mem. simpl.
  rewrite !andb_true_iff, !negb_true_iff, !orb_false_iff.
  rewrite Z.eqb_eq, !String.eqb_eq, !String.eqb_neq.
  split.
  - intros [[[H1 H2] (H3 & H4 & _)] [H5 H6]].
    repeat split; auto. intros [H | H]; congruence.
  - intros (H1 & H2 & H3 & H4 & H5).
    repeat split; auto.
    + destruct (String.leb (end_time e) st); auto. exfalso; auto.
    + destruct (String.leb en (start_time e)); auto. exfalso; auto.
Qed.

Lemma insert_by_name_perm (r : resource) (l : list resource) :
  Permutation (r :: l) (Sql.insert_by_name r l).
Proof.
  induction l as [|x l IH]; simpl; [apply Permutation_refl|].
  destruct (String.leb (r_name r) (r_name x)); [apply Permutation_refl|].
  eapply perm_trans; [apply perm_swap|]. now apply perm_skip.
Qed.

Lemma resources_by_name_perm (d : db) :
  Permutation (resources d) (Sql.resources_by_name d).
Proof.
  unfold Sql.resources_by_name.
  induction (resources d) as [|r l IH]; simpl; [apply perm_nil|].
  eapply perm_trans; [apply perm_skip, IH | apply insert_by_name_perm].
Qed.

Lemma insert_by_name_sorted (r : resource) (l : list resource) :
  Sorted name_le l -> Sorted name_le (Sql.insert_by_name r l).
Proof.
  induction l as [|x l IH]; simpl; intros Hs.
  - repeat constructor.
  - destruct (String.leb (r_name r) (r_name x)) eqn:E.
    + constructor; [exact Hs | constructor; exact E].
    + inversion Hs as [|? ? Hs' Hhd]; subst.
      constructor; [now apply IH|].
      assert (Hxr : name_le x r).
      { unfold name_le.
        destruct (String.leb_total (r_name r) (r_name x)); congruence. }
      destruct l as [|y l]; simpl.
      * now constructor.
      * destruct (String.leb (r_name r) (r_name y)); constructor; auto.
        now inversion Hhd.
Qed.

Lemma resources_by_name_sorted (d : db) :
  Sorted name_le (Sql.resources_by_name d).
Proof.
  unfold Sql.resources_by_name.
  induction (resources d) as [|r l IH]; simpl; [constructor|].
  now apply insert_by_name_sorted.
Qed.

Lemma resource_validation_first_failure (q : Z -> option Z)
  (pre post : list resource) (res : resource) (qty : Z) :
  (forall x, In x pre -> stock_ok q x) ->
  q (r_id res) = Some qty -> 0 < qty -> available_quantity res < qty ->
  resource_validation q (pre ++ res :: post)
  = inl (InsufficientStock (r_name res) (available_quantity res) qty).
Proof.
  intros Hpre Hq Hpos Hlt. induction pre as [|x pre IH]; simpl.
  - unfold bind, some_or, require. rewrite Hq.
    replace (0 <? qty) with true by (symmetry; now apply Z.ltb_lt).
    now replace (available_quantity res <? qty) with true
      by (symmetry; now apply Z.ltb_lt).
  - destruct (Hpre x (or_introl eq_refl)) as (k & Hk & Hle).
    rewrite IH by (intros y Hy; apply Hpre; now right).
    unfold bind, some_or, require. rewrite Hk.
    destruct (0 <? k) eqn:E; [|reflexivity].
    apply Z.ltb_lt in E. specialize (Hle E).
    now replace (available_quantity x <? k) with false
      by (symmetry; apply Z.ltb_ge; lia).
Qed.

Lemma resource_validation_pass (q : Z -> option Z) (rs : list resource) :
  (forall x, In x rs -> stock_ok q x) <->
  exists reqs, resource_validation q rs = inr reqs.
Proof.
  induction rs as [|x rs IH]; simpl.
  - split; [intros _; now eexists | intros _ y []].
  - unfold bind, some_or, require. split.
    + intros H. destruct (H x (or_introl eq_refl)) as (k & Hk & Hle).
      assert (Hrs : exists reqs, resource_validation q rs = inr reqs)
        by (apply IH; intros y Hy; apply H; now right).
      destruct Hrs as (reqs & Hrs). rewrite Hk, Hrs.
      destruct (0 <? k) eqn:E; [|now eexists].
      apply Z.ltb_lt in E. specialize (Hle E).
      replace (available_quantity x <? k) with false
        by (symmetry; apply Z.ltb_ge; lia).
      now eexists.
    + intros (reqs & H) y [<- | Hy].
      * destruct (q (r_id x)) as [k|] eqn:Hk; [|discriminate].
        exists k. split; [exact Hk|]. intros Hpos.
        apply Z.ltb_lt in Hpos. rewrite Hpos in H.
        destruct (available_quantity x <? k) eqn:E; [discriminate|].
        now apply Z.ltb_ge in E.
      * apply IH; [|exact Hy].
        destruct (q (r_id x)) as [k|]; [|discriminate].
        destruct (0 <? k); [|eauto].
        destruct (available_quantity x <? k); [discriminate|].
        destruct (resource_validation q rs); [discriminate | eauto].
Qed.

(** The requests the validation loop returns are the positive
    quantities asked, in the order of the rows. *)
Lemma validated_requests (q : Z -> option Z) (rs : list resource)
  (reqs : list (Z * Z)) :
  resource_validation q rs = inr reqs -> reqs = asked q rs.
Proof.
  revert reqs. induction rs as [|res rs IH]; simpl; intros reqs.
  - intros X; now inversion X.
  - unfold bind, some_or, require.
    destruct (q (r_id res)) as [qty|]; [|discriminate].
    destruct (0 <? qty).
    + destruct (available_quantity res <? qty); simpl; [discriminate|].
      destruct (resource_validation q rs) as [|rest]; [discriminate|].
      intros X; inversion X; subst. simpl. f_equal. now apply IH.
    + simpl. apply IH.
Qed.

Lemma in_asked (q : Z -> option Z) (rs : list resource) (rq : Z * Z) :
  In rq (asked q rs)
  <-> exists r, In r rs /\ fst rq = r_id r /\ q (r_id r) = Some (snd rq)
        /\ 0 < snd rq.
Proof.
  unfold asked. rewrite in_flat_map. split.
  - intros (r & Hr & Hin). exists r. split; [exact Hr|].
    destruct (q (r_id r)) as [qty|]; [|destruct Hin].
    destruct (0 <? qty) eqn:E; [|destruct Hin].
    destruct Hin as [<- | []]. simpl. apply Z.ltb_lt in E. now repeat split.
  - intros (r & Hr & H1 & H2 & H3). exists r. split; [exact Hr|].
    rewrite H2. replace (0 <? snd rq) with true
      by (symmetry; now apply Z.ltb_lt).
    left. destruct rq; simpl in *; now subst.
Qed.

Lemma requests_fit_asked (q : Z -> option Z) (rs : list resource) :
  requests_fit (asked q rs) = true
  <-> forall r qty, In r rs -> q (r_id r) = Some qty -> 0 < qty ->
        Sql.fits qty = true.
Proof.
  unfold requests_fit. rewrite forallb_forall. split.
  - intros H r qty Hr Hq Hpos.
    apply (H (r_id r, qty)). apply in_asked. exists r. now repeat split.
  - intros H rq Hin. apply in_asked in Hin.
    destruct Hin as (r & Hr & _ & Hq & Hpos). now apply (H r).
Qed.

Lemma values_fit_by_name (d : db) (f : booking_form) (ea : Z) :
  values_fit d f ea
  <-> Sql.fits ea = true
      /\ requests_fit (asked (f_resource f) (Sql.resources_by_name d)) = true.
Proof.
  unfold values_fit. rewrite requests_fit_asked.
  split; intros [H1 H2]; (split; [exact H1|]); intros r qty Hr;
    apply H2; (eapply Permutation_in; [|exact Hr]);
    [apply Permutation_sym|]; apply resources_by_name_perm.
Qed.

Lemma stock_ok_by_name (d : db) (f : booking_form) :
  (forall r, In r (resources d) -> stock_ok (f_resource f) r)
  <-> exists reqs,
        resource_validation (f_resource f) (Sql.resources_by_name d)
        = inr reqs.
Proof.
  rewrite <- resource_validation_pass.
  split; intros H r Hr; apply H; (eapply Permutation_in; [|exact Hr]);
    [apply Permutation_sym|]; apply resources_by_name_perm.
Qed.

Lemma conflicting_event_first (vid : Z) (date st en : string) (d : db)
  (c : event) :
  Sql.conflicting_event vid date st en d = Some c
  <-> first_such (blocks vid date st en) (events d) c.
Proof.
  unfold Sql.conflicting_event. apply find_first_such.
  intros y. apply conflicts_blocks.
Qed.

Lemma conflicting_event_none (vid : Z) (date st en : string) (d : db) :
  Sql.conflicting_event vid date st en d = None
  <-> forall e, In e (events d) -> ~ blocks vid date st en e.
Proof.
  unfold Sql.conflicting_event.
  apply (find_none_iff (Sql.conflicts vid date st en)
           (blocks vid date st en)).
  intros y. apply conflicts_blocks.
Qed.


(** A submission is answered [Submitted] exactly when it is
    [accepted]. *)
Lemma submitted_iff_accepted (d : db) (s : session) (m : http_method)
  (f : booking_form) :
  snd (new_event d s m f) = Submitted <-> accepted d s m f.
Proof.
  split.
  - destruct (new_event d s m f) as [d' r] eqn:E. simpl. intros ->.
    apply new_event_inv in E.
    destruct E as (-> & u & ea & vid & v & reqs & Hw & Ha).
    destruct Hw as ((uid & -> & Hu) & Hr & Hea & Hvid & Hf & Hfit).
    destruct Ha as (Hv & Hcap & Hc & Hres & Hfe & Hfr).
    unfold fields_filled in Hf. rewrite !andb_true_iff in Hf.
    destruct Hf as [[[[H1 H2] H3] H4] H5].
    apply truthy_nonempty in H1, H2, H3, H4.
    apply negb_true_iff, Z.eqb_neq in H5.
    split; [reflexivity|]. exists uid, u, ea, vid, v.
    split; [reflexivity|]. split; [now apply user_by_id_first|].
    split; [exact Hr|]. split; [exact Hea|]. split; [exact Hvid|].
    split; [exact H1|]. split; [exact H2|]. split; [exact H3|].
    split; [exact H4|]. split; [exact H5|]. split; [exact Hfit|].
    split; [now apply venue_by_id_first|]. split; [exact Hcap|].
    split; [exact (proj1 (@conflicting_event_none vid _ _ _ d) Hc)|].
    split; [apply stock_ok_by_name; eauto|].
    apply values_fit_by_name. split; [exact Hfe|].
    now rewrite <- (validated_requests _ _ Hres).
  - intros (-> & uid & u & ea & vid & v & -> & Hu & Hr & Hea & Hvid & H1 & H2
            & H3 & H4 & H5 & Hfit & Hv & Hcap & Hfree & Hstock & Hval).
    apply stock_ok_by_name in Hstock. destruct Hstock as (reqs & Hres).
    apply values_fit_by_name in Hval. destruct Hval as [Hfe Hfr].
    rewrite <- (validated_requests _ _ Hres) in Hfr.
    assert (Hw : well_formed_submission d (Some uid) f u ea vid).
    { split; [exists uid; split; [reflexivity | now apply user_by_id_first]|].
      split; [exact Hr|]. split; [exact Hea|]. split; [exact Hvid|].
      split; [|exact Hfit]. unfold fields_filled.
      apply truthy_nonempty in H1, H2, H3, H4. rewrite H1, H2, H3, H4.
      apply Z.eqb_neq in H5. now rewrite H5. }
    assert (Ha : admitted d f ea vid v reqs).
    { split; [now apply venue_by_id_first|]. split; [exact Hcap|].
      split; [exact (proj2 (@conflicting_event_none vid _ _ _ d) Hfree)|].
      now repeat split. }
    pose proof (new_event_ok Hw Ha) as Hok. cbv zeta in Hok.
    now rewrite Hok.
Qed.

(** ** The validator, check by check *)

Section Validator.

Variables (d : db) (s : session) (f : booking_form).
Variables (u : user) (ea vid : Z).
Hypothesis reached : well_formed_submission d s f u ea vid.

Lemma new_event_no_venue :
  Sql.venue_by_id vid d = None ->
  new_event d s POST f = (d, VenueMissing).
Proof.
  destruct reached as ((uid & -> & Hu) & Hr & Hea & Hvid & Hf & Hfit).
  intros Hv. unfold new_event. open_handler.
  apply coordinator_role in Hr. unfold fields_filled in Hf.
  now rewrite Hu, Hr, Hea, Hvid, Hf, Hfit, Hv.
Qed.

Lemma new_event_capacity (v : venue) :
  Sql.venue_by_id vid d = Some v ->
  v_capacity v < ea ->
  new_event d s POST f
  = (d, CapacityExceeded (v_name v) (v_capacity v) ea).
Proof.
  destruct reached as ((uid & -> & Hu) & Hr & Hea & Hvid & Hf & Hfit).
  intros Hv Hcap. unfold new_event. open_handler.
  apply coordinator_role in Hr. unfold fields_filled in Hf.
  rewrite Hu, Hr, Hea, Hvid, Hf, Hfit, Hv.
  now replace (v_capacity v <? ea) with true by (symmetry; now apply Z.ltb_lt).
Qed.

Lemma new_event_conflict (v : venue) (c : event) :
  Sql.venue_by_id vid d = Some v ->
  ea <= v_capacity v ->
  Sql.conflicting_event vid (Str.strip (f_event_date f))
    (Str.strip (f_start_time f)) (Str.strip (f_end_time f)) d = Some c ->
  new_event d s POST f
  = (d, conflict_report v (Str.strip (f_event_date f)) c).
Proof.
  destruct reached as ((uid & -> & Hu) & Hr & Hea & Hvid & Hf & Hfit).
  intros Hv Hcap Hc. unfold new_event. open_handler.
  apply coordinator_role in Hr. unfold fields_filled in Hf.
  rewrite Hu, Hr, Hea, Hvid, Hf, Hfit, Hv, Hc.
  now replace (v_capacity v <? ea) with false by (symmetry; apply Z.ltb_ge; lia).
Qed.

Lemma new_event_stock (v : venue) (r : response) :
  Sql.venue_by_id vid d = Some v ->
  ea <= v_capacity v ->
  Sql.conflicting_event vid (Str.strip (f_event_date f))
    (Str.strip (f_start_time f)) (Str.strip (f_end_time f)) d = None ->
  resource_validation (f_resource f) (Sql.resources_by_name d) = inl r ->
  new_event d s POST f = (d, r).
Proof.
  destruct reached as ((uid & -> & Hu) & Hr & Hea & Hvid & Hf & Hfit).
  intros Hv Hcap Hc Hres. unfold new_event. open_handler.
  apply coordinator_role in Hr. unfold fields_filled in Hf.
  rewrite Hu, Hr, Hea, Hvid, Hf, Hfit, Hv, Hc, Hres.
  now replace (v_capacity v <? ea) with false by (symmetry; apply Z.ltb_ge; lia).
Qed.



End Validator.

(** ** Time-slot conflicts *)





(** ** Stock checks *)


(** C5. A submission that reaches the validator is checked in the order
    venue exists, capacity, time-slot conflict, then the stock of each
    resource in name order, and answers with the first failure: a
    missing venue whatever else holds, a capacity excess whatever the
    slot and the stock, a conflict with the first blocking booking
    whatever the stock, the first short resource otherwise; it is
    admitted when every check passes and the values to insert are in
    range.  Every refusal leaves the store as it was: the store changes
    only when all the checks, every stock check included, have
    passed. *)
Theorem validation_order (d : db) (s : session) (f : booking_form)
  (u : user) (ea vid : Z) :
  well_formed_submission d s f u ea vid ->
  let date := Str.strip (f_event_date f) in
  let st := Str.strip (f_start_time f) in
  let en := Str.strip (f_end_time f) in
  let venue_is := first_such (fun x => v_id x = vid) (venues d) in
  ((forall v, In v (venues d) -> v_id v <> vid) ->
   new_event d s POST f = (d, VenueMissing))
  /\ (forall v,
        venue_is v -> v_capacity v < ea ->
        new_event d s POST f
        = (d, CapacityExceeded (v_name v) (v_capacity v) ea))
  /\ (forall v c,
        venue_is v -> ea <= v_capacity v ->
        first_such (blocks vid date st en) (events d) c ->
        new_event d s POST f
        = (d, TimeSlotConflict (v_name v) date (start_time c) (end_time c)
                (title c)))
  /\ (forall v pre res post qty,
        venue_is v -> ea <= v_capacity v ->
        slot_free d f vid ->
        Sql.resources_by_name d = pre ++ res :: post ->
        (forall x, In x pre -> stock_ok (f_resource f) x) ->
        f_resource f (r_id res) = Some qty ->
        0 < qty -> available_quantity res < qty ->
        new_event d s POST f
        = (d, InsufficientStock (r_name res) (available_quantity res) qty))
  /\ (forall v,
        venue_is v -> ea <= v_capacity v ->
        slot_free d f vid ->
        (forall x, In x (resources d) -> stock_ok (f_resource f) x) ->
        values_fit d f ea ->
        snd (new_event d s POST f) = Submitted
        /\ fst (new_event d s POST f) <> d)
  /\ (forall s' m' f',
        fst (new_event d s' m' f') <> d ->
        exists u' ea' vid' v',
          well_formed_submission d s' f' u' ea' vid'
          /\ first_such (fun x => v_id x = vid') (venues d) v'
          /\ ea' <= v_capacity v'
          /\ slot_free d f' vid'
          /\ forall x, In x (resources d) -> stock_ok (f_resource f') x)
  /\ Sorted name_le (Sql.resources_by_name d)
  /\ Permutation (resources d) (Sql.resources_by_name d).
Proof.
  intros Hw date st en venue_is. subst venue_is.
  split.
  { intros Hnone. apply venue_by_id_none in Hnone.
    now apply new_event_no_venue with (u := u) (ea := ea) (vid := vid). }
  split.
  { intros v Hv Hcap. apply venue_by_id_first in Hv.
    now apply new_event_capacity with (u := u) (vid := vid). }
  split.
  { intros v c Hv Hcap Hc. apply venue_by_id_first in Hv.
    apply conflicting_event_first in Hc.
    now rewrite (new_event_conflict Hw Hv Hcap Hc). }
  split.
  { intros v pre res post qty Hv Hcap Hc Hsplit Hpre Hq Hpos Hlt.
    apply venue_by_id_first in Hv.
    pose proof (proj2 (@conflicting_event_none vid date st en d) Hc) as Hc'.
    apply (new_event_stock Hw Hv Hcap Hc').
    rewrite Hsplit. now apply resource_validation_first_failure. }
  split.
  { intros v Hv Hcap Hc Hall Hfit.
    apply venue_by_id_first in Hv.
    pose proof (proj2 (@conflicting_event_none vid date st en d) Hc) as Hc'.
    apply stock_ok_by_name in Hall. destruct Hall as (reqs & Hres).
    apply values_fit_by_name in Hfit. destruct Hfit as [Hfe Hfr].
    rewrite <- (validated_requests _ _ Hres) in Hfr.
    assert (Ha : admitted d f ea vid v reqs) by now repeat split.
    pose proof (new_event_ok Hw Ha) as Hok. cbv zeta in Hok.
    rewrite Hok. split; [reflexivity|]. simpl. intros E.
    apply (f_equal (fun x => List.length (events x))) in E. simpl in E.
    rewrite length_app in E. simpl in E. lia. }
  split.
  { intros s' m' f' Hch.
    destruct (new_event d s' m' f') as [d' r] eqn:E. simpl in Hch.
    destruct r;
      try (apply new_event_unchanged in E; [congruence | discriminate]).
    apply new_event_inv in E.
    destruct E as (_ & u' & ea' & vid' & v' & reqs & Hw' & Hv & Hcap & Hc
                   & Hr & _).
    exists u', ea', vid', v'.
    split; [exact Hw'|]. split; [now apply venue_by_id_first|].
    split; [exact Hcap|].
    split; [exact (proj1 (@conflicting_event_none vid' _ _ _ d) Hc)|].
    apply stock_ok_by_name. eauto. }
  split; [apply resources_by_name_sorted | apply resources_by_name_perm].
Qed.

Lemma validation_order_witness :
  let u := mkUser 1 "coordinator" in
  let hall := mkVenue 2 "Seminar Hall 1" 100 in
  well_formed_submission booked (Some 1) oversized u 150 2
  /\ well_formed_submission booked (Some 1) crowded u 80 2
  /\ well_formed_submission booked (Some 1) greedy u 80 2
  /\ well_formed_submission booked (Some 1) lunch u 40 2
  /\ events booked = [talk_row]
  /\ blocks 2 "2024-05-01" "11:00" "13:00" talk_row
  /\ new_event booked (Some 1) POST oversized
     = (booked, CapacityExceeded "Seminar Hall 1" 100 150)
  /\ new_event booked (Some 1) POST crowded
     = (booked,
        TimeSlotConflict "Seminar Hall 1" "2024-05-01" "10:00" "12:00" "Talk")
  /\ new_event booked (Some 1) POST greedy
     = (booked, InsufficientStock "Projector" 3 9)
  /\ snd (new_event booked (Some 1) POST lunch) = Submitted.
Proof.
  intros u hall.
  assert (Hw : forall f ea,
            f_expected_attendees f = Some ea -> f_venue_id f = Some 2 ->
            fields_filled f 2 = true ->
            well_formed_submission booked (Some 1) f u ea 2).
  { intros f ea H1 H2 H3.
    split; [exists 1; split; reflexivity|]. now repeat split. }
  assert (H1 : well_formed_submission booked (Some 1) oversized u 150 2)
    by (apply Hw; reflexivity).
  assert (H2 : well_formed_submission booked (Some 1) crowded u 80 2)
    by (apply Hw; reflexivity).
  assert (H3 : well_formed_submission booked (Some 1) greedy u 80 2)
    by (apply Hw; reflexivity).
  assert (H4 : well_formed_submission booked (Some 1) lunch u 40 2)
    by (apply Hw; reflexivity).
  assert (Hhall : first_such (fun x => v_id x = 2) (venues booked) hall).
  { exists [mkVenue 1 "Main Auditorium" 500], [mkVenue 3 "Conference Room" 30].
    split; [reflexivity|]. split; [reflexivity|].
    intros y [<- | []]. discriminate. }
  assert (Hb : blocks 2 "2024-05-01" "11:00" "13:00" talk_row)
    by (apply conflicts_blocks; vm_compute; reflexivity).
  assert (Hfree : forall f,
            Sql.conflicts 2 (Str.strip (f_event_date f))
              (Str.strip (f_start_time f)) (Str.strip (f_end_time f))
              talk_row = false ->
            slot_free booked f 2).
  { intros f Hf e [<- | []] Hbl. apply conflicts_blocks in Hbl.
    exact (eq_true_false_abs _ Hbl Hf). }
  split; [exact H1|]. split; [exact H2|]. split; [exact H3|].
  split; [exact H4|]. split; [vm_compute; reflexivity|]. split; [exact Hb|].
  split.
  { destruct (@validation_order booked (Some 1) oversized u 150 2 H1)
      as (_ & Hcap & _).
    apply (Hcap hall Hhall). simpl. lia. }
  split.
  { destruct (@validation_order booked (Some 1) crowded u 80 2 H2)
      as (_ & _ & Hslot & _).
    apply (Hslot hall talk_row Hhall); [simpl; lia|].
    exists [], []. split; [vm_compute; reflexivity|].
    split; [exact Hb | intros y []]. }
  split.
  { destruct (@validation_order booked (Some 1) greedy u 80 2 H3)
      as (_ & _ & _ & Hstock & _).
    apply (Hstock hall
             [mkResource 3 "Laptop" 8 8; mkResource 2 "Microphone" 10 10]
             (mkResource 1 "Projector" 5 3)
             [mkResource 4 "Whiteboard" 15 15] 9 Hhall).
    - simpl. lia.
    - apply Hfree. vm_compute. reflexivity.
    - vm_compute. reflexivity.
    - intros x [<- | [<- | []]]; exists 0; split; try reflexivity; lia.
    - reflexivity.
    - lia.
    - simpl. lia. }
  destruct (@validation_order booked (Some 1) lunch u 40 2 H4)
    as (_ & _ & _ & _ & Hpass & _).
  apply (Hpass hall Hhall).
  - simpl. lia.
  - apply Hfree. vm_compute. reflexivity.
  - intros x Hx. simpl in Hx.
    destruct Hx as [<- | [<- | [<- | [<- | []]]]];
      [exists 0 | exists 1 | exists 0 | exists 0];
      (split; [reflexivity | simpl; lia]).
  - split; [reflexivity|]. intros r qty Hr Hq Hpos. simpl in Hr.
    destruct Hr as [<- | [<- | [<- | [<- | []]]]];
      vm_compute in Hq; injection Hq as <-; reflexivity.
Defined.

(** ** Decisions *)

(** C6. When the caller is the approver the pending booking waits for,
    [approve_event] succeeds: it appends one approval row with action
    [approved], moves the status one step along pending_hod,
    pending_dean, pending_head, approved, sets [current_approver_role]
    to the role of the new status, which is empty at [approved], and
    leaves the resource rows, the hold rows and the outstanding holds
    as they were. *)
Theorem approve_advances (d : db) (s : session) (eid : Z) (c : string)
  (u : user) (e : event) :
  current_approver d s eid u e ->
  exists nxt role',
    ((status e = "pending_hod" /\ nxt = "pending_dean" /\ role' = "dean")
     \/ (status e = "pending_dean" /\ nxt = "pending_head" /\ role' = "head")
     \/ (status e = "pending_head" /\ nxt = "approved" /\ role' = ""))
    /\ snd (approve_event d s eid c) = Approved nxt
    /\ approvals (fst (approve_event d s eid c))
       = approvals d
         ++ [mkApproval eid (u_id u) (u_role u) "approved" (Str.strip c)]
    /\ events (fst (approve_event d s eid c))
       = map (Sql.on_row eid (Sql.with_status nxt role')) (events d)
    /\ Sql.event_by_id eid (fst (approve_event d s eid c))
       = Some (Sql.with_status nxt role' e)
    /\ status (Sql.with_status nxt role' e) = nxt
    /\ current_approver_role (Sql.with_status nxt role' e) = role'
    /\ resources (fst (approve_event d s eid c)) = resources d
    /\ event_resources (fst (approve_event d s eid c)) = event_resources d
    /\ forall rid, held (fst (approve_event d s eid c)) rid = held d rid.
Proof.
  intros Hc. destruct (current_approver_flow Hc) as (nxt & Hf & Hcases).
  exists nxt, (next_role_of nxt).
  rewrite (approve_event_ok c Hc Hf). simpl.
  pose proof Hc as (_ & _ & He & Hs).
  split.
  { destruct Hcases as [[Hr ->] | [[Hr ->] | [Hr ->]]]; rewrite Hs, Hr;
      [left | right; left | right; right]; now repeat split. }
  split; [reflexivity|]. split; [reflexivity|]. split; [reflexivity|].
  split.
  { unfold Sql.event_by_id in *. simpl.
    rewrite find_on_row_same by apply with_status_id. now rewrite He. }
  split; [reflexivity|]. split; [reflexivity|].
  split; [reflexivity|]. split; [reflexivity|].
  intros rid. unfold held. simpl. f_equal. apply filter_ext. intros h.
  apply outstanding_kept with (st := nxt) (e0 := e); auto.
  rewrite (pending_not_released Hc). symmetry.
  exact (next_not_released Hc Hf).
Qed.

Lemma hod_is_current : current_approver booked (Some 2) 1 (mkUser 2 "hod") talk_row.
Proof.
  split; [exists 2; split; reflexivity|]. repeat split.
Qed.

Lemma approve_advances_witness :
  current_approver booked (Some 2) 1 (mkUser 2 "hod") talk_row
  /\ snd (approve_event booked (Some 2) 1 "ok") = Approved "pending_dean"
  /\ Sql.event_by_id 1 (fst (approve_event booked (Some 2) 1 "ok"))
     = Some (Sql.with_status "pending_dean" "dean" talk_row).
Proof.
  assert (Hc : current_approver booked (Some 2) 1 (mkUser 2 "hod") talk_row).
  { split; [exists 2; split; reflexivity|]. repeat split; reflexivity. }
  split; [exact Hc|].
  destruct (@approve_advances booked (Some 2) 1 "ok" (mkUser 2 "hod")
              talk_row Hc)
    as (nxt & role' & Hstep & H2 & _ & _ & H3 & _).
  destruct Hstep as [(_ & -> & ->) | [(E & _) | (E & _)]];
    [split; assumption | discriminate E | discriminate E].
Defined.

(** C7, as stated, fails: the head of department rejects the booking
    that waits for the role [hod] with the non-empty reason of one
    space, and the request is refused with the store unchanged. *)
Lemma blank_reason_refused :
  current_approver booked (Some 2) 1 (mkUser 2 "hod") talk_row
  /\ " " <> ""
  /\ reject_event booked (Some 2) 1 " " = (booked, ReasonRequired).
Proof.
  split; [exact hod_is_current|]. split; [discriminate|].
  vm_compute. reflexivity.
Qed.

(** C7, amended. A rejection whose reason is empty once the
    surrounding whitespace is stripped fails and leaves the store
    unchanged, whoever calls; when the caller is the approver the
    pending booking waits for and the stripped reason is not empty, the
    rejection succeeds: it appends one approval row with action
    [rejected] and the stripped reason as comment, sets the status to
    [rejected], [current_approver_role] to empty and [rejection_reason]
    to the stripped reason, credits to every resource row the
    quantities of the rows of [event_resources] that carry the
    booking's id, and keeps those rows. *)
Theorem reject_needs_reason (d : db) (s : session) (eid : Z)
  (reason : string) :
  (Str.strip reason = "" ->
   fst (reject_event d s eid reason) = d
   /\ snd (reject_event d s eid reason) <> Rejected)
  /\ (forall u e,
        current_approver d s eid u e ->
        Str.strip reason <> "" ->
        snd (reject_event d s eid reason) = Rejected
        /\ approvals (fst (reject_event d s eid reason))
           = approvals d
             ++ [mkApproval eid (u_id u) (u_role u) "rejected"
                   (Str.strip reason)]
        /\ events (fst (reject_event d s eid reason))
           = map (Sql.on_row eid (Sql.with_rejection (Str.strip reason)))
               (events d)
        /\ Sql.event_by_id eid (fst (reject_event d s eid reason))
           = Some (Sql.with_rejection (Str.strip reason) e)
        /\ status (Sql.with_rejection (Str.strip reason) e) = "rejected"
        /\ current_approver_role (Sql.with_rejection (Str.strip reason) e)
           = ""
        /\ rejection_reason (Sql.with_rejection (Str.strip reason) e)
           = Str.strip reason
        /\ resources (fst (reject_event d s eid reason))
           = map (credit_booking eid d) (resources d)
        /\ event_resources (fst (reject_event d s eid reason))
           = event_resources d).
Proof.
  split.
  - intros Hempty.
    destruct (reject_event d s eid reason) as [d' r] eqn:E. simpl.
    assert (N : r <> Rejected).
    { intros ->. apply reject_event_inv in E.
      destruct E as (u & e & _ & Ht). rewrite Hempty in Ht. discriminate. }
    split; [|exact N]. eapply reject_event_unchanged; eassumption.
  - intros u e Hc Hne. apply truthy_nonempty in Hne.
    destruct (current_approver_label Hc) as (label & Hlab).
    rewrite (reject_event_ok reason Hc Hne Hlab). simpl.
    pose proof Hc as (_ & _ & He & _).
    split; [reflexivity|]. split; [reflexivity|]. split; [reflexivity|].
    split.
    { unfold Sql.event_by_id in *. simpl.
      rewrite find_on_row_same by apply with_rejection_id. now rewrite He. }
    do 3 (split; [reflexivity|]).
    split; [apply credited_booking_rows | reflexivity].
Qed.

Lemma reject_needs_reason_witness :
  let d' := fst (reject_event booked (Some 2) 1 " no ") in
  current_approver booked (Some 2) 1 (mkUser 2 "hod") talk_row
  /\ Str.strip " no " <> EmptyString
  /\ snd (reject_event booked (Some 2) 1 " no ") = Rejected
  /\ event_resources booked = [mkHold 1 1 2]
  /\ resources booked
     = [mkResource 1 "Projector" 5 3; mkResource 2 "Microphone" 10 10;
        mkResource 3 "Laptop" 8 8; mkResource 4 "Whiteboard" 15 15]
  /\ resources d'
     = [mkResource 1 "Projector" 5 5; mkResource 2 "Microphone" 10 10;
        mkResource 3 "Laptop" 8 8; mkResource 4 "Whiteboard" 15 15]
  /\ approvals d' = [mkApproval 1 2 "hod" "rejected" "no"]
  /\ events d'
     = [mkEvent 1 "Talk" "" "2024-05-01" "10:00" "12:00" 50 2
          "rejected" "" 1 "no"]
  /\ event_resources d' = [mkHold 1 1 2]
  /\ reject_event booked (Some 2) 1 "   " = (booked, ReasonRequired).
Proof.
  intros d'. subst d'.
  assert (Hc : current_approver booked (Some 2) 1 (mkUser 2 "hod") talk_row).
  { split; [exists 2; split; reflexivity|]. repeat split; reflexivity. }
  assert (Hr : Str.strip " no " <> EmptyString) by (vm_compute; discriminate).
  split; [exact Hc|]. split; [exact Hr|].
  destruct (reject_needs_reason booked (Some 2) 1 " no ") as [_ H].
  destruct (H (mkUser 2 "hod") talk_row Hc Hr)
    as (H1 & H2 & H3 & _ & _ & _ & _ & H4 & H5).
  split; [exact H1|].
  split; [vm_compute; reflexivity|]. split; [vm_compute; reflexivity|].
  split; [rewrite H4; vm_compute; reflexivity|].
  split; [rewrite H2; vm_compute; reflexivity|].
  split; [rewrite H3; vm_compute; reflexivity|].
  split; [rewrite H5; vm_compute; reflexivity|].
  vm_compute. reflexivity.
Defined.

(** C8, as stated, fails: a coordinator, whose role does not match the
    pending state of the booking, is refused by [role_required] with the
    permission answer, not the not-current-approver one. *)
Lemma coordinator_gets_forbidden :
  Sql.user_by_id 1 booked = Some (mkUser 1 "coordinator")
  /\ Sql.event_by_id 1 booked = Some talk_row
  /\ status talk_row <> ("pending_" ++ "coordinator")%string
  /\ approve_event booked (Some 1) 1 "" = (booked, Forbidden)
  /\ reject_event booked (Some 1) 1 "no" = (booked, Forbidden).
Proof.
  split; [reflexivity|]. split; [reflexivity|]. split; [discriminate|].
  split; vm_compute; reflexivity.
Qed.

(** C8, amended. When the status of the booking is not the pending
    state of the caller's role, whether it waits for another role, has
    moved past the caller's or is terminal, both [approve_event] and
    [reject_event] fail and leave the whole store unchanged: with the
    not-current-approver answer for a caller whose role is [hod], [dean]
    or [head], with the permission answer of [role_required] for any
    other role. *)
Theorem stale_decision_refused (d : db) (s : session) (eid : Z)
  (text : string) (u : user) (e : event) :
  (exists uid, s = Some uid /\ Sql.user_by_id uid d = Some u) ->
  Sql.event_by_id eid d = Some e ->
  status e <> ("pending_" ++ u_role u)%string ->
  let r := if Str.mem (u_role u) ["hod"; "dean"; "head"]
           then NotCurrentApprover else Forbidden in
  approve_event d s eid text = (d, r)
  /\ reject_event d s eid text = (d, r).
Proof.
  intros (uid & -> & Hu) He Hs r. subst r.
  apply String.eqb_neq in Hs.
  unfold approve_event, reject_event. open_handler.
  rewrite Hu. destruct (Str.mem (u_role u) _); [|now split].
  rewrite He, Hs. now split.
Qed.

Lemma stale_decision_refused_witness :
  (exists uid, Some 3 = Some uid
     /\ Sql.user_by_id uid booked = Some (mkUser 3 "dean"))
  /\ Sql.event_by_id 1 booked = Some talk_row
  /\ status talk_row <> ("pending_" ++ u_role (mkUser 3 "dean"))%string
  /\ approve_event booked (Some 3) 1 "ok" = (booked, NotCurrentApprover)
  /\ reject_event booked (Some 3) 1 "ok" = (booked, NotCurrentApprover).
Proof.
  assert (H1 : exists uid, Some 3 = Some uid
                 /\ Sql.user_by_id uid booked = Some (mkUser 3 "dean"))
    by (exists 3; split; reflexivity).
  assert (H2 : Sql.event_by_id 1 booked = Some talk_row) by reflexivity.
  assert (H3 : status talk_row
               <> ("pending_" ++ u_role (mkUser 3 "dean"))%string)
    by (vm_compute; discriminate).
  split; [exact H1|]. split; [exact H2|]. split; [exact H3|].
  exact (@stale_decision_refused booked (Some 3) 1 "ok" (mkUser 3 "dean")
           talk_row H1 H2 H3).
Defined.

(** C9, as stated, fails: a submission from 13:00 to 11:00 is admitted
    and its booking row is created. *)
Lemma backwards_admitted :
  String.ltb "13:00" "11:00" = false
  /\ snd (new_event seed (Some 1) POST backwards) = Submitted
  /\ events (fst (new_event seed (Some 1) POST backwards))
     = [mkEvent 1 "Late" "" "2024-06-01" "13:00" "11:00" 10 2
          "pending_hod" "hod" 1 ""].
Proof. vm_compute. repeat split. Qed.

(** C9, amended. A submission is admitted exactly when it is a POST of
    a logged-in coordinator whose form parses, has its required fields
    filled, names an existing venue of sufficient capacity, meets no
    time-slot conflict, passes every stock check and carries integers
    in the range of the store; start and end times are never compared
    with each other.  The booking row created stores the stripped start
    and end times, which are not empty, and a submission that is not
    admitted creates no booking. *)
Theorem admitted_times (d : db) (s : session) (m : http_method)
  (f : booking_form) :
  (snd (new_event d s m f) = Submitted <-> accepted d s m f)
  /\ (snd (new_event d s m f) = Submitted ->
      exists b,
        events (fst (new_event d s m f)) = events d ++ [b]
        /\ e_id b = Sql.next_rowid (map e_id (events d))
        /\ start_time b = Str.strip (f_start_time f)
        /\ end_time b = Str.strip (f_end_time f)
        /\ start_time b <> "" /\ end_time b <> "")
  /\ (snd (new_event d s m f) <> Submitted ->
      fst (new_event d s m f) = d).
Proof.
  split; [apply submitted_iff_accepted|].
  destruct (new_event d s m f) as [d' r] eqn:E. simpl. split.
  - intros ->. pose proof E as E'. apply new_event_inv in E'.
    destruct E' as (-> & u & ea & vid & v & reqs & Hw & Ha).
    pose proof (new_event_ok Hw Ha) as Hok. cbv zeta in Hok.
    rewrite Hok in E. injection E as E; subst d'.
    exists (new_booking d f u ea vid). simpl.
    destruct Hw as (_ & _ & _ & _ & Hf & _). unfold fields_filled in Hf.
    rewrite !andb_true_iff in Hf. destruct Hf as [[[[_ _] H3] H4] _].
    apply truthy_nonempty in H3, H4. now repeat split.
  - intros N. eapply new_event_unchanged; eassumption.
Qed.

Lemma admitted_times_witness :
  accepted seed (Some 1) POST backwards
  /\ new_event seed (Some 1) POST backwards
     = (mkDb (users seed) (venues seed) (resources seed)
          [mkEvent 1 "Late" "" "2024-06-01" "13:00" "11:00" 10 2
             "pending_hod" "hod" 1 ""]
          [] []
          [mkNotification 2 "New event 'Late' requires your approval." 0],
        Submitted)
  /\ ~ accepted booked (Some 1) POST crowded
  /\ new_event booked (Some 1) POST crowded
     = (booked,
        TimeSlotConflict "Seminar Hall 1" "2024-05-01" "10:00" "12:00" "Talk").
Proof.
  assert (Hacc : accepted seed (Some 1) POST backwards).
  { split; [reflexivity|].
    exists 1, (mkUser 1 "coordinator"), 10, 2, (mkVenue 2 "Seminar Hall 1" 100).
    split; [reflexivity|].
    split.
    { exists [], [mkUser 2 "hod"; mkUser 3 "dean"; mkUser 4 "head";
                  mkUser 5 "admin"].
      split; [reflexivity|]. split; [reflexivity | intros y []]. }
    do 3 (split; [reflexivity|]).
    do 4 (split; [vm_compute; discriminate|]).
    split; [discriminate|]. split; [reflexivity|].
    split.
    { exists [mkVenue 1 "Main Auditorium" 500],
             [mkVenue 3 "Conference Room" 30].
      split; [reflexivity|]. split; [reflexivity|].
      intros y [<- | []]. discriminate. }
    split; [simpl; lia|].
    split; [intros e []|].
    split.
    { intros r Hr. exists 0. split; [reflexivity | lia]. }
    split; [reflexivity|]. intros r qty _ Hq Hpos.
    injection Hq as <-. lia. }
  destruct (admitted_times seed (Some 1) POST backwards) as (Hiff & _).
  pose proof (proj2 Hiff Hacc) as Hsub.
  split; [exact Hacc|].
  split; [vm_compute; reflexivity|].
  destruct (admitted_times booked (Some 1) POST crowded) as (Hiff' & _).
  split; [|vm_compute; reflexivity].
  intros Hacc'. apply Hiff' in Hacc'. vm_compute in Hacc'. discriminate.
Defined.

(** ** Completion *)

Lemma Forall2_map_right {A B : Type} (R : A -> B -> Prop) (g : A -> B)
  (l : list A) :
  (forall x, R x (g x)) -> Forall2 R l (map g l).
Proof.
  intros H. induction l as [|x l IH]; simpl; constructor; auto.
Qed.

Lemma quantity_on_absent (rid : Z) (hs : list event_resource) :
  (forall h, In h hs -> er_resource_id h <> rid) -> quantity_on rid hs = 0.
Proof.
  intros H. induction hs as [|h hs IH]; [reflexivity|].
  rewrite quantity_on_cons, IH by (intros x Hx; apply H; now right).
  assert (er_resource_id h <> rid) by (apply H; now left).
  destruct (Z.eqb_spec (er_resource_id h) rid); [contradiction | reflexivity].
Qed.

(** C10. A completion by the coordinator who created the approved
    booking succeeds, and a successful completion changes only the
    status of the booking, to [completed], its [current_approver_role],
    to empty, and the [available_quantity] of the resources the
    booking holds, each credited with its hold rows: the approvals, so
    the audit trail, the notifications, the hold rows, the users and
    the venues are the rows they were, and so is every other column and
    every other row of [events] and [resources]. *)
Theorem complete_frame (d : db) (s : session) (eid : Z) :
  (forall u e,
     may_complete d s eid u e -> snd (complete_event d s eid) = Completed)
  /\ (forall d',
        complete_event d s eid = (d', Completed) ->
        approvals d' = approvals d
        /\ notifications d' = notifications d
        /\ event_resources d' = event_resources d
        /\ users d' = users d /\ venues d' = venues d
        /\ Forall2
             (fun x x' =>
                same_but_status x x'
                /\ (e_id x = eid ->
                    status x' = "completed" /\ current_approver_role x' = "")
                /\ (e_id x <> eid -> x' = x))
             (events d) (events d')
        /\ Forall2
             (fun r r' =>
                same_but_available r r'
                /\ available_quantity r'
                   = available_quantity r
                     + quantity_on (r_id r) (Sql.holds_of eid d)
                /\ ((forall h, In h (Sql.holds_of eid d) ->
                       er_resource_id h <> r_id r) -> r' = r))
             (resources d) (resources d')).
Proof.
  split.
  - intros u e Hc. now rewrite (complete_event_ok Hc).
  - intros d' E. pose proof E as E'. apply complete_event_inv in E'.
    destruct E' as (u & e & Hc).
    rewrite (complete_event_ok Hc) in E. injection E as E; subst d'. simpl.
    do 5 (split; [reflexivity|]). split.
    + apply Forall2_map_right. intros x. unfold Sql.on_row.
      destruct (Z.eqb_spec (e_id x) eid) as [Hx | Hx].
      * split; [now repeat split|]. split; [now split | contradiction].
      * split; [now repeat split|]. split; [contradiction | reflexivity].
    + apply Forall2_map_right. intros r.
      split; [now repeat split|]. split; [reflexivity|].
      intros Habs. unfold credited. rewrite (quantity_on_absent _ Habs).
      destruct r as [i n t a]. simpl. f_equal. lia.
Qed.

Lemma complete_frame_witness :
  let d' := fst (complete_event approved_store (Some 1) 1) in
  complete_event approved_store (Some 1) 1 = (d', Completed)
  /\ approvals d' = approvals approved_store
  /\ notifications d' = notifications approved_store.
Proof.
  intros d'.
  assert (H : complete_event approved_store (Some 1) 1 = (d', Completed))
    by (vm_compute; reflexivity).
  split; [exact H|].
  destruct (complete_frame approved_store (Some 1) 1) as [_ Hf].
  destruct (Hf d' H) as (H1 & H2 & _).
  split; assumption.
Defined.

(** * Further properties *)

(** ** The rows of [events] under every action *)

Lemma handle_step (d : db) (q : request) :
  events_step d (events (fst (handle d q))).
Proof.
  destruct q as [s m f | s eid c | s eid reason | s eid]; simpl.
  - destruct (new_event d s m f) as [d' r] eqn:E.
    destruct r;
      try (apply new_event_unchanged in E; [subst; constructor | discriminate]).
    pose proof E as E'. apply new_event_inv in E'.
    destruct E' as (-> & u & ea & vid & v & reqs & Hw & Ha).
    erewrite new_event_ok in E by eassumption.
    injection E as E; subst. cbn [fst events]. econstructor; eassumption.
  - destruct (approve_event d s eid c) as [d' r] eqn:E.
    destruct r;
      try (apply approve_event_unchanged in E;
           [subst; constructor | discriminate]).
    pose proof E as E'. apply approve_event_inv in E'.
    destruct E' as (u & e & Hc & Hf).
    erewrite approve_event_ok in E by eassumption.
    injection E as E; subst. cbn [fst events]. econstructor; eassumption.
  - destruct (reject_event d s eid reason) as [d' r] eqn:E.
    destruct r;
      try (apply reject_event_unchanged in E;
           [subst; constructor | discriminate]).
    pose proof E as E'. apply reject_event_inv in E'.
    destruct E' as (u & e & Hc & Ht).
    pose proof Hc as Hlab. apply current_approver_label in Hlab.
    destruct Hlab as (label & Hlab).
    erewrite reject_event_ok in E by eassumption.
    injection E as E; subst. cbn [fst events].
    eapply step_reject; [eassumption|]. now apply truthy_nonempty.
  - destruct (complete_event d s eid) as [d' r] eqn:E.
    destruct r;
      try (apply complete_event_unchanged in E;
           [subst; constructor | discriminate]).
    pose proof E as E'. apply complete_event_inv in E'.
    destruct E' as (u & e & Hc).
    erewrite complete_event_ok in E by eassumption.
    injection E as E; subst. cbn [fst events]. econstructor; eassumption.
Qed.

Lemma manage_venues_cases (d : db) (s : session) (m : http_method)
  (n : string) (c : option Z) :
  fst (manage_venues d s m n c) = d
  \/ exists name cap,
       name <> EmptyString /\ 0 < cap /\ venue_name_taken name d = false
       /\ manage_venues d s m n c
          = (set_venues
               (venues d ++
                [mkVenue (Sql.next_rowid (map v_id (venues d))) name cap]) d,
             AdminAdded name).
Proof.
  unfold manage_venues.
  destruct (login_required s); [now left|].
  destruct (role_required ["admin"] (load_user d s)); [now left|].
  destruct m; [now left|].
  destruct c as [cap|]; [|now left].
  destruct (Str.truthy (Str.strip n) && (0 <? cap)) eqn:E; [|now left].
  destruct (Sql.fits cap); simpl; [|now left].
  destruct (venue_name_taken (Str.strip n) d) eqn:T; [now left|].
  apply andb_true_iff in E. destruct E as [E1 E2].
  right. exists (Str.strip n), cap.
  split; [now apply truthy_nonempty|]. split; [now apply Z.ltb_lt|].
  split; [exact T | reflexivity].
Qed.

Lemma manage_resources_cases (d : db) (s : session) (m : http_method)
  (n : string) (c : option Z) :
  fst (manage_resources d s m n c) = d
  \/ exists name total,
       name <> EmptyString /\ 0 < total
       /\ resource_name_taken name d = false
       /\ manage_resources d s m n c
          = (set_resources
               (resources d ++
                [mkResource (Sql.next_rowid (map r_id (resources d)))
                   name total total]) d,
             AdminAdded name).
Proof.
  unfold manage_resources.
  destruct (login_required s); [now left|].
  destruct (role_required ["admin"] (load_user d s)); [now left|].
  destruct m; [now left|].
  destruct c as [total|]; [|now left].
  destruct (Str.truthy (Str.strip n) && (0 <? total)) eqn:E; [|now left].
  destruct (Sql.fits total); simpl; [|now left].
  destruct (resource_name_taken (Str.strip n) d) eqn:T; [now left|].
  apply andb_true_iff in E. destruct E as [E1 E2].
  right. exists (Str.strip n), total.
  split; [now apply truthy_nonempty|]. split; [now apply Z.ltb_lt|].
  split; [exact T | reflexivity].
Qed.

Lemma mark_notification_read_cases (d : db) (s : session) (k : Z) :
  fst (mark_notification_read d s k) = d
  \/ exists u, load_user d s = Some u
       /\ fst (mark_notification_read d s k)
          = set_notifications
              (mark_read_from 1 k (u_id u) (notifications d)) d.
Proof.
  unfold mark_notification_read.
  destruct s as [uid|]; [|now left].
  destruct (load_user d (Some uid)) as [u|]; [|now left].
  right. exists u. now split.
Qed.

Lemma perform_events (d : db) (a : action) :
  match a with
  | Serve _ => True
  | _ => events (perform d a) = events d
  end.
Proof.
  destruct a as [q | s m n c | s m n c | s k |]; simpl; trivial.
  - destruct (manage_venues_cases d s m n c) as [-> | (x & y & _ & _ & _ & ->)];
      reflexivity.
  - destruct (manage_resources_cases d s m n c)
      as [-> | (x & y & _ & _ & _ & ->)]; reflexivity.
  - destruct (mark_notification_read_cases d s k) as [-> | (u & _ & ->)];
      reflexivity.
Qed.

Lemma perform_step (d : db) (a : action) :
  events_step d (events (perform d a)).
Proof.
  pose proof (perform_events d a) as H.
  destruct a; try (rewrite H; constructor).
  apply handle_step.
Qed.

Lemma flow_edge (d : db) (s : session) (eid : Z) (u : user) (e : event)
  (nxt : string) :
  current_approver d s eid u e ->
  APPROVAL_FLOW (status e) = Some (u_role u, nxt) ->
  status_edge (status e) nxt.
Proof.
  intros Hc Hf. destruct (current_approver_flow Hc) as (n & Hn & Hcases).
  rewrite Hf in Hn. injection Hn as <-.
  destruct Hc as (_ & _ & _ & Hs). rewrite Hs.
  destruct Hcases as [[-> ->] | [[-> ->] | [-> ->]]]; constructor.
Qed.

Lemma reject_edge (d : db) (s : session) (eid : Z) (u : user) (e : event) :
  current_approver d s eid u e -> status_edge (status e) "rejected".
Proof.
  intros (_ & Hr & _ & Hs). rewrite Hs.
  destruct (approver_role_cases _ Hr) as [-> | [-> | ->]]; constructor.
Qed.

(** One step on the row found under an id. *)
Lemma events_step_row (d : db) (l : list event) (eid : Z) (e : event) :
  events_step d l ->
  find (fun x => e_id x =? eid) (events d) = Some e ->
  exists e',
    find (fun x => e_id x =? eid) l = Some e'
    /\ same_booking e e'
    /\ (e' = e \/ status_edge (status e) (status e'))
    /\ (released_status (status e) = true -> e' = e).
Proof.
  assert (Hsame : same_booking e e) by (now repeat split).
  intros Hstep He.
  destruct Hstep as [ | s f u ea vid v reqs Hw Ha | s x u e0 nxt Hc Hf
                      | s x u e0 reason Hc Hr | s x u e0 Hc ].
  - exists e. now repeat split; auto.
  - exists e. split; [now apply find_app_some|]. now repeat split; auto.
  - destruct (Z.eq_dec eid x) as [-> | Hneq].
    + pose proof Hc as (_ & _ & He0 & _). unfold Sql.event_by_id in He0.
      rewrite He in He0. injection He0 as <-.
      exists (Sql.with_status nxt (next_role_of nxt) e).
      split; [rewrite find_on_row_same by apply with_status_id;
              now rewrite He|].
      split; [now repeat split|].
      split; [right; simpl; eapply flow_edge; eassumption|].
      intros Hrel. rewrite (pending_not_released Hc) in Hrel. discriminate.
    + exists e. rewrite find_on_row_other by (apply with_status_id || auto).
      now repeat split; auto.
  - destruct (Z.eq_dec eid x) as [-> | Hneq].
    + pose proof Hc as (_ & _ & He0 & _). unfold Sql.event_by_id in He0.
      rewrite He in He0. injection He0 as <-.
      exists (Sql.with_rejection reason e).
      split; [rewrite find_on_row_same by apply with_rejection_id;
              now rewrite He|].
      split; [now repeat split|].
      split; [right; simpl; eapply reject_edge; eassumption|].
      intros Hrel. rewrite (pending_not_released Hc) in Hrel. discriminate.
    + exists e. rewrite find_on_row_other by (apply with_rejection_id || auto).
      now repeat split; auto.
  - destruct (Z.eq_dec eid x) as [-> | Hneq].
    + pose proof Hc as (_ & _ & He0 & Hs & _). unfold Sql.event_by_id in He0.
      rewrite He in He0. injection He0 as <-.
      exists (Sql.with_status "completed" EmptyString e).
      split; [rewrite find_on_row_same by apply with_status_id;
              now rewrite He|].
      split; [now repeat split|].
      split; [right; simpl; rewrite Hs; constructor|].
      intros Hrel. rewrite Hs in Hrel. discriminate.
    + exists e. rewrite find_on_row_other by (apply with_status_id || auto).
      now repeat split; auto.
Qed.

(** X1. Whatever is done to the store, a booking stays in it with the
    columns it was created with, and its status either stays or follows
    one arrow of pending_hod, pending_dean, pending_head, approved,
    completed, or of a pending status to rejected; a rejected or
    completed booking row never changes again. *)
Theorem status_moves_forward (d : db) (a : action) (eid : Z) (e : event) :
  Sql.event_by_id eid d = Some e ->
  exists e',
    Sql.event_by_id eid (perform d a) = Some e'
    /\ same_booking e e'
    /\ (e' = e \/ status_edge (status e) (status e'))
    /\ (released_status (status e) = true -> e' = e).
Proof.
  intros He. unfold Sql.event_by_id in *.
  exact (events_step_row eid (perform_step d a) He).
Qed.

Lemma status_moves_forward_witness :
  Sql.event_by_id 1 booked = Some talk_row
  /\ exists e',
       Sql.event_by_id 1 (perform booked (Serve (Approve (Some 2) 1 "ok")))
       = Some e'
       /\ (e' = talk_row \/ status_edge (status talk_row) (status e')).
Proof.
  assert (H : Sql.event_by_id 1 booked = Some talk_row) by reflexivity.
  split; [exact H|].
  destruct (@status_moves_forward booked (Serve (Approve (Some 2) 1 "ok")) 1
              talk_row H) as (e' & H1 & _ & H2 & _).
  exists e'. split; assumption.
Defined.

(** ** Invariants along sequences of actions *)

Lemma play_invariant (P : db -> Prop) :
  (forall d a, P d -> P (perform d a)) ->
  forall acts d, P d -> P (play d acts).
Proof.
  intros Hstep acts. unfold play.
  induction acts as [|a acts IH]; intros d Hd; simpl; [exact Hd|].
  apply IH, Hstep, Hd.
Qed.

Lemma unique_row (l : list event) (x : Z) (e y : event) :
  NoDup (map e_id l) ->
  find (fun r => e_id r =? x) l = Some e ->
  In y l -> e_id y = x -> y = e.
Proof.
  induction l as [|r l IH]; simpl; intros Hnd Hf Hy Hid; [destruct Hy|].
  inversion Hnd as [|? ? Hnotin Hnd']; subst.
  destruct (Z.eqb_spec (e_id r) (e_id y)) as [E | E].
  - injection Hf as <-. destruct Hy as [-> | Hy]; [reflexivity|].
    exfalso. apply Hnotin. rewrite E. now apply in_map.
  - destruct Hy as [-> | Hy]; [congruence|]. now apply IH.
Qed.

Lemma NoDup_snoc {A : Type} (l : list A) (x : A) :
  NoDup l -> ~ In x l -> NoDup (l ++ [x]).
Proof.
  induction l as [|y l IH]; simpl; intros Hnd Hx.
  - constructor; [tauto | constructor].
  - inversion Hnd as [|? ? Hy Hl]; subst. constructor.
    + intros Hin. apply in_app_or in Hin. destruct Hin as [Hin | [-> | []]].
      * contradiction.
      * apply Hx. now left.
    + apply IH; [exact Hl|]. intros Hin. apply Hx. now right.
Qed.

Lemma events_step_ids (d : db) (l : list event) :
  events_step d l -> event_ids_unique d -> NoDup (map e_id l).
Proof.
  unfold event_ids_unique. intros Hstep Hnd.
  destruct Hstep; try (rewrite ids_on_row; [exact Hnd|]);
    try exact Hnd; try apply with_status_id; try apply with_rejection_id.
  rewrite map_app. simpl. apply NoDup_snoc; [exact Hnd|].
  intros Hin. apply next_rowid_above in Hin. lia.
Qed.












Lemma in_on_row (l : list event) (eid : Z) (g : event -> event) (y' : event) :
  In y' (map (Sql.on_row eid g) l) ->
  exists y, In y l /\ ((e_id y = eid /\ y' = g y) \/ (e_id y <> eid /\ y' = y)).
Proof.
  intros H. apply in_map_iff in H. destruct H as (y & <- & Hy).
  exists y. split; [exact Hy|]. unfold Sql.on_row.
  destruct (Z.eqb_spec (e_id y) eid); [left | right]; now split.
Qed.

Lemma events_step_consistent (d : db) (l : list event) :
  events_step d l -> event_ids_unique d -> rows_consistent d ->
  forall e, In e l -> row_consistent e.
Proof.
  unfold event_ids_unique, rows_consistent. intros Hstep Hnd Hok.
  assert (Hquiet : forall e0, In e0 (events d) ->
            status e0 <> "rejected" -> rejection_reason e0 = EmptyString).
  { intros e0 Hin Hs. destruct (Hok e0 Hin) as [_ [_ H]].
    destruct (string_dec (rejection_reason e0) EmptyString) as [E | E];
      [exact E | now destruct (Hs (H E))]. }
  destruct Hstep as [ | s f u ea vid v reqs Hw Ha | s x u e0 nxt Hc Hf
                      | s x u e0 reason Hc Hr | s x u e0 Hc ];
    intros e Hin.
  - now apply Hok.
  - apply in_app_or in Hin. destruct Hin as [Hin | [<- | []]];
      [now apply Hok|].
    split; [reflexivity|]. simpl. split; [discriminate | congruence].
  - apply in_on_row in Hin.
    destruct Hin as (y & Hy & [[Hid ->] | [_ ->]]); [|now apply Hok].
    pose proof Hc as (_ & _ & He0 & _). unfold Sql.event_by_id in He0.
    rewrite (@unique_row (events d) x e0 y Hnd He0 Hy Hid).
    assert (Hin0 : In e0 (events d)) by (apply find_some in He0; tauto).
    split; [reflexivity|]. simpl.
    assert (Hn : nxt <> "rejected").
    { intros ->. pose proof (next_not_released Hc Hf). discriminate. }
    rewrite (Hquiet e0 Hin0).
    + split; [contradiction | congruence].
    + intros E. pose proof (pending_not_released Hc) as P.
      rewrite E in P. discriminate.
  - apply in_on_row in Hin.
    destruct Hin as (y & Hy & [[Hid ->] | [_ ->]]); [|now apply Hok].
    split; [reflexivity|]. simpl. split; [intros _; exact Hr | reflexivity].
  - apply in_on_row in Hin.
    destruct Hin as (y & Hy & [[Hid ->] | [_ ->]]); [|now apply Hok].
    pose proof Hc as (_ & _ & He0 & Hs & _). unfold Sql.event_by_id in He0.
    rewrite (@unique_row (events d) x e0 y Hnd He0 Hy Hid).
    assert (Hin0 : In e0 (events d)) by (apply find_some in He0; tauto).
    split; [reflexivity|]. simpl.
    rewrite (Hquiet e0 Hin0) by (rewrite Hs; discriminate).
    split; [discriminate | congruence].
Qed.

(** X3. On a store with unique booking ids, after any sequence of
    actions every booking row has as [current_approver_role] the role
    its status waits for ([hod], [dean], [head], or empty for approved,
    rejected and completed), and has a non-empty [rejection_reason]
    exactly when its status is [rejected], provided the rows had these
    two properties to begin with. *)
Theorem rows_stay_consistent (d : db) (acts : list action) :
  event_ids_unique d -> rows_consistent d ->
  rows_consistent (play d acts).
Proof.
  intros Hu Hc.
  apply (play_invariant (fun x => event_ids_unique x /\ rows_consistent x));
    [|now split].
  intros d0 a [H1 H2]. split.
  - exact (events_step_ids (perform_step d0 a) H1).
  - exact (events_step_consistent (perform_step d0 a) H1 H2).
Qed.

Lemma rows_stay_consistent_witness :
  let acts := [Serve (SubmitBooking (Some 1) POST talk);
               Serve (Approve (Some 2) 1 "ok");
               Serve (Reject (Some 3) 1 " too late ")] in
  event_ids_unique seed /\ rows_consistent seed
  /\ rows_consistent (play seed acts).
Proof.
  intros acts.
  assert (H1 : event_ids_unique seed) by constructor.
  assert (H2 : rows_consistent seed) by (intros e Hin; destruct Hin).
  split; [exact H1|]. split; [exact H2|].
  exact (@rows_stay_consistent seed acts H1 H2).
Defined.

(** ** The dashboard statistics *)

Lemma known_status_cases (st : string) :
  known_status st = true ->
  st = "pending_hod" \/ st = "pending_dean" \/ st = "pending_head"
  \/ st = "approved" \/ st = "rejected" \/ st = "completed".
Proof.
  unfold known_status, Str.mem. simpl. intros H.
  repeat (apply orb_true_iff in H;
          destruct H as [H | H]; [apply String.eqb_eq in H; tauto|]).
  discriminate.
Qed.

Lemma events_step_known (d : db) (l : list event) :
  events_step d l -> statuses_known d ->
  forall e, In e l -> known_status (status e) = true.
Proof.
  unfold statuses_known. intros Hstep Hok.
  destruct Hstep as [ | s f u ea vid v reqs Hw Ha | s x u e0 nxt Hc Hf
                      | s x u e0 reason Hc Hr | s x u e0 Hc ];
    intros e Hin.
  - now apply Hok.
  - apply in_app_or in Hin. destruct Hin as [Hin | [<- | []]];
      [now apply Hok | reflexivity].
  - apply in_on_row in Hin.
    destruct Hin as (y & Hy & [[Hid ->] | [_ ->]]); [|now apply Hok].
    simpl. destruct (current_approver_flow Hc) as (n & Hn & Hcases).
    rewrite Hf in Hn. injection Hn as <-.
    destruct Hcases as [[_ ->] | [[_ ->] | [_ ->]]]; reflexivity.
  - apply in_on_row in Hin.
    destruct Hin as (y & Hy & [[Hid ->] | [_ ->]]);
      [reflexivity | now apply Hok].
  - apply in_on_row in Hin.
    destruct Hin as (y & Hy & [[Hid ->] | [_ ->]]);
      [reflexivity | now apply Hok].
Qed.

Lemma status_buckets (st : string) :
  known_status st = true ->
  like "pending_%" st
  = match APPROVAL_FLOW st with Some _ => true | None => false end
  /\ Z.b2z (String.eqb st "approved") + Z.b2z (like "pending_%" st)
     + Z.b2z (String.eqb st "rejected") + Z.b2z (String.eqb st "completed")
     = 1.
Proof.
  intros H. apply known_status_cases in H.
  destruct H as [-> | [-> | [-> | [-> | [-> | ->]]]]];
    vm_compute; split; reflexivity.
Qed.

Lemma count_cons (p : event -> bool) (e : event) (l : list event) :
  Z.of_nat (List.length (filter p (e :: l)))
  = Z.b2z (p e) + Z.of_nat (List.length (filter p l)).
Proof.
  cbn [filter]. destruct (p e); cbn [List.length Z.b2z]; lia.
Qed.

Lemma count_partition (l : list event) :
  (forall e, In e l -> known_status (status e) = true) ->
  Z.of_nat (List.length l)
  = Z.of_nat (List.length
                (filter (fun e => String.eqb (status e) "approved") l))
    + Z.of_nat (List.length
                  (filter (fun e => like "pending_%" (status e)) l))
    + Z.of_nat (List.length
                  (filter (fun e => String.eqb (status e) "rejected") l))
    + Z.of_nat (List.length
                  (filter (fun e => String.eqb (status e) "completed") l))
  /\ filter (fun e => like "pending_%" (status e)) l
     = filter (fun e => match APPROVAL_FLOW (status e) with
                        | Some _ => true
                        | None => false
                        end) l.
Proof.
  induction l as [|e l IH]; intros Hk; [now split|].
  destruct IH as [IH1 IH2]; [intros x Hx; apply Hk; now right|].
  assert (He : known_status (status e) = true) by (apply Hk; now left).
  destruct (status_buckets _ He) as [B1 B2].
  split.
  - rewrite !count_cons. cbn [List.length]. lia.
  - cbn [filter]. rewrite B1, IH2. reflexivity.
Qed.

(** X4. After any sequence of actions on a store whose booking statuses
    are among the six the handlers write, the dashboard figures add up:
    total = approved + pending + rejected + completed, and the pending
    figure, counted with LIKE 'pending_%', counts exactly the bookings
    that wait for an approver of the approval flow. *)
Theorem stats_add_up (d : db) (acts : list action) :
  statuses_known d ->
  let st := dashboard_stats (play d acts) in
  st_total st = st_approved st + st_pending st + st_rejected st
                + st_completed st
  /\ st_pending st
     = count_events (fun e => match APPROVAL_FLOW (status e) with
                              | Some _ => true
                              | None => false
                              end) (play d acts).
Proof.
  intros Hk st.
  assert (Hk' : statuses_known (play d acts)).
  { apply (play_invariant statuses_known); [|exact Hk].
    intros d0 a H0 e Hin.
    exact (events_step_known (perform_step d0 a) H0 e Hin). }
  destruct (@count_partition (events (play d acts)) Hk') as [H1 H2].
  subst st. unfold dashboard_stats, count_events. cbn [st_total st_approved
    st_pending st_rejected st_completed].
  split; [|now rewrite H2].
  rewrite filter_all by reflexivity. exact H1.
Qed.

Lemma stats_add_up_witness :
  let acts := [Serve (SubmitBooking (Some 1) POST talk);
               Serve (SubmitBooking (Some 1) POST backwards);
               Serve (Reject (Some 2) 1 "no")] in
  let st := dashboard_stats (play seed acts) in
  statuses_known seed
  /\ st_total st = st_approved st + st_pending st + st_rejected st
                   + st_completed st.
Proof.
  intros acts st.
  assert (H : statuses_known seed) by (intros e Hin; destruct Hin).
  split; [exact H|].
  exact (proj1 (@stats_add_up seed acts H)).
Defined.

(** ** The inventory under every action *)

(** What a request does to [resources] and [event_resources]: a credit
    of hold rows already there, or the debit of the hold rows it
    inserts for the validated requests. *)
Lemma handle_stock (d : db) (q : request) :
  (event_resources (fst (handle d q)) = event_resources d
   /\ exists hs,
        (forall h, In h hs -> In h (event_resources d))
        /\ resources (fst (handle d q)) = map (credited hs) (resources d))
  \/ (exists f eid reqs,
        resource_validation (f_resource f) (Sql.resources_by_name d)
        = inr reqs
        /\ resources (fst (handle d q))
           = map (debited (new_holds eid reqs)) (resources d)
        /\ event_resources (fst (handle d q))
           = event_resources d ++ new_holds eid reqs).
Proof.
  assert (Hsame : forall d', d' = d ->
            event_resources d' = event_resources d
            /\ exists hs,
                 (forall h, In h hs -> In h (event_resources d))
                 /\ resources d' = map (credited hs) (resources d)).
  { intros d' ->. split; [reflexivity|]. exists [].
    split; [intros h []|]. now rewrite credited_nil. }
  destruct q as [s m f | s eid c | s eid reason | s eid].
  - simpl. destruct (new_event d s m f) as [d' r] eqn:E.
    destruct r;
      try (left; apply Hsame; eapply new_event_unchanged;
           [exact E | discriminate]).
    pose proof E as E'. apply new_event_inv in E'.
    destruct E' as (-> & u & ea & vid & v & reqs & Hw & Ha).
    erewrite new_event_ok in E by eassumption.
    injection E as E; subst. right.
    exists f, (e_id (new_booking d f u ea vid)), reqs.
    destruct Ha as (_ & _ & _ & Hv & _). now repeat split.
  - left.
    assert (N : forall s0 m f, Approve s eid c <> SubmitBooking s0 m f)
      by discriminate.
    destruct (decision_resources d N) as [H1 H2]. split; [exact H2|].
    rewrite H1. simpl. exists []. split; [intros h []|].
    now rewrite credited_nil.
  - left.
    assert (N : forall s0 m f, Reject s eid reason <> SubmitBooking s0 m f)
      by discriminate.
    destruct (decision_resources d N) as [H1 H2]. split; [exact H2|].
    rewrite H1. destruct (release_of d (Reject s eid reason)) as [x|].
    + exists (Sql.holds_of x d). split; [|reflexivity].
      intros h Hh. unfold Sql.holds_of in Hh. apply filter_In in Hh. tauto.
    + exists []. split; [intros h []|]. now rewrite credited_nil.
  - left.
    assert (N : forall s0 m f, Complete s eid <> SubmitBooking s0 m f)
      by discriminate.
    destruct (decision_resources d N) as [H1 H2]. split; [exact H2|].
    rewrite H1. destruct (release_of d (Complete s eid)) as [x|].
    + exists (Sql.holds_of x d). split; [|reflexivity].
      intros h Hh. unfold Sql.holds_of in Hh. apply filter_In in Hh. tauto.
    + exists []. split; [intros h []|]. now rewrite credited_nil.
Qed.

Lemma validated_ids (q : Z -> option Z) (rs : list resource)
  (reqs : list (Z * Z)) :
  resource_validation q rs = inr reqs ->
  forall rq, In rq reqs -> In (fst rq) (map r_id rs).
Proof.
  revert reqs. induction rs as [|res rs IH]; simpl; intros reqs.
  - intros X; inversion X. simpl. tauto.
  - unfold bind, some_or, require.
    destruct (q (r_id res)) as [qty|]; [|discriminate].
    destruct (0 <? qty).
    + destruct (available_quantity res <? qty); simpl; [discriminate|].
      destruct (resource_validation q rs) as [|rest]; [discriminate|].
      intros X; inversion X; subst. intros rq [<- | Hin].
      * now left.
      * right. now apply (IH rest).
    + intros X rq Hin. right. now apply (IH reqs).
Qed.

Lemma quantity_on_new_holds_absent (eid rid : Z) (reqs : list (Z * Z)) :
  ~ In rid (map fst reqs) -> quantity_on rid (new_holds eid reqs) = 0.
Proof.
  intros H. apply quantity_on_absent. intros h Hh.
  unfold new_holds in Hh. apply in_map_iff in Hh.
  destruct Hh as (rq & <- & Hrq). simpl. intros E. apply H.
  rewrite <- E. now apply in_map.
Qed.

(** With unique resource ids, what the validated requests take from a
    resource is the one quantity checked against its stock. *)
Lemma validated_within_stock (q : Z -> option Z) (rs : list resource)
  (reqs : list (Z * Z)) (eid : Z) :
  resource_validation q rs = inr reqs ->
  NoDup (map r_id rs) ->
  forall r, In r rs -> 0 <= available_quantity r ->
    0 <= quantity_on (r_id r) (new_holds eid reqs) <= available_quantity r.
Proof.
  revert reqs. induction rs as [|res rs IH]; simpl; intros reqs Hv Hnd r Hr;
    [destruct Hr|].
  inversion Hnd as [|? ? Hnotin Hnd']; subst.
  unfold bind, some_or, require in Hv.
  destruct (q (r_id res)) as [qty|]; [|discriminate].
  destruct (0 <? qty) eqn:Hpos.
  - destruct (available_quantity res <? qty) eqn:Hlt; simpl in Hv;
      [discriminate|].
    destruct (resource_validation q rs) as [|rest] eqn:Hrest; [discriminate|].
    injection Hv as <-. apply Z.ltb_lt in Hpos. apply Z.ltb_ge in Hlt.
    intros Hav. unfold new_holds. simpl. rewrite quantity_on_cons. simpl.
    fold (new_holds eid rest).
    destruct Hr as [<- | Hr].
    + rewrite Z.eqb_refl.
      rewrite quantity_on_new_holds_absent; [lia|].
      intros Hin. apply Hnotin. apply in_map_iff in Hin.
      destruct Hin as (rq & <- & Hrq).
      eapply validated_ids; eassumption.
    + destruct (Z.eqb_spec (r_id res) (r_id r)) as [E | E].
      * exfalso. apply Hnotin. rewrite E. now apply in_map.
      * specialize (IH rest eq_refl Hnd' r Hr Hav). lia.
  - intros Hav. destruct Hr as [<- | Hr].
    + rewrite quantity_on_new_holds_absent; [lia|].
      intros Hin. apply Hnotin. apply in_map_iff in Hin.
      destruct Hin as (rq & <- & Hrq).
      eapply validated_ids; eassumption.
    + now apply (IH reqs).
Qed.

Lemma ids_credited (hs : list event_resource) (rs : list resource) :
  map r_id (map (credited hs) rs) = map r_id rs.
Proof. rewrite map_map. now apply map_ext. Qed.

Lemma ids_debited (hs : list event_resource) (rs : list resource) :
  map r_id (map (debited hs) rs) = map r_id rs.
Proof. rewrite map_map. now apply map_ext. Qed.

Lemma handle_inventory (d : db) (q : request) :
  inventory_ok d -> inventory_ok (fst (handle d q)).
Proof.
  intros (Hfk & Hrfk & Hpos & Hnd & Hled & Hnn).
  destruct (handle_keeps_ledger q Hfk Hled) as [Hfk' Hled'].
  pose proof (handle_keeps_positive q Hpos) as Hpos'.
  split; [exact Hfk'|].
  unfold holds_refer_to_resources, resource_ids_unique, stock_nonneg in *.
  destruct (handle_stock d q)
    as [(Hev & hs & Hin & Hres) | (f & eid & reqs & Hv & Hres & Hev)];
    rewrite Hres, Hev.
  - split; [rewrite ids_credited; exact Hrfk|]. split; [exact Hpos'|].
    split; [rewrite ids_credited; exact Hnd|]. split; [exact Hled'|].
    intros r' Hr'. apply in_map_iff in Hr'. destruct Hr' as (r & <- & Hr).
    simpl. specialize (Hnn r Hr).
    assert (0 <= quantity_on (r_id r) hs).
    { apply quantity_on_nonneg. intros h Hh. apply Hpos. now apply Hin. }
    lia.
  - assert (Hperm : Permutation (map r_id (resources d))
                      (map r_id (Sql.resources_by_name d)))
      by (apply Permutation_map, resources_by_name_perm).
    split.
    { intros h Hh. rewrite ids_debited. apply in_app_or in Hh.
      destruct Hh as [Hh | Hh]; [now apply Hrfk|].
      unfold new_holds in Hh. apply in_map_iff in Hh.
      destruct Hh as (rq & <- & Hrq). simpl.
      eapply Permutation_in; [apply Permutation_sym, Hperm|].
      eapply validated_ids; eassumption. }
    split; [exact Hpos'|].
    split; [rewrite ids_debited; exact Hnd|]. split; [exact Hled'|].
    intros r' Hr'. apply in_map_iff in Hr'. destruct Hr' as (r & <- & Hr).
    simpl. specialize (Hnn r Hr).
    assert (Hq : 0 <= quantity_on (r_id r) (new_holds eid reqs)
                 <= available_quantity r).
    { eapply validated_within_stock; [exact Hv | | | exact Hnn].
      - eapply Permutation_NoDup; [exact Hperm | exact Hnd].
      - eapply Permutation_in; [apply resources_by_name_perm | exact Hr]. }
    lia.
Qed.

Lemma inventory_ext (d d' : db) :
  resources d' = resources d -> events d' = events d ->
  event_resources d' = event_resources d ->
  inventory_ok d -> inventory_ok d'.
Proof.
  intros Hr He Hh.
  unfold inventory_ok, holds_ok, holds_refer_to_resources, holds_positive,
    resource_ids_unique, ledger_ok, stock_nonneg, held.
  now rewrite Hr, He, Hh.
Qed.

Lemma inventory_add_resource (d : db) (name : string) (total : Z) :
  0 < total -> inventory_ok d ->
  inventory_ok
    (set_resources
       (resources d ++
        [mkResource (Sql.next_rowid (map r_id (resources d))) name total
           total]) d).
Proof.
  intros Htot (Hfk & Hrfk & Hpos & Hnd & Hled & Hnn).
  assert (Hfresh : ~ In (Sql.next_rowid (map r_id (resources d)))
                     (map r_id (resources d))).
  { intros Hin. apply next_rowid_above in Hin. lia. }
  split; [exact Hfk|].
  split.
  { intros h Hh. simpl in *. rewrite map_app. apply in_or_app. left.
    now apply Hrfk. }
  split; [exact Hpos|].
  split.
  { unfold resource_ids_unique. simpl. rewrite map_app. simpl.
    now apply NoDup_snoc. }
  split.
  - intros r Hr. simpl in Hr. apply in_app_or in Hr.
    destruct Hr as [Hr | [<- | []]].
    + exact (Hled r Hr).
    + simpl. unfold held. simpl.
      rewrite quantity_on_absent; [lia|].
      intros h Hh E. apply filter_In in Hh. destruct Hh as [Hh _].
      apply Hfresh. rewrite <- E. now apply Hrfk.
  - intros r Hr. simpl in Hr. apply in_app_or in Hr.
    destruct Hr as [Hr | [<- | []]]; [now apply Hnn | simpl; lia].
Qed.

Lemma inventory_init_db (d : db) : inventory_ok d -> inventory_ok (init_db d).
Proof.
  intros Hok. destruct (resources d) as [|r0 rs] eqn:Hrs.
  - destruct Hok as (Hfk & Hrfk & Hpos & Hnd & Hled & Hnn).
    assert (Hno : event_resources d = []).
    { destruct (event_resources d) as [|h hs] eqn:E; [reflexivity|].
      exfalso. unfold holds_refer_to_resources in Hrfk.
      rewrite E, Hrs in Hrfk. exact (Hrfk h (or_introl eq_refl)). }
    unfold inventory_ok, holds_ok, holds_refer_to_resources, holds_positive,
      resource_ids_unique, ledger_ok, stock_nonneg, held, init_db.
    simpl. rewrite Hrs, Hno. simpl.
    split; [intros h []|]. split; [intros h []|]. split; [intros h []|].
    split.
    { repeat constructor; simpl; intuition lia. }
    split; intros r Hr;
      repeat (destruct Hr as [<- | Hr]; [vm_compute; congruence|]);
      destruct Hr.
  - apply inventory_ext with (d := d); try reflexivity; [|exact Hok].
    unfold init_db. simpl. now rewrite Hrs.
Qed.

Lemma perform_inventory (d : db) (a : action) :
  inventory_ok d -> inventory_ok (perform d a).
Proof.
  intros Hok. destruct a as [q | s m n c | s m n c | s k |]; simpl.
  - now apply handle_inventory.
  - apply inventory_ext with (d := d); try exact Hok;
      destruct (manage_venues_cases d s m n c)
        as [-> | (x & y & _ & _ & _ & ->)]; reflexivity.
  - destruct (manage_resources_cases d s m n c)
      as [-> | (x & y & _ & Hy & _ & ->)]; [exact Hok|].
    now apply inventory_add_resource.
  - apply inventory_ext with (d := d); try exact Hok;
      destruct (mark_notification_read_cases d s k) as [-> | (u & _ & ->)];
      reflexivity.
  - now apply inventory_init_db.
Qed.

(** X5. On a store that satisfies the keys of the inventory tables,
    with positive hold quantities, a balanced ledger and no resource
    overdrawn, any sequence of actions (requests, additions by the
    admin, marking notifications, restarts) leaves every resource with
    0 <= available_quantity <= total_quantity and with
    available_quantity plus its outstanding holds equal to
    total_quantity. *)
Theorem stock_stays_sound (d : db) (acts : list action) (r : resource) :
  inventory_ok d ->
  In r (resources (play d acts)) ->
  0 <= available_quantity r <= total_quantity r
  /\ available_quantity r + held (play d acts) (r_id r) = total_quantity r.
Proof.
  intros Hok Hin.
  assert (Hok' : inventory_ok (play d acts))
    by (apply (play_invariant inventory_ok); [apply perform_inventory | exact Hok]).
  destruct Hok' as (_ & _ & Hpos & _ & Hled & Hnn).
  specialize (Hled r Hin). specialize (Hnn r Hin).
  pose proof (@held_nonneg (play d acts) (r_id r) Hpos). lia.
Qed.

Lemma stock_stays_sound_witness :
  let acts := [Serve (SubmitBooking (Some 1) POST talk);
               ManageResources (Some 5) POST "Camera" (Some 2);
               Restart;
               Serve (Reject (Some 2) 1 "no")] in
  let r := mkResource 5 "Camera" 2 2 in
  inventory_ok seed /\ In r (resources (play seed acts))
  /\ 0 <= available_quantity r <= total_quantity r.
Proof.
  intros acts r.
  assert (H1 : inventory_ok seed).
  { split; [intros h []|]. split; [intros h []|]. split; [intros h []|].
    split; [repeat constructor; simpl; intuition lia|].
    split; intros x Hx; simpl in Hx;
      repeat (destruct Hx as [<- | Hx]; [vm_compute; congruence|]);
      destruct Hx. }
  assert (H2 : In r (resources (play seed acts))) by (vm_compute; auto 10).
  split; [exact H1|]. split; [exact H2|].
  exact (proj1 (@stock_stays_sound seed acts r H1 H2)).
Defined.

(** ** A submission and what follows it *)

Lemma validated_asks (q : Z -> option Z) (rs : list resource)
  (reqs : list (Z * Z)) :
  resource_validation q rs = inr reqs ->
  forall rq, In rq reqs -> q (fst rq) = Some (snd rq) /\ 0 < snd rq.
Proof.
  revert reqs. induction rs as [|res rs IH]; simpl; intros reqs.
  - intros X; inversion X. simpl. tauto.
  - unfold bind, some_or, require.
    destruct (q (r_id res)) as [qty|] eqn:Hq; [|discriminate].
    destruct (0 <? qty) eqn:Hpos; [|apply IH].
    destruct (available_quantity res <? qty); simpl; [discriminate|].
    destruct (resource_validation q rs) as [|rest]; [discriminate|].
    intros X; inversion X; subst. intros rq [<- | Hin].
    + simpl. split; [exact Hq | now apply Z.ltb_lt].
    + now apply (IH rest).
Qed.

(** The hold rows of a booking just created are the ones inserted for
    it: the foreign key leaves no older row under its fresh id. *)
Lemma holds_of_fresh (d : db) (b : event) (reqs : list (Z * Z))
  (us : list user) (vs : list venue) (rs : list resource) (es : list event)
  (aps : list approval) (ns : list notification) :
  holds_ok d ->
  e_id b = Sql.next_rowid (map e_id (events d)) ->
  Sql.holds_of (e_id b)
    (mkDb us vs rs es (event_resources d ++ new_holds (e_id b) reqs) aps ns)
  = new_holds (e_id b) reqs.
Proof.
  intros Hfk Hb. unfold Sql.holds_of. simpl. rewrite filter_app.
  replace (filter (fun h => er_event_id h =? e_id b) (event_resources d))
    with (@nil event_resource).
  - simpl. apply filter_all. intros h Hh. unfold new_holds in Hh.
    apply in_map_iff in Hh. destruct Hh as (rq & <- & _). simpl.
    apply Z.eqb_refl.
  - symmetry. destruct (filter _ (event_resources d)) as [|h hs] eqn:E;
      [reflexivity|].
    exfalso. assert (Hin : In h (h :: hs)) by now left.
    rewrite <- E in Hin. apply filter_In in Hin. destruct Hin as [Hin Hid].
    apply Z.eqb_eq in Hid. specialize (Hfk h Hin).
    apply next_rowid_above in Hfk. lia.
Qed.

(** X6. A booking that was admitted can be found under the id the
    insert gave it and waits for the head of department; the hold rows
    inserted for it are exactly the positive quantities the form asked
    for, one row per resource in name order, so that (on a store that
    satisfies the hold rows' foreign key) a row belongs to the booking
    exactly when the form asked that positive quantity of a resource of
    the store; and the booking is approved to pending_dean by any
    logged-in user whose role is hod. *)
Theorem submitted_awaits_hod (d d' : db) (s : session) (m : http_method)
  (f : booking_form) :
  new_event d s m f = (d', Submitted) ->
  let eid := Sql.next_rowid (map e_id (events d)) in
  (exists b,
     Sql.event_by_id eid d' = Some b /\ e_id b = eid
     /\ status b = "pending_hod" /\ current_approver_role b = "hod")
  /\ event_resources d'
     = event_resources d
       ++ new_holds eid (asked (f_resource f) (Sql.resources_by_name d))
  /\ (holds_ok d ->
      forall h,
        In h (event_resources d') /\ er_event_id h = eid
        <-> er_event_id h = eid
            /\ exists r, In r (resources d) /\ er_resource_id h = r_id r
                 /\ f_resource f (r_id r) = Some (quantity_requested h)
                 /\ 0 < quantity_requested h)
  /\ (forall uid u c,
        Sql.user_by_id uid d' = Some u -> u_role u = "hod" ->
        snd (approve_event d' (Some uid) eid c) = Approved "pending_dean").
Proof.
  intros E eid. pose proof E as E'. apply new_event_inv in E'.
  destruct E' as (-> & u & ea & vid & v & reqs & Hw & Ha).
  pose proof (new_event_ok Hw Ha) as Hok. cbv zeta in Hok.
  rewrite Hok in E. injection E as E; subst d'.
  assert (Hreqs : reqs = asked (f_resource f) (Sql.resources_by_name d)).
  { destruct Ha as (_ & _ & _ & Hv & _). exact (validated_requests _ _ Hv). }
  assert (Hb : Sql.event_by_id eid
                 (mkDb (users d) (venues d)
                    (map (debited (new_holds (e_id (new_booking d f u ea vid))
                                     reqs)) (resources d))
                    (events d ++ [new_booking d f u ea vid])
                    (event_resources d
                     ++ new_holds (e_id (new_booking d f u ea vid)) reqs)
                    (approvals d) (notifications d ++ hod_notice d f))
               = Some (new_booking d f u ea vid)).
  { unfold Sql.event_by_id. simpl.
    apply (@find_app_fresh (events d) (new_booking d f u ea vid)).
    reflexivity. }
  split; [exists (new_booking d f u ea vid); now repeat split|].
  split; [simpl; now rewrite Hreqs|].
  split.
  - intros Hfk h. simpl. rewrite Hreqs. fold eid. split.
    + intros [Hin Hid]. split; [exact Hid|].
      apply in_app_or in Hin. destruct Hin as [Hin | Hin].
      * exfalso. specialize (Hfk h Hin). apply next_rowid_above in Hfk.
        unfold eid in Hid. lia.
      * unfold new_holds in Hin. apply in_map_iff in Hin.
        destruct Hin as (rq & <- & Hrq). simpl.
        apply in_asked in Hrq. destruct Hrq as (r & Hr & H1 & H2 & H3).
        exists r. split; [|now rewrite H1].
        eapply Permutation_in; [|exact Hr].
        apply Permutation_sym, resources_by_name_perm.
    + intros [Hid (r & Hr & H1 & H2 & H3)]. split; [|exact Hid].
      apply in_or_app. right. unfold new_holds. apply in_map_iff.
      exists (er_resource_id h, quantity_requested h). split.
      * destruct h as [x y z]. simpl in *. now rewrite Hid.
      * apply in_asked. exists r. simpl.
        split; [|rewrite H1; now repeat split].
        eapply Permutation_in; [|exact Hr]. apply resources_by_name_perm.
  - intros uid u2 c Hu Hr.
    assert (Hc : current_approver
                   (mkDb (users d) (venues d)
                      (map (debited
                              (new_holds (e_id (new_booking d f u ea vid))
                                 reqs)) (resources d))
                      (events d ++ [new_booking d f u ea vid])
                      (event_resources d
                       ++ new_holds (e_id (new_booking d f u ea vid)) reqs)
                      (approvals d) (notifications d ++ hod_notice d f))
                   (Some uid) eid u2 (new_booking d f u ea vid)).
    { split; [exists uid; now split|]. rewrite Hr.
      split; [reflexivity|]. split; [exact Hb | reflexivity]. }
    erewrite approve_event_ok; [reflexivity | exact Hc|].
    rewrite Hr. reflexivity.
Qed.

Lemma submitted_awaits_hod_witness :
  new_event seed (Some 1) POST talk = (booked, Submitted)
  /\ event_resources booked = [mkHold 1 1 2]
  /\ (In (mkHold 1 1 2) (event_resources booked)
      /\ er_event_id (mkHold 1 1 2) = 1)
  /\ snd (approve_event booked (Some 2) 1 "fine") = Approved "pending_dean".
Proof.
  assert (H : new_event seed (Some 1) POST talk = (booked, Submitted))
    by (vm_compute; reflexivity).
  split; [exact H|].
  destruct (@submitted_awaits_hod seed booked (Some 1) POST talk H)
    as (_ & H2 & H3 & H4).
  split; [rewrite H2; vm_compute; reflexivity|].
  split.
  - apply (H3 seed_holds_ok (mkHold 1 1 2)). split; [reflexivity|].
    exists (mkResource 1 "Projector" 5 5).
    split; [now left|]. split; [reflexivity|]. split; [reflexivity|].
    simpl. lia.
  - exact (H4 2 (mkUser 2 "hod") "fine" eq_refl eq_refl).
Defined.

Lemma credit_after_debit (hs : list event_resource) (rs : list resource) :
  map (credited hs) (map (debited hs) rs) = rs.
Proof.
  rewrite map_map. rewrite <- (map_id rs) at 2. apply map_ext.
  intros [i n t a]. unfold credited, debited. simpl. f_equal. lia.
Qed.

(** X7. Rejecting a booking right after it was admitted undoes its
    debit: on a store that satisfies the hold rows' foreign key, the
    rows of [resources] are again exactly those before the submission. *)
Theorem reject_restores_stock (d d1 : db) (s : session) (m : http_method)
  (f : booking_form) (uid : Z) (u : user) (reason : string) :
  holds_ok d ->
  new_event d s m f = (d1, Submitted) ->
  Sql.user_by_id uid d1 = Some u -> u_role u = "hod" ->
  Str.strip reason <> EmptyString ->
  let eid := Sql.next_rowid (map e_id (events d)) in
  snd (reject_event d1 (Some uid) eid reason) = Rejected
  /\ resources (fst (reject_event d1 (Some uid) eid reason)) = resources d.
Proof.
  intros Hfk E Hu Hr Hreason eid. pose proof E as E'. apply new_event_inv in E'.
  destruct E' as (-> & u0 & ea & vid & v & reqs & Hw & Ha).
  pose proof (new_event_ok Hw Ha) as Hok. cbv zeta in Hok.
  set (b := new_booking d f u0 ea vid) in *.
  assert (Ed : d1 = mkDb (users d) (venues d)
                      (map (debited (new_holds (e_id b) reqs)) (resources d))
                      (events d ++ [b])
                      (event_resources d ++ new_holds (e_id b) reqs)
                      (approvals d) (notifications d ++ hod_notice d f))
    by congruence.
  clear E Hok.
  assert (Hc : current_approver d1 (Some uid) eid u b).
  { split; [exists uid; now split|]. rewrite Hr.
    split; [reflexivity|]. split; [|reflexivity].
    rewrite Ed. unfold Sql.event_by_id. cbn [events].
    apply (@find_app_fresh (events d) b). reflexivity. }
  apply truthy_nonempty in Hreason.
  destruct (current_approver_label Hc) as (label & Hlab).
  rewrite (reject_event_ok reason Hc Hreason Hlab).
  split; [reflexivity|]. cbn [fst resources].
  change eid with (e_id b). rewrite Ed.
  rewrite holds_of_fresh by (assumption || reflexivity).
  cbn [resources]. apply credit_after_debit.
Qed.

Lemma reject_restores_stock_witness :
  holds_ok seed
  /\ new_event seed (Some 1) POST talk = (booked, Submitted)
  /\ Sql.user_by_id 2 booked = Some (mkUser 2 "hod")
  /\ Str.strip " no budget " <> EmptyString
  /\ resources (fst (reject_event booked (Some 2) 1 " no budget "))
     = resources seed.
Proof.
  assert (H1 : holds_ok seed) by (intros h Hh; destruct Hh).
  assert (H2 : new_event seed (Some 1) POST talk = (booked, Submitted))
    by (vm_compute; reflexivity).
  assert (H3 : Sql.user_by_id 2 booked = Some (mkUser 2 "hod"))
    by reflexivity.
  assert (H4 : Str.strip " no budget " <> EmptyString)
    by (vm_compute; discriminate).
  split; [exact H1|]. split; [exact H2|]. split; [exact H3|].
  split; [exact H4|].
  exact (proj2 (@reject_restores_stock seed booked (Some 1) POST talk 2
                  (mkUser 2 "hod") " no budget " H1 H2 H3 eq_refl H4)).
Defined.

(** ** The approval chain from end to end *)

Lemma approve_once (d : db) (s : session) (eid : Z) (c nxt : string)
  (u : user) (e : event) :
  current_approver d s eid u e ->
  APPROVAL_FLOW (status e) = Some (u_role u, nxt) ->
  users (fst (approve_event d s eid c)) = users d
  /\ Sql.event_by_id eid (fst (approve_event d s eid c))
     = Some (Sql.with_status nxt (next_role_of nxt) e)
  /\ approvals (fst (approve_event d s eid c))
     = approvals d
       ++ [mkApproval eid (u_id u) (u_role u) "approved" (Str.strip c)]
  /\ resources (fst (approve_event d s eid c)) = resources d
  /\ event_resources (fst (approve_event d s eid c)) = event_resources d.
Proof.
  intros Hc Hf. rewrite (approve_event_ok c Hc Hf). cbn [fst].
  split; [reflexivity|]. split; [|now repeat split].
  pose proof Hc as (_ & _ & He & _).
  unfold Sql.event_by_id in *. cbn [events].
  rewrite find_on_row_same by apply with_status_id. now rewrite He.
Qed.

Lemma logged_in_approver (d : db) (uid eid : Z) (u : user) (e : event)
  (role : string) :
  Sql.user_by_id uid d = Some u -> u_role u = role ->
  Str.mem role ["hod"; "dean"; "head"] = true ->
  Sql.event_by_id eid d = Some e ->
  status e = ("pending_" ++ role)%string ->
  current_approver d (Some uid) eid u e.
Proof.
  intros Hu Hr Hm He Hs. split; [exists uid; now split|].
  rewrite Hr. now repeat split.
Qed.

(** X8. A booking that waits for the head of department, approved in
    turn by a head of department, a dean and an institutional head,
    ends with status approved and an empty [current_approver_role],
    with three approval rows appended in that order and the columns it
    was created with; the resource and hold rows are untouched, and its
    creator, a coordinator, can then complete it. *)
Theorem approval_chain (d : db) (eid : Z) (e : event)
  (uid1 uid2 uid3 : Z) (u1 u2 u3 : user) (c1 c2 c3 : string) :
  Sql.event_by_id eid d = Some e -> status e = "pending_hod" ->
  Sql.user_by_id uid1 d = Some u1 -> u_role u1 = "hod" ->
  Sql.user_by_id uid2 d = Some u2 -> u_role u2 = "dean" ->
  Sql.user_by_id uid3 d = Some u3 -> u_role u3 = "head" ->
  let d3 := run d [Approve (Some uid1) eid c1; Approve (Some uid2) eid c2;
                   Approve (Some uid3) eid c3] in
  (exists e3,
     Sql.event_by_id eid d3 = Some e3
     /\ status e3 = "approved" /\ current_approver_role e3 = EmptyString
     /\ same_booking e e3)
  /\ approvals d3
     = approvals d
       ++ [mkApproval eid (u_id u1) "hod" "approved" (Str.strip c1);
           mkApproval eid (u_id u2) "dean" "approved" (Str.strip c2);
           mkApproval eid (u_id u3) "head" "approved" (Str.strip c3)]
  /\ resources d3 = resources d
  /\ event_resources d3 = event_resources d
  /\ (forall uid4 u4,
        Sql.user_by_id uid4 d = Some u4 -> u_role u4 = "coordinator" ->
        created_by e = u_id u4 ->
        snd (complete_event d3 (Some uid4) eid) = Completed).
Proof.
  intros He Hs Hu1 Hr1 Hu2 Hr2 Hu3 Hr3 d3.
  unfold run in d3. cbn [fold_left handle] in d3.
  set (d1 := fst (approve_event d (Some uid1) eid c1)) in *.
  set (d2 := fst (approve_event d1 (Some uid2) eid c2)) in *.
  assert (H1 : current_approver d (Some uid1) eid u1 e).
  { apply logged_in_approver with (role := "hod"); auto. }
  assert (F1 : APPROVAL_FLOW (status e) = Some (u_role u1, "pending_dean"))
    by (rewrite Hs, Hr1; reflexivity).
  destruct (approve_once c1 H1 F1) as (U1 & E1 & A1 & R1 & V1).
  fold d1 in U1, E1, A1, R1, V1.
  set (e1 := Sql.with_status "pending_dean" (next_role_of "pending_dean") e)
    in *.
  assert (H2 : current_approver d1 (Some uid2) eid u2 e1).
  { apply logged_in_approver with (role := "dean"); auto.
    unfold Sql.user_by_id. now rewrite U1. }
  assert (F2 : APPROVAL_FLOW (status e1) = Some (u_role u2, "pending_head"))
    by (rewrite Hr2; reflexivity).
  destruct (approve_once c2 H2 F2) as (U2 & E2 & A2 & R2 & V2).
  fold d2 in U2, E2, A2, R2, V2.
  set (e2 := Sql.with_status "pending_head" (next_role_of "pending_head") e1)
    in *.
  assert (H3 : current_approver d2 (Some uid3) eid u3 e2).
  { apply logged_in_approver with (role := "head"); auto.
    unfold Sql.user_by_id. now rewrite U2, U1. }
  assert (F3 : APPROVAL_FLOW (status e2) = Some (u_role u3, "approved"))
    by (rewrite Hr3; reflexivity).
  destruct (approve_once c3 H3 F3) as (U3 & E3 & A3 & R3 & V3).
  fold d3 in U3, E3, A3, R3, V3.
  split.
  { eexists. split; [exact E3|]. now repeat split. }
  split.
  { rewrite A3, A2, A1, Hr1, Hr2, Hr3, <- !app_assoc. reflexivity. }
  split; [now rewrite R3, R2, R1|].
  split; [now rewrite V3, V2, V1|].
  intros uid4 u4 Hu4 Hr4 Hcr.
  erewrite complete_event_ok; [reflexivity|].
  split; [exists uid4; split; [reflexivity|];
          unfold Sql.user_by_id in *; rewrite U3, U2, U1; exact Hu4|].
  split; [exact Hr4|]. split; [exact E3|]. now split.
Qed.

Lemma approval_chain_witness :
  let d3 := run booked [Approve (Some 2) 1 "a"; Approve (Some 3) 1 "b";
                        Approve (Some 4) 1 "c"] in
  Sql.event_by_id 1 booked = Some talk_row
  /\ status talk_row = "pending_hod"
  /\ resources d3 = resources booked
  /\ snd (complete_event d3 (Some 1) 1) = Completed.
Proof.
  intros d3.
  assert (H : Sql.event_by_id 1 booked = Some talk_row) by reflexivity.
  split; [exact H|]. split; [reflexivity|].
  destruct (@approval_chain booked 1 talk_row 2 3 4 (mkUser 2 "hod")
              (mkUser 3 "dean") (mkUser 4 "head") "a" "b" "c" H eq_refl
              eq_refl eq_refl eq_refl eq_refl eq_refl eq_refl)
    as (_ & _ & H3 & _ & H5).
  split; [exact H3|].
  exact (H5 1 (mkUser 1 "coordinator") eq_refl eq_refl eq_refl).
Defined.

(** ** The page of a booking and the handlers behind its buttons *)

Lemma find_unique (l : list event) (x : Z) (e : event) :
  NoDup (map e_id l) -> In e l -> e_id e = x ->
  find (fun r => e_id r =? x) l = Some e.
Proof.
  intros Hnd Hin Hid.
  destruct (find (fun r => e_id r =? x) l) as [e'|] eqn:F.
  - f_equal. symmetry. exact (@unique_row l x e' e Hnd F Hin Hid).
  - pose proof (find_none _ _ F e Hin) as H. simpl in H.
    rewrite Hid, Z.eqb_refl in H. discriminate.
Qed.

Lemma event_detail_page (d : db) (s : session) (eid : Z) (p : detail_page) :
  event_ids_unique d ->
  event_detail d s eid = DetailPage p ->
  exists uid g_user,
    s = Some uid /\ Sql.user_by_id uid d = Some g_user
    /\ Sql.event_by_id eid d = Some (dp_event p)
    /\ can_approve p
       = Str.mem (u_role g_user) ["hod"; "dean"; "head"]
         && String.eqb (status (dp_event p))
              ("pending_" ++ u_role g_user)%string
    /\ can_complete p
       = String.eqb (u_role g_user) "coordinator"
         && (created_by (dp_event p) =? u_id g_user)
         && String.eqb (status (dp_event p)) "approved".
Proof.
  intros Hnd. unfold event_detail.
  destruct s as [uid|]; [|discriminate].
  destruct (joined_event eid d) as [ev|] eqn:J; [|discriminate].
  destruct (Sql.venue_by_id (venue_id ev) d) as [v|]; [|discriminate].
  destruct (Sql.user_by_id (created_by ev) d) as [cr|]; [|discriminate].
  unfold load_user. destruct (Sql.user_by_id uid d) as [g|] eqn:G;
    [|discriminate].
  intros X. injection X as <-. cbn [dp_event can_approve can_complete].
  exists uid, g. split; [reflexivity|]. split; [exact G|].
  split; [|now split].
  unfold joined_event in J. apply find_some in J. destruct J as [Hin Hp].
  rewrite !andb_true_iff in Hp. destruct Hp as [[Hid _] _].
  apply Z.eqb_eq in Hid. now apply find_unique.
Qed.

(** X9. On a store with unique booking ids, the page of a booking
    offers the approve and reject buttons exactly when an approval by
    the same caller would succeed, in which case a rejection with a
    non-blank reason succeeds as well, and it offers the complete
    button exactly when a completion by the same caller would succeed. *)
Theorem buttons_match_handlers (d : db) (s : session) (eid : Z)
  (p : detail_page) (c : string) :
  event_ids_unique d ->
  event_detail d s eid = DetailPage p ->
  (can_approve p = true <->
   exists nxt, snd (approve_event d s eid c) = Approved nxt)
  /\ (can_approve p = true ->
      forall reason, Str.strip reason <> EmptyString ->
        snd (reject_event d s eid reason) = Rejected)
  /\ (can_complete p = true <-> snd (complete_event d s eid) = Completed).
Proof.
  intros Hnd Hp.
  destruct (@event_detail_page d s eid p Hnd Hp)
    as (uid & g & -> & Hg & He & Ha & Hc).
  assert (Hcur : can_approve p = true ->
                 current_approver d (Some uid) eid g (dp_event p)).
  { rewrite Ha. intros H. apply andb_true_iff in H. destruct H as [H1 H2].
    apply String.eqb_eq in H2. split; [exists uid; now split|].
    now repeat split. }
  split; [split|split; [|split]].
  - intros H. specialize (Hcur H).
    destruct (current_approver_flow Hcur) as (nxt & Hf & _).
    exists nxt. now rewrite (approve_event_ok c Hcur Hf).
  - intros (nxt & H).
    destruct (approve_event d (Some uid) eid c) as [d' r] eqn:E.
    simpl in H. subst r. apply approve_event_inv in E.
    destruct E as (u & e & ((uid' & Eu & Hu) & Hr & He' & Hs) & _).
    injection Eu as <-. rewrite Hg in Hu. injection Hu as <-.
    rewrite He in He'. injection He' as <-.
    rewrite Ha, Hr, Hs. now rewrite String.eqb_refl.
  - intros H reason Hreason. specialize (Hcur H).
    apply truthy_nonempty in Hreason.
    destruct (current_approver_label Hcur) as (label & Hlab).
    now rewrite (reject_event_ok reason Hcur Hreason Hlab).
  - rewrite Hc. intros H. rewrite !andb_true_iff in H.
    destruct H as [[H1 H2] H3].
    apply String.eqb_eq in H1, H3. apply Z.eqb_eq in H2.
    assert (Hm : may_complete d (Some uid) eid g (dp_event p)).
    { split; [exists uid; now split|]. now repeat split. }
    now rewrite (complete_event_ok Hm).
  - intros H.
    destruct (complete_event d (Some uid) eid) as [d' r] eqn:E.
    simpl in H. subst r. apply complete_event_inv in E.
    destruct E as (u & e & (uid' & Eu & Hu) & Hr & He' & Hs & Hcr).
    injection Eu as <-. rewrite Hg in Hu. injection Hu as <-.
    rewrite He in He'. injection He' as <-.
    rewrite Hc, Hr, Hs, Hcr, Z.eqb_refl. reflexivity.
Qed.

Lemma buttons_match_handlers_witness :
  event_ids_unique booked
  /\ event_detail booked (Some 2) 1
     = DetailPage (mkDetail talk_row (mkVenue 2 "Seminar Hall 1" 100)
                     (mkUser 1 "coordinator") true false)
  /\ exists nxt, snd (approve_event booked (Some 2) 1 "ok") = Approved nxt.
Proof.
  assert (H1 : event_ids_unique booked)
    by (vm_compute; repeat constructor; simpl; tauto).
  assert (H2 : event_detail booked (Some 2) 1
               = DetailPage (mkDetail talk_row
                               (mkVenue 2 "Seminar Hall 1" 100)
                               (mkUser 1 "coordinator") true false))
    by reflexivity.
  split; [exact H1|]. split; [exact H2|].
  exact (proj1 (proj1 (@buttons_match_handlers booked (Some 2) 1 _ "ok"
                         H1 H2)) eq_refl).
Defined.

(** ** Nothing is deleted or rewritten *)

(** What a request does to the other tables: [users] and [venues] stay,
    [approvals] and [notifications] each gain at most one row. *)
Lemma handle_tables (d : db) (q : request) :
  users (fst (handle d q)) = users d
  /\ venues (fst (handle d q)) = venues d
  /\ (exists la, approvals (fst (handle d q)) = approvals d ++ la
        /\ (List.length la <= 1)%nat
        /\ forall a, In a la ->
             a_action a = "approved" \/ a_action a = "rejected")
  /\ (exists ln, notifications (fst (handle d q)) = notifications d ++ ln
        /\ (List.length ln <= 1)%nat).
Proof.
  assert (Hsame : forall d', d' = d ->
            users d' = users d /\ venues d' = venues d
            /\ (exists la, approvals d' = approvals d ++ la
                  /\ (List.length la <= 1)%nat
                  /\ forall a, In a la ->
                       a_action a = "approved" \/ a_action a = "rejected")
            /\ (exists ln, notifications d' = notifications d ++ ln
                  /\ (List.length ln <= 1)%nat)).
  { intros d' ->. split; [reflexivity|]. split; [reflexivity|].
    split; exists []; rewrite app_nil_r; simpl; repeat split; auto.
    intros a []. }
  destruct q as [s m f | s eid c | s eid reason | s eid]; simpl.
  - destruct (new_event d s m f) as [d' r] eqn:E.
    destruct r;
      try (apply Hsame; eapply new_event_unchanged; [exact E | discriminate]).
    pose proof E as E'. apply new_event_inv in E'.
    destruct E' as (-> & u & ea & vid & v & reqs & Hw & Ha).
    erewrite new_event_ok in E by eassumption.
    injection E as E; subst. cbn [fst users venues approvals notifications].
    split; [reflexivity|]. split; [reflexivity|]. split.
    + exists []. rewrite app_nil_r. simpl. repeat split; auto. intros a [].
    + exists (hod_notice d f). split; [reflexivity|].
      unfold hod_notice. destruct (Sql.user_by_role "hod" d); simpl; lia.
  - destruct (approve_event d s eid c) as [d' r] eqn:E.
    destruct r;
      try (apply Hsame; eapply approve_event_unchanged;
           [exact E | discriminate]).
    pose proof E as E'. apply approve_event_inv in E'.
    destruct E' as (u & e & Hc & Hf).
    erewrite approve_event_ok in E by eassumption.
    injection E as E; subst. cbn [fst users venues approvals notifications].
    split; [reflexivity|]. split; [reflexivity|]. split.
    + eexists. split; [reflexivity|]. split; [simpl; lia|].
      intros a [<- | []]. now left.
    + eexists. split; [reflexivity|]. unfold approval_notice.
      destruct (String.eqb next_status "approved"); [simpl; lia|].
      destruct (Sql.user_by_role _ d); simpl; lia.
  - destruct (reject_event d s eid reason) as [d' r] eqn:E.
    destruct r;
      try (apply Hsame; eapply reject_event_unchanged;
           [exact E | discriminate]).
    pose proof E as E'. apply reject_event_inv in E'.
    destruct E' as (u & e & Hc & Ht).
    pose proof Hc as Hlab. apply current_approver_label in Hlab.
    destruct Hlab as (label & Hlab).
    erewrite reject_event_ok in E by eassumption.
    injection E as E; subst. cbn [fst users venues approvals notifications].
    split; [reflexivity|]. split; [reflexivity|]. split.
    + eexists. split; [reflexivity|]. split; [simpl; lia|].
      intros a [<- | []]. now right.
    + eexists. split; [reflexivity|]. simpl. lia.
  - destruct (complete_event d s eid) as [d' r] eqn:E.
    destruct r;
      try (apply Hsame; eapply complete_event_unchanged;
           [exact E | discriminate]).
    pose proof E as E'. apply complete_event_inv in E'.
    destruct E' as (u & e & Hc).
    erewrite complete_event_ok in E by eassumption.
    injection E as E; subst. cbn [fst users venues approvals notifications].
    split; [reflexivity|]. split; [reflexivity|].
    split; exists []; rewrite app_nil_r; simpl; repeat split; auto.
    intros a [].
Qed.

Lemma events_step_kept (d : db) (l : list event) :
  events_step d l ->
  exists l1 l2, l = l1 ++ l2 /\ Forall2 same_booking (events d) l1
    /\ (List.length l2 <= 1)%nat.
Proof.
  assert (Hrefl : forall es, Forall2 same_booking es es).
  { induction es; constructor; auto. now repeat split. }
  assert (Hmap : forall eid g es,
            (forall x, same_booking x (g x)) ->
            Forall2 same_booking es (map (Sql.on_row eid g) es)).
  { intros eid g es Hg. apply Forall2_map_right. intros x.
    unfold Sql.on_row. destruct (e_id x =? eid); [apply Hg|].
    now repeat split. }
  intros Hstep.
  destruct Hstep.
  - exists (events d), []. rewrite app_nil_r. simpl. auto.
  - eexists (events d), [_]. simpl. auto.
  - eexists _, []. rewrite app_nil_r. split; [reflexivity|].
    split; [apply Hmap; intros x; now repeat split | simpl; lia].
  - eexists _, []. rewrite app_nil_r. split; [reflexivity|].
    split; [apply Hmap; intros x; now repeat split | simpl; lia].
  - eexists _, []. rewrite app_nil_r. split; [reflexivity|].
    split; [apply Hmap; intros x; now repeat split | simpl; lia].
Qed.

Lemma mark_read_from_later (i k uid : Z) (l : list notification) :
  Forall2 (fun n n' => read_later n n' /\ (n_user_id n <> uid -> n' = n))
    l (mark_read_from i k uid l).
Proof.
  revert i. induction l as [|n l IH]; intros i; simpl; constructor; auto.
  destruct ((i =? k) && (n_user_id n =? uid)) eqn:E.
  - apply andb_true_iff in E. destruct E as [_ E]. apply Z.eqb_eq in E.
    split; [now repeat split; auto | intros N; contradiction].
  - split; [now repeat split; auto | reflexivity].
Qed.

Lemma Forall2_same {A : Type} (R : A -> A -> Prop) (l : list A) :
  (forall x, R x x) -> Forall2 R l l.
Proof. intros H. induction l; constructor; auto. Qed.

(** X10. No action deletes or rewrites history: the approval log only
    grows, by at most one row with action approved or rejected, and its
    older rows stay as they are; the hold rows only grow; the bookings
    stay in place with the columns they were created with, at most one
    being added; the notifications stay in place with their addressee
    and message, only their read flag may be set, and at most one is
    added. *)
Theorem history_is_kept (d : db) (a : action) :
  (exists la, approvals (perform d a) = approvals d ++ la
     /\ (List.length la <= 1)%nat
     /\ forall x, In x la ->
          a_action x = "approved" \/ a_action x = "rejected")
  /\ (exists lh, event_resources (perform d a) = event_resources d ++ lh)
  /\ (exists l1 l2, events (perform d a) = l1 ++ l2
        /\ Forall2 same_booking (events d) l1
        /\ (List.length l2 <= 1)%nat)
  /\ (exists l1 l2, notifications (perform d a) = l1 ++ l2
        /\ Forall2 read_later (notifications d) l1
        /\ (List.length l2 <= 1)%nat).
Proof.
  assert (Hrl : forall l, Forall2 read_later l l).
  { intros l. apply Forall2_same. intros x. now repeat split; auto. }
  assert (Hnone : forall d',
            approvals d' = approvals d ->
            event_resources d' = event_resources d ->
            notifications d' = notifications d ->
            (exists la, approvals d' = approvals d ++ la
               /\ (List.length la <= 1)%nat
               /\ forall x, In x la ->
                    a_action x = "approved" \/ a_action x = "rejected")
            /\ (exists lh, event_resources d' = event_resources d ++ lh)
            /\ (exists l1 l2, notifications d' = l1 ++ l2
                  /\ Forall2 read_later (notifications d) l1
                  /\ (List.length l2 <= 1)%nat)).
  { intros d' -> -> ->.
    split; [exists []; rewrite app_nil_r; simpl; repeat split; auto;
            intros x []|].
    split; [exists []; now rewrite app_nil_r|].
    exists (notifications d), []. rewrite app_nil_r. simpl. auto. }
  assert (Hev : exists l1 l2, events (perform d a) = l1 ++ l2
                  /\ Forall2 same_booking (events d) l1
                  /\ (List.length l2 <= 1)%nat)
    by exact (events_step_kept (perform_step d a)).
  cut ((exists la, approvals (perform d a) = approvals d ++ la
          /\ (List.length la <= 1)%nat
          /\ forall x, In x la ->
               a_action x = "approved" \/ a_action x = "rejected")
       /\ (exists lh, event_resources (perform d a) = event_resources d ++ lh)
       /\ (exists l1 l2, notifications (perform d a) = l1 ++ l2
             /\ Forall2 read_later (notifications d) l1
             /\ (List.length l2 <= 1)%nat)).
  { intros (H1 & H2 & H3). auto. }
  clear Hev.
  destruct a as [q | s m n c | s m n c | s k |]; simpl.
  - destruct (handle_tables d q) as (_ & _ & Ha & (ln & Hn & Hlen)).
    split; [exact Ha|]. split.
    + destruct (handle_stock d q)
        as [(Hh & _) | (f & eid & reqs & _ & _ & Hh)]; rewrite Hh;
        [exists []; now rewrite app_nil_r | eexists; reflexivity].
    + exists (notifications d), ln. auto.
  - destruct (manage_venues_cases d s m n c)
      as [-> | (x & y & _ & _ & _ & ->)]; now apply Hnone.
  - destruct (manage_resources_cases d s m n c)
      as [-> | (x & y & _ & _ & _ & ->)]; now apply Hnone.
  - destruct (mark_notification_read_cases d s k) as [-> | (u & _ & ->)];
      [now apply Hnone|].
    destruct (Hnone d eq_refl eq_refl eq_refl) as (H1 & H2 & _).
    split; [exact H1|]. split; [exact H2|]. cbn [notifications set_notifications].
    eexists _, []. rewrite app_nil_r. split; [reflexivity|].
    split; [|simpl; lia].
    eapply Forall2_impl; [|apply mark_read_from_later].
    intros x y [H _]. exact H.
  - now apply Hnone.
Qed.

Lemma history_is_kept_witness :
  exists la,
    approvals (perform booked (Serve (Reject (Some 2) 1 "no")))
    = approvals booked ++ la
    /\ (List.length la <= 1)%nat.
Proof.
  destruct (history_is_kept booked (Serve (Reject (Some 2) 1 "no")))
    as ((la & H1 & H2 & _) & _).
  exists la. split; assumption.
Defined.

(** ** The admin pages *)

Lemma name_free_venue (name : string) (d : db) :
  venue_name_taken name d = false -> ~ In name (map v_name (venues d)).
Proof.
  unfold venue_name_taken. intros H Hin. apply in_map_iff in Hin.
  destruct Hin as (v & Hv & Hin).
  assert (E : existsb (fun v => String.eqb (v_name v) name) (venues d) = true).
  { apply existsb_exists. exists v. split; [exact Hin|].
    now apply String.eqb_eq. }
  congruence.
Qed.

Lemma name_free_resource (name : string) (d : db) :
  resource_name_taken name d = false -> ~ In name (map r_name (resources d)).
Proof.
  unfold resource_name_taken. intros H Hin. apply in_map_iff in Hin.
  destruct Hin as (r & Hr & Hin).
  assert (E : existsb (fun r => String.eqb (r_name r) name) (resources d)
              = true).
  { apply existsb_exists. exists r. split; [exact Hin|].
    now apply String.eqb_eq. }
  congruence.
Qed.

Lemma fresh_rowid (ids : list Z) : ~ In (Sql.next_rowid ids) ids.
Proof. intros Hin. apply next_rowid_above in Hin. lia. Qed.

Lemma venues_ok_add (d : db) (name : string) (cap : Z) :
  name <> EmptyString -> 0 < cap -> venue_name_taken name d = false ->
  venues_ok d ->
  venues_ok
    (set_venues
       (venues d ++ [mkVenue (Sql.next_rowid (map v_id (venues d))) name cap])
       d).
Proof.
  intros Hn Hc Hfree (H1 & H2 & H3). unfold venues_ok. simpl.
  rewrite !map_app. simpl.
  split; [apply NoDup_snoc; [exact H1 | now apply name_free_venue]|].
  split; [apply NoDup_snoc; [exact H2 | apply fresh_rowid]|].
  intros v Hv. apply in_app_or in Hv.
  destruct Hv as [Hv | [<- | []]]; [now apply H3 | now split].
Qed.

Lemma resources_ok_add (d : db) (name : string) (total : Z) :
  name <> EmptyString -> 0 < total -> resource_name_taken name d = false ->
  resources_ok d ->
  resources_ok
    (set_resources
       (resources d ++
        [mkResource (Sql.next_rowid (map r_id (resources d))) name total
           total]) d).
Proof.
  intros Hn Hc Hfree (H1 & H2 & H3). unfold resources_ok. simpl.
  rewrite !map_app. simpl.
  split; [apply NoDup_snoc; [exact H1 | now apply name_free_resource]|].
  split; [apply NoDup_snoc; [exact H2 | apply fresh_rowid]|].
  intros r Hr. apply in_app_or in Hr.
  destruct Hr as [Hr | [<- | []]]; [now apply H3 | now split].
Qed.

Lemma resources_ok_moved (rs rs' : list resource) :
  Forall2 same_but_available rs rs' ->
  (NoDup (map r_name rs) /\ NoDup (map r_id rs)
   /\ forall r, In r rs -> r_name r <> EmptyString /\ 0 < total_quantity r) ->
  NoDup (map r_name rs') /\ NoDup (map r_id rs')
  /\ forall r, In r rs' -> r_name r <> EmptyString /\ 0 < total_quantity r.
Proof.
  intros HF.
  assert (Hmaps : map r_name rs' = map r_name rs
                  /\ map r_id rs' = map r_id rs).
  { induction HF as [|x y l l' Hxy _ IH]; simpl; [now split|].
    destruct Hxy as (E1 & E2 & _). destruct IH as [IH1 IH2].
    now rewrite E1, E2, IH1, IH2. }
  destruct Hmaps as [Hn Hi].
  intros (H1 & H2 & H3).
  rewrite Hn, Hi. split; [exact H1|]. split; [exact H2|].
  clear Hn Hi H1 H2. revert H3.
  induction HF as [|x y l l' Hxy _ IH]; intros H3.
  - intros r [].
  - destruct Hxy as (_ & E1 & E2). intros r [<- | Hr].
    + rewrite E1, E2. apply H3. now left.
    + apply IH; [|exact Hr]. intros z Hz. apply H3. now right.
Qed.

Lemma perform_catalogue (d : db) (a : action) :
  venues_ok d /\ resources_ok d ->
  venues_ok (perform d a) /\ resources_ok (perform d a).
Proof.
  intros [Hv Hr]. destruct a as [q | s m n c | s m n c | s k |]; simpl.
  - destruct (handle_tables d q) as (_ & Hven & _).
    split; [unfold venues_ok; now rewrite Hven|].
    unfold resources_ok. apply resources_ok_moved with (rs := resources d);
      [|exact Hr].
    destruct (handle_stock d q)
      as [(_ & hs & _ & ->) | (f & eid & reqs & _ & -> & _)];
      apply Forall2_map_right; intros r; now repeat split.
  - destruct (manage_venues_cases d s m n c)
      as [-> | (x & y & Hx & Hy & Hfree & ->)]; [now split|].
    split; [now apply venues_ok_add | exact Hr].
  - destruct (manage_resources_cases d s m n c)
      as [-> | (x & y & Hx & Hy & Hfree & ->)]; [now split|].
    split; [exact Hv | now apply resources_ok_add].
  - destruct (mark_notification_read_cases d s k) as [-> | (u & _ & ->)];
      now split.
  - unfold init_db, venues_ok, resources_ok. simpl. split.
    + destruct (venues d) as [|v0 vs] eqn:E; [|rewrite <- E; exact Hv].
      split; [repeat constructor; simpl; intuition discriminate|].
      split; [repeat constructor; simpl; intuition lia|].
      intros v Hin.
      repeat (destruct Hin as [<- | Hin];
              [split; [discriminate | simpl; lia]|]).
      destruct Hin.
    + destruct (resources d) as [|r0 rs] eqn:E; [|rewrite <- E; exact Hr].
      split; [repeat constructor; simpl; intuition discriminate|].
      split; [repeat constructor; simpl; intuition lia|].
      intros r Hin.
      repeat (destruct Hin as [<- | Hin];
              [split; [discriminate | simpl; lia]|]).
      destruct Hin.
Qed.

Lemma same_but_available_trans (l1 l2 l3 : list resource) :
  Forall2 same_but_available l1 l2 -> Forall2 same_but_available l2 l3 ->
  Forall2 same_but_available l1 l3.
Proof.
  intros H. revert l3. induction H as [|x y l1 l2 Hxy _ IH]; intros l3 H3.
  - inversion H3. constructor.
  - inversion H3 as [|? z ? l3' Hyz H3']; subst. constructor; [|now apply IH].
    destruct Hxy as (A1 & A2 & A3), Hyz as (B1 & B2 & B3).
    repeat split; congruence.
Qed.

(** An action appends to [venues] and [resources] at most, and leaves
    of an older resource row all but [available_quantity]. *)
Lemma perform_kept (d : db) (a : action) :
  (exists added, venues (perform d a) = venues d ++ added)
  /\ (exists kept added,
        resources (perform d a) = kept ++ added
        /\ Forall2 same_but_available (resources d) kept).
Proof.
  assert (Hsame : forall d',
            venues d' = venues d -> resources d' = resources d ->
            (exists added, venues d' = venues d ++ added)
            /\ (exists kept added,
                  resources d' = kept ++ added
                  /\ Forall2 same_but_available (resources d) kept)).
  { intros d' Hv Hr. split; [exists []; now rewrite app_nil_r|].
    exists (resources d), []. split; [now rewrite app_nil_r|].
    apply Forall2_same. intros r. now repeat split. }
  destruct a as [q | s m n c | s m n c | s k |]; simpl.
  - destruct (handle_tables d q) as (_ & Hven & _).
    split; [exists []; now rewrite app_nil_r|].
    destruct (handle_stock d q)
      as [(_ & hs & _ & ->) | (f & eid & reqs & _ & -> & _)];
      eexists; exists []; (split; [now rewrite app_nil_r|]);
      apply Forall2_map_right; intros r; now repeat split.
  - destruct (manage_venues_cases d s m n c)
      as [-> | (x & y & Hx & Hy & Hfree & ->)]; [now apply Hsame|].
    simpl. split; [eexists; reflexivity|].
    exists (resources d), []. split; [now rewrite app_nil_r|].
    apply Forall2_same. intros r. now repeat split.
  - destruct (manage_resources_cases d s m n c)
      as [-> | (x & y & Hx & Hy & Hfree & ->)]; [now apply Hsame|].
    simpl. split; [exists []; now rewrite app_nil_r|].
    exists (resources d). eexists. split; [reflexivity|].
    apply Forall2_same. intros r. now repeat split.
  - destruct (mark_notification_read_cases d s k) as [-> | (u & _ & ->)];
      now apply Hsame.
  - split.
    + destruct (venues d) as [|v0 vs]; [now eexists|].
      exists []. now rewrite app_nil_r.
    + destruct (resources d) as [|r0 rs].
      * exists [], (resources seed). split; [reflexivity | constructor].
      * exists (r0 :: rs), []. split; [now rewrite app_nil_r|].
        apply Forall2_same. intros r. now repeat split.
Qed.

(** X11. Through any sequence of actions, venues and resources keep
    unique names, unique ids, non-empty names and positive capacity or
    total quantity, and none is renamed, resized or removed: the rows of
    [venues] stay as they are, in place, with new rows only appended,
    and so do the rows of [resources] up to their
    [available_quantity]. *)
Theorem catalogue_stays_sound (d : db) (acts : list action) :
  venues_ok d -> resources_ok d ->
  venues_ok (play d acts) /\ resources_ok (play d acts)
  /\ (exists added, venues (play d acts) = venues d ++ added)
  /\ (exists kept added,
        resources (play d acts) = kept ++ added
        /\ Forall2 same_but_available (resources d) kept).
Proof.
  intros Hv Hr.
  assert (Hok : venues_ok (play d acts) /\ resources_ok (play d acts)).
  { apply (play_invariant (fun x => venues_ok x /\ resources_ok x));
      [apply perform_catalogue | now split]. }
  destruct Hok as [H1 H2].
  split; [exact H1|]. split; [exact H2|].
  apply (play_invariant
           (fun x => (exists added, venues x = venues d ++ added)
                     /\ (exists kept added,
                           resources x = kept ++ added
                           /\ Forall2 same_but_available (resources d) kept))).
  - intros x a [(av & Hav) (kept & ar & Har & Hk)].
    destruct (perform_kept x a) as [(av' & Hav') (kept' & ar' & Har' & Hk')].
    split.
    + exists (av ++ av'). now rewrite Hav', Hav, app_assoc.
    + rewrite Har in Hk'. apply Forall2_app_inv_l in Hk'.
      destruct Hk' as (k1 & k2 & Hk1 & Hk2 & ->).
      exists k1, (k2 ++ ar'). split; [now rewrite Har', app_assoc|].
      exact (same_but_available_trans Hk Hk1).
  - split; [exists []; now rewrite app_nil_r|].
    exists (resources d), []. split; [now rewrite app_nil_r|].
    apply Forall2_same. intros r. now repeat split.
Qed.

Lemma catalogue_stays_sound_witness :
  let acts := [ManageVenues (Some 5) POST " Lab 2 " (Some 25);
               ManageVenues (Some 5) POST "Lab 2" (Some 40);
               ManageResources (Some 5) POST "Camera" (Some 3);
               ManageResources (Some 5) POST "Drone" (Some 0);
               Serve (SubmitBooking (Some 1) POST talk);
               Restart] in
  venues_ok seed /\ resources_ok seed
  /\ venues (play seed acts) = venues seed ++ [mkVenue 4 "Lab 2" 25]
  /\ resources (play seed acts)
     = [mkResource 1 "Projector" 5 3; mkResource 2 "Microphone" 10 10;
        mkResource 3 "Laptop" 8 8; mkResource 4 "Whiteboard" 15 15]
       ++ [mkResource 5 "Camera" 3 3]
  /\ venues_ok (play seed acts) /\ resources_ok (play seed acts).
Proof.
  intros acts.
  assert (H1 : venues_ok seed).
  { split; [repeat constructor; simpl; intuition discriminate|].
    split; [repeat constructor; simpl; intuition lia|].
    intros v Hin. simpl in Hin.
    repeat (destruct Hin as [<- | Hin];
            [split; [discriminate | simpl; lia]|]).
    destruct Hin. }
  assert (H2 : resources_ok seed).
  { split; [repeat constructor; simpl; intuition discriminate|].
    split; [repeat constructor; simpl; intuition lia|].
    intros r Hin. simpl in Hin.
    repeat (destruct Hin as [<- | Hin];
            [split; [discriminate | simpl; lia]|]).
    destruct Hin. }
  split; [exact H1|]. split; [exact H2|].
  split; [vm_compute; reflexivity|]. split; [vm_compute; reflexivity|].
  destruct (@catalogue_stays_sound seed acts H1 H2) as (H3 & H4 & _).
  split; [exact H3 | exact H4].
Defined.

Lemma find_snoc_fresh {A : Type} (key : A -> Z) (l : list A) (x : A) :
  key x = Sql.next_rowid (map key l) ->
  find (fun y => key y =? key x) (l ++ [x]) = Some x.
Proof.
  intros E. assert (Hfresh : ~ In (key x) (map key l))
    by (rewrite E; apply fresh_rowid).
  clear E. induction l as [|y l IH]; simpl in *.
  - now rewrite Z.eqb_refl.
  - destruct (Z.eqb_spec (key y) (key x)) as [Ey | Ey]; [tauto|].
    apply IH. tauto.
Qed.

(** X12. When [manage_venues] reports a venue as added, the venue is
    the last row of the table, carries the stripped name and the
    capacity of the form, which is positive, and is found under its new
    id; nothing else in the store changes; and a further addition under
    that name, by whoever and whatever the capacity, changes nothing
    and is not reported as added. *)
Theorem venue_added_once (d d' : db) (s : session) (m : http_method)
  (n name : string) (c : option Z) :
  manage_venues d s m n c = (d', AdminAdded name) ->
  name = Str.strip n /\ name <> EmptyString
  /\ (exists v,
        venues d' = venues d ++ [v] /\ v_name v = name
        /\ c = Some (v_capacity v) /\ 0 < v_capacity v
        /\ Sql.venue_by_id (v_id v) d' = Some v)
  /\ d' = set_venues (venues d') d
  /\ (forall s2 m2 n2 c2,
        Str.strip n2 = name ->
        fst (manage_venues d' s2 m2 n2 c2) = d'
        /\ forall x, snd (manage_venues d' s2 m2 n2 c2) <> AdminAdded x).
Proof.
  unfold manage_venues at 1.
  destruct (login_required s); [discriminate|].
  destruct (role_required ["admin"] (load_user d s)); [discriminate|].
  destruct m; [discriminate|].
  destruct c as [cap|]; [|discriminate].
  destruct (Str.truthy (Str.strip n) && (0 <? cap)) eqn:E; [|discriminate].
  destruct (Sql.fits cap); simpl; [|discriminate].
  destruct (venue_name_taken (Str.strip n) d) eqn:T; [discriminate|].
  intros X. injection X as <- <-.
  apply andb_true_iff in E. destruct E as [E1 E2].
  apply truthy_nonempty in E1. apply Z.ltb_lt in E2.
  split; [reflexivity|]. split; [exact E1|]. split.
  { eexists. split; [reflexivity|]. simpl. repeat split; auto.
    unfold Sql.venue_by_id. simpl.
    apply (find_snoc_fresh v_id (venues d)
             (mkVenue (Sql.next_rowid (map v_id (venues d))) (Str.strip n)
                cap)).
    reflexivity. }
  split; [reflexivity|].
  intros s2 m2 n2 c2 Hn2. unfold manage_venues.
  destruct (login_required s2); [split; [reflexivity | discriminate]|].
  destruct (role_required ["admin"] _);
    [split; [reflexivity | discriminate]|].
  destruct m2; [split; [reflexivity | discriminate]|].
  destruct c2 as [cap2|]; [|split; [reflexivity | discriminate]].
  destruct (Str.truthy (Str.strip n2) && (0 <? cap2));
    [|split; [reflexivity | discriminate]].
  replace (venue_name_taken (Str.strip n2) _) with true;
    [rewrite orb_true_r; split; [reflexivity | discriminate]|].
  symmetry. unfold venue_name_taken. simpl. rewrite existsb_app. simpl.
  rewrite Hn2, String.eqb_refl. now rewrite orb_true_r.
Qed.

Lemma venue_added_once_witness :
  manage_venues seed (Some 5) POST " Lab 2 " (Some 25)
  = (set_venues (venues seed ++ [mkVenue 4 "Lab 2" 25]) seed,
     AdminAdded "Lab 2")
  /\ Sql.venue_by_id 4
       (set_venues (venues seed ++ [mkVenue 4 "Lab 2" 25]) seed)
     = Some (mkVenue 4 "Lab 2" 25).
Proof.
  assert (H : manage_venues seed (Some 5) POST " Lab 2 " (Some 25)
              = (set_venues (venues seed ++ [mkVenue 4 "Lab 2" 25]) seed,
                 AdminAdded "Lab 2")) by (vm_compute; reflexivity).
  split; [exact H|].
  destruct (@venue_added_once seed _ (Some 5) POST " Lab 2 " "Lab 2"
              (Some 25) H) as (_ & _ & (v & Hv & _ & _ & _ & Hf) & _).
  simpl in Hv. injection Hv as <-. exact Hf.
Defined.

(** X13. When [manage_resources] reports a resource as added, the
    resource is the last row of the table, carries the stripped name,
    has the positive quantity of the form both as total and as
    available, and is among the resources the booking form lists;
    nothing else in the store changes; and a further addition under
    that name changes nothing and is not reported as added. *)
Theorem resource_added_available (d d' : db) (s : session) (m : http_method)
  (n name : string) (c : option Z) :
  manage_resources d s m n c = (d', AdminAdded name) ->
  name = Str.strip n /\ name <> EmptyString
  /\ (exists r,
        resources d' = resources d ++ [r] /\ r_name r = name
        /\ c = Some (total_quantity r) /\ 0 < total_quantity r
        /\ available_quantity r = total_quantity r
        /\ In r (Sql.resources_by_name d'))
  /\ d' = set_resources (resources d') d
  /\ (forall s2 m2 n2 c2,
        Str.strip n2 = name ->
        fst (manage_resources d' s2 m2 n2 c2) = d'
        /\ forall x, snd (manage_resources d' s2 m2 n2 c2) <> AdminAdded x).
Proof.
  unfold manage_resources at 1.
  destruct (login_required s); [discriminate|].
  destruct (role_required ["admin"] (load_user d s)); [discriminate|].
  destruct m; [discriminate|].
  destruct c as [total|]; [|discriminate].
  destruct (Str.truthy (Str.strip n) && (0 <? total)) eqn:E; [|discriminate].
  destruct (Sql.fits total); simpl; [|discriminate].
  destruct (resource_name_taken (Str.strip n) d) eqn:T; [discriminate|].
  intros X. injection X as <- <-.
  apply andb_true_iff in E. destruct E as [E1 E2].
  apply truthy_nonempty in E1. apply Z.ltb_lt in E2.
  split; [reflexivity|]. split; [exact E1|]. split.
  { eexists. split; [reflexivity|]. simpl. repeat split; auto.
    eapply Permutation_in; [apply resources_by_name_perm|].
    simpl. apply in_or_app. right. now left. }
  split; [reflexivity|].
  intros s2 m2 n2 c2 Hn2. unfold manage_resources.
  destruct (login_required s2); [split; [reflexivity | discriminate]|].
  destruct (role_required ["admin"] _);
    [split; [reflexivity | discriminate]|].
  destruct m2; [split; [reflexivity | discriminate]|].
  destruct c2 as [total2|]; [|split; [reflexivity | discriminate]].
  destruct (Str.truthy (Str.strip n2) && (0 <? total2));
    [|split; [reflexivity | discriminate]].
  replace (resource_name_taken (Str.strip n2) _) with true;
    [rewrite orb_true_r; split; [reflexivity | discriminate]|].
  symmetry. unfold resource_name_taken. simpl. rewrite existsb_app. simpl.
  rewrite Hn2, String.eqb_refl. now rewrite orb_true_r.
Qed.

Lemma resource_added_available_witness :
  manage_resources seed (Some 5) POST "Camera " (Some 2)
  = (set_resources (resources seed ++ [mkResource 5 "Camera" 2 2]) seed,
     AdminAdded "Camera")
  /\ "Camera" = Str.strip "Camera ".
Proof.
  assert (H : manage_resources seed (Some 5) POST "Camera " (Some 2)
              = (set_resources (resources seed ++ [mkResource 5 "Camera" 2 2])
                   seed, AdminAdded "Camera")) by (vm_compute; reflexivity).
  split; [exact H|].
  exact (proj1 (@resource_added_available seed _ (Some 5) POST "Camera "
                  "Camera" (Some 2) H)).
Defined.

(** ** Marking a notification as read *)

Lemma mark_read_from_nth (i k uid : Z) (l : list notification) (j : nat) :
  nth_error (mark_read_from i k uid l) j
  = option_map (marked i k uid j) (nth_error l j).
Proof.
  revert i j. induction l as [|n l IH]; intros i j.
  - now destruct j.
  - destruct j as [|j]; simpl.
    + unfold marked. now rewrite Z.add_0_r.
    + rewrite IH. destruct (nth_error l j); [|reflexivity]. simpl.
      unfold marked. now replace (i + 1 + Z.of_nat j)
        with (i + Z.pos (Pos.of_succ_nat j)) by lia.
Qed.

Lemma mark_read_from_twice (i k uid : Z) (l : list notification) :
  mark_read_from i k uid (mark_read_from i k uid l)
  = mark_read_from i k uid l.
Proof.
  revert i. induction l as [|n l IH]; intros i; simpl; [reflexivity|].
  rewrite IH. f_equal.
  destruct ((i =? k) && (n_user_id n =? uid)) eqn:E; simpl; now rewrite E.
Qed.

(** X14. Marking a notification as read changes nothing but the read
    flag of the one notification with that number, and only when it is
    addressed to the caller, in which case the flag becomes 1: the
    notifications of other users, the other rows and the other tables
    stay as they are, and doing it again changes nothing. *)
Theorem mark_read_only_own (d : db) (s : session) (k : Z) :
  let d' := fst (mark_notification_read d s k) in
  d' = set_notifications (notifications d') d
  /\ List.length (notifications d') = List.length (notifications d)
  /\ (forall j n,
        nth_error (notifications d) j = Some n ->
        exists n',
          nth_error (notifications d') j = Some n'
          /\ read_later n n'
          /\ (Z.of_nat j + 1 <> k -> n' = n)
          /\ (forall u, load_user d s = Some u ->
                n_user_id n <> u_id u -> n' = n)
          /\ (forall u, load_user d s = Some u ->
                Z.of_nat j + 1 = k -> n_user_id n = u_id u ->
                n_is_read n' = 1))
  /\ fst (mark_notification_read d' s k) = d'.
Proof.
  intros d'. subst d'. unfold mark_notification_read.
  destruct s as [uid|].
  - simpl. destruct (Sql.user_by_id uid d) as [u|] eqn:Hu.
    + cbn [fst notifications set_notifications].
      split; [reflexivity|]. split.
      { clear Hu. generalize 1. induction (notifications d) as [|n l IH];
          intros i; simpl; [reflexivity|]. now rewrite IH. }
      split.
      * intros j n Hn. rewrite mark_read_from_nth, Hn. simpl.
        eexists. split; [reflexivity|]. unfold marked.
        replace (1 + Z.of_nat j) with (Z.of_nat j + 1) by lia.
        destruct (Z.eqb_spec (Z.of_nat j + 1) k) as [Ek | Ek];
          destruct (Z.eqb_spec (n_user_id n) (u_id u)) as [Eu | Eu]; simpl;
          (split; [now repeat split; auto|]);
          (split; [intros; congruence|]);
          (split; intros u0 Hu0; injection Hu0 as <-; intros;
           congruence).
      * unfold Sql.user_by_id in *. cbn [users set_notifications].
        rewrite Hu. cbn [fst notifications set_notifications].
        unfold set_notifications. cbn. now rewrite mark_read_from_twice.
    + cbn [fst]. split; [now destruct d|]. split; [reflexivity|]. split.
      * intros j n Hn. exists n. split; [exact Hn|].
        split; [now repeat split; auto|]. split; [reflexivity|].
        split; [reflexivity | discriminate].
      * now rewrite Hu.
  - cbn [fst]. split; [now destruct d|]. split; [reflexivity|]. split.
    + intros j n Hn. exists n. split; [exact Hn|].
      split; [now repeat split; auto|]. split; [reflexivity|].
      split; [reflexivity | discriminate].
    + reflexivity.
Qed.

Lemma mark_read_only_own_witness :
  nth_error (notifications booked) 0
  = Some (mkNotification 2 "New event 'Talk' requires your approval." 0)
  /\ exists n',
       nth_error (notifications (fst (mark_notification_read booked (Some 3) 1)))
         0 = Some n'
       /\ n' = mkNotification 2 "New event 'Talk' requires your approval." 0.
Proof.
  assert (H : nth_error (notifications booked) 0
              = Some (mkNotification 2
                        "New event 'Talk' requires your approval." 0))
    by reflexivity.
  split; [exact H|].
  destruct (mark_read_only_own booked (Some 3) 1) as (_ & _ & Hrow & _).
  destruct (Hrow 0%nat _ H) as (n' & H1 & _ & _ & H2 & _).
  exists n'. split; [exact H1|].
  apply (H2 (mkUser 3 "dean")); [reflexivity | simpl; lia].
Defined.

(** ** Restarting *)

Lemma perform_seeded (d : db) (a : action) :
  users d <> [] /\ venues d <> [] /\ resources d <> [] ->
  users (perform d a) <> [] /\ venues (perform d a) <> []
  /\ resources (perform d a) <> [].
Proof.
  assert (Hsnoc : forall (A : Type) (l : list A) (x : A), l ++ [x] <> [])
    by (intros A l x E; destruct l; discriminate).
  assert (Hmap : forall (A : Type) (g : A -> A) (l : list A),
            l <> [] -> map g l <> [])
    by (intros A g l H E; destruct l; [now apply H | discriminate]).
  intros (Hu & Hv & Hr).
  destruct a as [q | s m n c | s m n c | s k |]; simpl.
  - destruct (handle_tables d q) as (-> & -> & _).
    split; [exact Hu|]. split; [exact Hv|].
    destruct (handle_stock d q)
      as [(_ & hs & _ & ->) | (f & eid & reqs & _ & -> & _)];
      now apply Hmap.
  - destruct (manage_venues_cases d s m n c)
      as [-> | (x & y & _ & _ & _ & ->)]; simpl; auto.
  - destruct (manage_resources_cases d s m n c)
      as [-> | (x & y & _ & _ & _ & ->)]; simpl; auto.
  - destruct (mark_notification_read_cases d s k) as [-> | (u & _ & ->)];
      simpl; auto.
  - unfold init_db. simpl.
    destruct (users d); [now destruct Hu|].
    destruct (venues d); [now destruct Hv|].
    destruct (resources d); [now destruct Hr|].
    repeat split; discriminate.
Qed.

(** X15. [init_db] is idempotent, and once the store has a user, a
    venue and a resource it keeps having them through any sequence of
    actions, so that running [init_db] again then, as every start of
    the application does, changes nothing. *)
Theorem restart_changes_nothing (d : db) (acts : list action) :
  init_db (init_db d) = init_db d
  /\ (users d <> [] -> venues d <> [] -> resources d <> [] ->
      init_db (play d acts) = play d acts).
Proof.
  split.
  - unfold init_db. simpl.
    destruct (users d), (venues d), (resources d); reflexivity.
  - intros Hu Hv Hr.
    assert (H : users (play d acts) <> [] /\ venues (play d acts) <> []
                /\ resources (play d acts) <> []).
    { apply (play_invariant
               (fun x => users x <> [] /\ venues x <> [] /\ resources x <> []));
        [apply perform_seeded | now repeat split]. }
    destruct H as (H1 & H2 & H3). unfold init_db.
    destruct (play d acts) as [us vs rs es hs aps ns]. simpl in *.
    destruct us; [now destruct H1|].
    destruct vs; [now destruct H2|].
    destruct rs; [now destruct H3|]. reflexivity.
Qed.

Lemma restart_changes_nothing_witness :
  let acts := [Serve (SubmitBooking (Some 1) POST talk);
               ManageResources (Some 5) POST "Camera" (Some 2)] in
  users (init_db empty_db) <> [] /\ venues (init_db empty_db) <> []
  /\ resources (init_db empty_db) <> []
  /\ init_db (play (init_db empty_db) acts) = play (init_db empty_db) acts.
Proof.
  intros acts.
  assert (H1 : users (init_db empty_db) <> []) by discriminate.
  assert (H2 : venues (init_db empty_db) <> []) by discriminate.
  assert (H3 : resources (init_db empty_db) <> []) by discriminate.
  split; [exact H1|]. split; [exact H2|]. split; [exact H3|].
  exact (proj2 (restart_changes_nothing (init_db empty_db) acts) H1 H2 H3).
Defined.

(** ** Who changes the store, and when *)

Lemma handle_refusal (d : db) (q : request) :
  committed (snd (handle d q)) \/ fst (handle d q) = d.
Proof.
  unfold committed.
  destruct q as [s m f | s eid c | s eid reason | s eid]; simpl.
  - destruct (new_event d s m f) as [d' r] eqn:E.
    destruct r; try (right; eapply new_event_unchanged;
                     [exact E | discriminate]).
    left. now left.
  - destruct (approve_event d s eid c) as [d' r] eqn:E.
    destruct r; try (right; eapply approve_event_unchanged;
                     [exact E | discriminate]).
    left. right. left. now eexists.
  - destruct (reject_event d s eid reason) as [d' r] eqn:E.
    destruct r; try (right; eapply reject_event_unchanged;
                     [exact E | discriminate]).
    left. tauto.
  - destruct (complete_event d s eid) as [d' r] eqn:E.
    destruct r; try (right; eapply complete_event_unchanged;
                     [exact E | discriminate]).
    left. tauto.
Qed.

(** X16. A request that is refused, for whatever reason (not logged
    in, wrong role, unknown booking, failed validation, stale approver,
    missing reason), leaves the whole store as it was: the store changes
    only together with one of the four success answers, and on the
    admin pages only together with the answer that reports the
    addition. *)
Theorem refusals_change_nothing (d : db) :
  (forall q, fst (handle d q) <> d -> committed (snd (handle d q)))
  /\ (forall s m n c,
        fst (manage_venues d s m n c) <> d ->
        exists name, snd (manage_venues d s m n c) = AdminAdded name)
  /\ (forall s m n c,
        fst (manage_resources d s m n c) <> d ->
        exists name, snd (manage_resources d s m n c) = AdminAdded name)
  /\ (forall s k,
        fst (mark_notification_read d s k) <> d ->
        snd (mark_notification_read d s k) = ReadDone).
Proof.
  split; [intros q H; destruct (handle_refusal d q); tauto|].
  split.
  { intros s m n c H.
    destruct (manage_venues_cases d s m n c)
      as [E | (x & y & _ & _ & _ & E)]; [contradiction|].
    rewrite E. now eexists. }
  split.
  { intros s m n c H.
    destruct (manage_resources_cases d s m n c)
      as [E | (x & y & _ & _ & _ & E)]; [contradiction|].
    rewrite E. now eexists. }
  intros s k. unfold mark_notification_read.
  destruct s as [uid|]; [|simpl; tauto].
  destruct (load_user d (Some uid)); simpl; tauto.
Qed.

Lemma refusals_change_nothing_witness :
  fst (handle seed (SubmitBooking (Some 1) POST talk)) <> seed
  /\ committed (snd (handle seed (SubmitBooking (Some 1) POST talk))).
Proof.
  assert (H : fst (handle seed (SubmitBooking (Some 1) POST talk)) <> seed)
    by (vm_compute; discriminate).
  split; [exact H|].
  exact (proj1 (refusals_change_nothing seed) _ H).
Defined.

Lemma admin_only (d : db) (s : session) (u : user) :
  login_required s = inr tt ->
  role_required ["admin"] (load_user d s) = inr u ->
  exists uid, s = Some uid /\ Sql.user_by_id uid d = Some u
    /\ u_role u = "admin".
Proof.
  destruct s as [uid|]; [|discriminate]. intros _. simpl.
  unfold role_required. destruct (Sql.user_by_id uid d) as [u0|] eqn:Hu;
    [|discriminate].
  destruct (Str.mem (u_role u0) ["admin"]) eqn:E; [|discriminate].
  intros X. injection X as <-. exists uid.
  split; [reflexivity|]. split; [exact Hu|].
  unfold Str.mem in E. simpl in E. rewrite orb_false_r in E.
  now apply String.eqb_eq.
Qed.

(** X17. The store changes only for a caller who is entitled: a
    logged-in coordinator for a submission, the logged-in approver the
    booking is pending for in an approval or rejection, the logged-in
    coordinator who created the approved booking for a completion, a
    logged-in admin on the admin pages, and a logged-in user for
    marking a notification; only a restart changes it without a
    caller. *)
Theorem changes_are_authorised (d : db) (a : action) :
  perform d a <> d ->
  a = Restart
  \/ exists uid u,
       caller a = Some uid /\ Sql.user_by_id uid d = Some u
       /\ entitled d a u.
Proof.
  intros Hch.
  destruct a as [[s m f | s eid c | s eid reason | s eid]
                | s m n c | s m n c | s k |]; simpl in *;
    [ | | | | | | | now left]; right.
  - destruct (new_event d s m f) as [d' r] eqn:E.
    destruct r; try (exfalso; apply Hch; eapply new_event_unchanged;
                     [exact E | discriminate]).
    apply new_event_inv in E.
    destruct E as (_ & u & ea & vid & v & reqs
                   & ((uid & -> & Hu) & Hr & _) & _).
    now exists uid, u.
  - destruct (approve_event d s eid c) as [d' r] eqn:E.
    destruct r; try (exfalso; apply Hch; eapply approve_event_unchanged;
                     [exact E | discriminate]).
    apply approve_event_inv in E.
    destruct E as (u & e & ((uid & -> & Hu) & Hr & He & Hs) & _).
    exists uid, u. repeat split; auto. now exists e.
  - destruct (reject_event d s eid reason) as [d' r] eqn:E.
    destruct r; try (exfalso; apply Hch; eapply reject_event_unchanged;
                     [exact E | discriminate]).
    apply reject_event_inv in E.
    destruct E as (u & e & ((uid & -> & Hu) & Hr & He & Hs) & _).
    exists uid, u. repeat split; auto. now exists e.
  - destruct (complete_event d s eid) as [d' r] eqn:E.
    destruct r; try (exfalso; apply Hch; eapply complete_event_unchanged;
                     [exact E | discriminate]).
    apply complete_event_inv in E.
    destruct E as (u & e & (uid & -> & Hu) & Hr & He & Hs & Hc).
    exists uid, u. repeat split; auto. now exists e.
  - unfold manage_venues in Hch.
    destruct (login_required s) as [|[]] eqn:L; [now destruct Hch|].
    destruct (role_required ["admin"] (load_user d s)) as [|u] eqn:R;
      [now destruct Hch|].
    destruct (admin_only d s L R) as (uid & -> & Hu & Hr).
    now exists uid, u.
  - unfold manage_resources in Hch.
    destruct (login_required s) as [|[]] eqn:L; [now destruct Hch|].
    destruct (role_required ["admin"] (load_user d s)) as [|u] eqn:R;
      [now destruct Hch|].
    destruct (admin_only d s L R) as (uid & -> & Hu & Hr).
    now exists uid, u.
  - unfold mark_notification_read in Hch.
    destruct s as [uid|]; [|now destruct Hch].
    simpl in Hch. destruct (Sql.user_by_id uid d) as [u|] eqn:Hu;
      [|now destruct Hch].
    now exists uid, u.
Qed.

Lemma changes_are_authorised_witness :
  perform booked (Serve (Approve (Some 2) 1 "ok")) <> booked
  /\ exists uid u,
       caller (Serve (Approve (Some 2) 1 "ok")) = Some uid
       /\ Sql.user_by_id uid booked = Some u
       /\ entitled booked (Serve (Approve (Some 2) 1 "ok")) u.
Proof.
  assert (H : perform booked (Serve (Approve (Some 2) 1 "ok")) <> booked)
    by (vm_compute; discriminate).
  split; [exact H|].
  destruct (@changes_are_authorised booked (Serve (Approve (Some 2) 1 "ok")) H)
    as [E | E]; [discriminate E | exact E].
Defined.

(** ** Freed slots and notifications *)

(** X18. Once a booking is rejected or completed it blocks no slot: if
    it was the only booking in the way of a requested range of a venue
    on a date, the conflict query finds nothing after its rejection or
    completion. *)
Theorem release_frees_slot (d : db) (q : request) (eid vid : Z)
  (date st en : string) :
  releases eid d q = true ->
  (forall e, In e (events d) -> blocks vid date st en e -> e_id e = eid) ->
  Sql.conflicting_event vid date st en (fst (handle d q)) = None.
Proof.
  intros Hrel Honly. unfold releases in Hrel.
  pose proof (handle_step d q) as Hstep.
  assert (Hq : (exists s reason, q = Reject s eid reason
                  /\ snd (handle d q) = Rejected)
               \/ (exists s, q = Complete s eid
                     /\ snd (handle d q) = Completed)).
  { unfold release_of in Hrel.
    destruct q as [s m f | s x c | s x reason | s x]; try discriminate.
    - left. destruct (snd (handle d (Reject s x reason))) eqn:R;
        try discriminate.
      apply Z.eqb_eq in Hrel. subst x. now exists s, reason.
    - right. destruct (snd (handle d (Complete s x))) eqn:R;
        try discriminate.
      apply Z.eqb_eq in Hrel. subst x. now exists s. }
  assert (Hrows : exists g,
            (forall x, released_status (status (g x)) = true)
            /\ events (fst (handle d q)) = map (Sql.on_row eid g) (events d)).
  { destruct Hq as [(s & reason & -> & R) | (s & -> & R)]; simpl in *.
    - destruct (reject_event d s eid reason) as [d' r] eqn:E.
      simpl in R. subst r. pose proof E as E'. apply reject_event_inv in E'.
      destruct E' as (u & e & Hc & Ht).
      pose proof Hc as Hlab. apply current_approver_label in Hlab.
      destruct Hlab as (label & Hlab).
      erewrite reject_event_ok in E by eassumption.
      injection E as E; subst. eexists. split; [|reflexivity].
      reflexivity.
    - destruct (complete_event d s eid) as [d' r] eqn:E.
      simpl in R. subst r. pose proof E as E'. apply complete_event_inv in E'.
      destruct E' as (u & e & Hc).
      erewrite complete_event_ok in E by eassumption.
      injection E as E; subst. eexists. split; [|reflexivity].
      reflexivity. }
  destruct Hrows as (g & Hg & Hev).
  unfold Sql.conflicting_event. rewrite Hev.
  destruct (find _ (map (Sql.on_row eid g) (events d))) as [y'|] eqn:F;
    [|reflexivity].
  exfalso. apply find_some in F. destruct F as [Hin Hb].
  apply in_on_row in Hin.
  destruct Hin as (y & Hy & [[Hid ->] | [Hid ->]]).
  - unfold Sql.conflicts in Hb. rewrite !andb_true_iff in Hb.
    destruct Hb as [[_ Hs] _]. fold (released_status (status (g y))) in Hs.
    rewrite Hg in Hs. discriminate.
  - apply conflicts_blocks in Hb. apply Hid. now apply Honly.
Qed.

Lemma release_frees_slot_witness :
  releases 1 booked (Reject (Some 2) 1 "no") = true
  /\ (forall e, In e (events booked) ->
        blocks 2 "2024-05-01" "11:00" "13:00" e -> e_id e = 1)
  /\ Sql.conflicting_event 2 "2024-05-01" "11:00" "13:00"
       (fst (handle booked (Reject (Some 2) 1 "no"))) = None.
Proof.
  assert (H1 : releases 1 booked (Reject (Some 2) 1 "no") = true)
    by (vm_compute; reflexivity).
  assert (H2 : forall e, In e (events booked) ->
                 blocks 2 "2024-05-01" "11:00" "13:00" e -> e_id e = 1).
  { intros e [<- | []] _. reflexivity. }
  split; [exact H1|]. split; [exact H2|].
  exact (@release_frees_slot booked (Reject (Some 2) 1 "no") 1 2
           "2024-05-01" "11:00" "13:00" H1 H2).
Defined.

Lemma find_in_role (r : string) (d : db) (u : user) :
  Sql.user_by_role r d = Some u -> In u (users d) /\ u_role u = r.
Proof.
  unfold Sql.user_by_role. intros H. apply find_some in H.
  destruct H as [H1 H2]. apply String.eqb_eq in H2. now split.
Qed.

(** X19. Every notification a request inserts is unread and goes
    either to a user of the store whose role is hod, dean or head, or
    to the creator of one of its bookings; a submission notifies only a
    head of department, and a completion notifies nobody. *)
Theorem notices_are_addressed (d : db) (q : request) :
  exists ln,
    notifications (fst (handle d q)) = notifications d ++ ln
    /\ (forall n, In n ln ->
          n_is_read n = 0
          /\ ((exists u, In u (users d) /\ n_user_id n = u_id u
                 /\ Str.mem (u_role u) ["hod"; "dean"; "head"] = true)
              \/ (exists e, In e (events d)
                    /\ n_user_id n = created_by e)))
    /\ (forall s m f n,
          q = SubmitBooking s m f -> In n ln ->
          exists u, In u (users d) /\ n_user_id n = u_id u
            /\ u_role u = "hod")
    /\ (forall s eid, q = Complete s eid -> ln = []).
Proof.
  assert (Hsame : forall d', d' = d ->
            exists ln, notifications d' = notifications d ++ ln
              /\ (forall n, In n ln ->
                    n_is_read n = 0
                    /\ ((exists u, In u (users d) /\ n_user_id n = u_id u
                           /\ Str.mem (u_role u) ["hod"; "dean"; "head"]
                              = true)
                        \/ (exists e, In e (events d)
                              /\ n_user_id n = created_by e)))
              /\ (forall s m f n,
                    q = SubmitBooking s m f -> In n ln ->
                    exists u, In u (users d) /\ n_user_id n = u_id u
                      /\ u_role u = "hod")
              /\ (forall s eid, q = Complete s eid -> ln = [])).
  { intros d' ->. exists []. rewrite app_nil_r.
    split; [reflexivity|]. split; [intros n []|].
    split; [intros s m f n _ []|reflexivity]. }
  destruct q as [s m f | s eid c | s eid reason | s eid]; simpl.
  - destruct (new_event d s m f) as [d' r] eqn:E.
    destruct r;
      try (apply Hsame; eapply new_event_unchanged; [exact E | discriminate]).
    pose proof E as E'. apply new_event_inv in E'.
    destruct E' as (-> & u & ea & vid & v & reqs & Hw & Ha).
    erewrite new_event_ok in E by eassumption.
    injection E as E; subst. cbn [fst notifications].
    exists (hod_notice d f). split; [reflexivity|].
    assert (Hn : forall n, In n (hod_notice d f) ->
              n_is_read n = 0
              /\ exists u0, In u0 (users d) /\ n_user_id n = u_id u0
                   /\ u_role u0 = "hod").
    { unfold hod_notice. intros n Hin.
      destruct (Sql.user_by_role "hod" d) as [h|] eqn:Hh; [|destruct Hin].
      destruct Hin as [<- | []]. split; [reflexivity|].
      destruct (find_in_role _ _ Hh) as [H1 H2]. now exists h. }
    split; [|split; [|discriminate]].
    + intros n Hin. destruct (Hn n Hin) as (H0 & u0 & H1 & H2 & H3).
      split; [exact H0|]. left. exists u0. rewrite H3. now repeat split.
    + intros s0 m0 f0 n _ Hin. now destruct (Hn n Hin).
  - destruct (approve_event d s eid c) as [d' r] eqn:E.
    destruct r;
      try (apply Hsame; eapply approve_event_unchanged;
           [exact E | discriminate]).
    pose proof E as E'. apply approve_event_inv in E'.
    destruct E' as (u & e & Hc & Hf).
    erewrite approve_event_ok in E by eassumption.
    injection E as E; subst. cbn [fst notifications].
    exists (approval_notice d e next_status). split; [reflexivity|].
    split; [|split; discriminate].
    intros n Hin.
    pose proof Hc as (_ & _ & He & _). unfold Sql.event_by_id in He.
    apply find_some in He. destruct He as [He _].
    destruct (current_approver_flow Hc) as (n0 & Hn0 & Hcases).
    rewrite Hf in Hn0. injection Hn0 as <-.
    assert (Hrole : forall r, Str.mem r ["hod"; "dean"; "head"] = true ->
              In n (match Sql.user_by_role r d with
                    | Some next_user =>
                        [mkNotification (u_id next_user)
                           ("Event '" ++ title e
                            ++ "' requires your approval.")%string 0]
                    | None => []
                    end) ->
              n_is_read n = 0
              /\ ((exists u0, In u0 (users d) /\ n_user_id n = u_id u0
                     /\ Str.mem (u_role u0) ["hod"; "dean"; "head"] = true)
                  \/ (exists e0, In e0 (events d)
                        /\ n_user_id n = created_by e0))).
    { intros r Hr Hin'.
      destruct (Sql.user_by_role r d) as [h|] eqn:Hh; [|destruct Hin'].
      destruct Hin' as [<- | []]. split; [reflexivity|]. left.
      destruct (find_in_role _ _ Hh) as [H1 H2]. exists h.
      split; [exact H1|]. split; [reflexivity|]. now rewrite H2. }
    destruct Hcases as [[_ ->] | [[_ ->] | [_ ->]]].
    + apply (Hrole "dean"); [reflexivity | exact Hin].
    + apply (Hrole "head"); [reflexivity | exact Hin].
    + destruct Hin as [<- | []]. split; [reflexivity|]. right. now exists e.
  - destruct (reject_event d s eid reason) as [d' r] eqn:E.
    destruct r;
      try (apply Hsame; eapply reject_event_unchanged;
           [exact E | discriminate]).
    pose proof E as E'. apply reject_event_inv in E'.
    destruct E' as (u & e & Hc & Ht).
    pose proof Hc as Hlab. apply current_approver_label in Hlab.
    destruct Hlab as (label & Hlab).
    erewrite reject_event_ok in E by eassumption.
    injection E as E; subst. cbn [fst notifications].
    eexists. split; [reflexivity|]. split; [|split; discriminate].
    intros n [<- | []]. split; [reflexivity|]. right.
    pose proof Hc as (_ & _ & He & _). unfold Sql.event_by_id in He.
    apply find_some in He. destruct He as [He _]. now exists e.
  - destruct (complete_event d s eid) as [d' r] eqn:E.
    destruct r;
      try (apply Hsame; eapply complete_event_unchanged;
           [exact E | discriminate]).
    pose proof E as E'. apply complete_event_inv in E'.
    destruct E' as (u & e & Hc).
    erewrite complete_event_ok in E by eassumption.
    injection E as E; subst. cbn [fst notifications].
    exists []. rewrite app_nil_r. split; [reflexivity|].
    split; [intros n []|]. split; [discriminate | reflexivity].
Qed.
